(** * Assembly_Preprocessor: tokenizer, categorizer and aggregator

    A shallow embedding of [assembly_preprocessing.py].  Python lists are
    lists, the insertion-ordered [defaultdict(str)] is an association list
    with unique keys, exceptions are an error monad, the one [print] is a
    list of printed messages, and the quotient [round(a / b, 2)] is computed
    through a model of binary64 division. *)

From Stdlib Require Import ZArith QArith Qabs Lia Lqa Ascii String.
From stdpp Require Import base tactics option list strings.

Local Open Scope string_scope.
Local Open Scope list_scope.
Local Open Scope Z_scope.

(** ** Exceptions *)

(** Exception classes.  The three this code can raise are Python built-ins:
    [IndexError] (a subscript out of range), [ZeroDivisionError] (a division
    by zero) and [FileNotFoundError] ([open] on a path with no file).  The
    program defines no exception class; [UserDefined] stands for a class
    that a program would define. *)
Inductive exception : Type :=
  | IndexError
  | ZeroDivisionError
  | FileNotFoundError
  | UserDefined (name : string).

Inductive result (A : Type) : Type :=
  | Return (a : A)
  | Raise (e : exception).
Arguments Return {A} a.
Arguments Raise {A} e.

#[global] Instance result_ret : MRet result := λ A a, Return a.
#[global] Instance result_bind : MBind result := λ A B f m,
  match m with
  | Return a => f a
  | Raise e => Raise e
  end.

(** ** Python sequences *)

Module Py.

(** The position a subscript [i] denotes in a sequence of length [n]:
    negative subscripts count from the end, anything else out of range raises
    [IndexError]. *)
Definition index (n : nat) (i : Z) : result nat :=
  let j := if i <? 0 then i + Z.of_nat n else i in
  if (0 <=? j) && (j <? Z.of_nat n) then Return (Z.to_nat j) else Raise IndexError.

(** [l[i]]. *)
Definition getitem {A : Type} (l : list A) (i : Z) : result A :=
  j ← index (length l) i;
  match l !! j with
  | Some x => Return x
  | None => Raise IndexError
  end.

(** [l[i] += d] on a list of integers. *)
Definition iadd (l : list Z) (i : Z) (d : Z) : result (list Z) :=
  j ← index (length l) i;
  x ← getitem l i;
  Return (<[j := x + d]> l).

(** A [for] loop whose body may raise: the locals [a] are threaded through
    the elements of [l]. *)
Fixpoint foldM {A B : Type} (f : A → B → result A) (a : A) (l : list B) : result A :=
  match l with
  | [] => Return a
  | x :: l' => a' ← f a x; foldM f a' l'
  end.

(** One result per element, up to the first element that raises. *)
Fixpoint mapM {A B : Type} (f : A → result B) (l : list A) : result (list B) :=
  match l with
  | [] => Return []
  | x :: l' => y ← f x; ys ← mapM f l'; Return (y :: ys)
  end.

(** [s.split(sep)] for a one-character separator: never empty, the empty
    string splits into one empty fragment. *)
Fixpoint split (sep : ascii) (s : string) : list string :=
  match s with
  | EmptyString => [EmptyString]
  | String c s' =>
      if Ascii.eqb c sep then EmptyString :: split sep s'
      else match split sep s' with
           | w :: ws => String c w :: ws
           | [] => [String c EmptyString]
           end
  end.

(** [c in s] for a one-character string [c]. *)
Fixpoint contains (c : ascii) (s : string) : bool :=
  match s with
  | EmptyString => false
  | String d s' => Ascii.eqb d c || contains c s'
  end.

(** [s.replace(c, "")] for a one-character string [c]. *)
Fixpoint remove (c : ascii) (s : string) : string :=
  match s with
  | EmptyString => EmptyString
  | String d s' => if Ascii.eqb d c then remove c s' else String d (remove c s')
  end.

Definition newline : ascii := "010"%char.
Definition space : ascii := " "%char.
Definition quote : ascii := "'"%char.

(** [f.readlines()] on the text of a file: every line keeps its newline. *)
Fixpoint readlines (text : string) : list string :=
  match text with
  | EmptyString => []
  | String c s' =>
      if Ascii.eqb c newline then String c EmptyString :: readlines s'
      else match readlines s' with
           | l :: ls => String c l :: ls
           | [] => [String c EmptyString]
           end
  end.

(** [s[0]]. *)
Definition first_char (s : string) : result ascii :=
  match s with
  | String c _ => Return c
  | EmptyString => Raise IndexError
  end.

End Py.

(** ** Tokenizer *)

Definition separators : list string := ["["; "]"; ","].

(** The body of the inner loop of [tokenize_instructions], for one fragment
    of the function at [fun_index].  [fun_index] comes from
    [range(len(assembly_functions))], so [tokenized_functions[fun_index]]
    is always there. *)
Definition tokenize_step (fun_index : nat)
    (st : list string * list (list string)) (instruction : string)
    : list string * list (list string) :=
  let '(token_list, tokenized_functions) := st in
  let command := default "" (head (Py.split Py.space instruction)) in
  if decide (command ∉ separators) then
    let tokenized_functions := alter (λ f, f ++ [command]) fun_index tokenized_functions in
    if decide (command ∉ token_list)
    then (token_list ++ [command], tokenized_functions)
    else (token_list, tokenized_functions)
  else (token_list, tokenized_functions).

(** [tokenize_instructions]: the vocabulary [token_list] and the token
    sequences [tokenized_functions]. *)
Definition tokenize_instructions (assembly_functions : list string)
    : list string * list (list string) :=
  foldl (λ st p, foldl (tokenize_step p.2) st (Py.split Py.quote p.1))
        ([], replicate (length assembly_functions) [])
        (zip assembly_functions (seq 0 (length assembly_functions))).

(** ** Categorizer *)

(** Keys [(category, index)] of the assignment. *)
Definition key : Type := string * Z.

(** The [defaultdict(str)]: items in insertion order, keys unique. *)
Definition token_dict : Type := list (key * string).

(** [d[k] += v]: a missing key starts from the empty string and goes last,
    a present key keeps its place. *)
Fixpoint dict_iadd (d : token_dict) (k : key) (v : string) : token_dict :=
  match d with
  | [] => [(k, String.append "" v)]
  | (k', w) :: d' =>
      if decide (k' = k) then (k', String.append w v) :: d'
      else (k', w) :: dict_iadd d' k v
  end.

(** The default glossary.  The class [Assembly_Glossary] is imported from
    a module that is not part of the sources, so the results of its two
    accessors are taken as given: [getDictionary().items()] in order, each
    item a key whose first component is the category and a mnemonic, and
    [getCategories()]. *)
Record Assembly_Glossary : Type := {
  getDictionary : list (key * string);
  getCategories : list string;
}.

(** The object: [__init__] stores a default glossary. *)
Record Assembly_Preprocessor : Type := {
  default_glossary : Assembly_Glossary;
}.

(** The value passed as [instruction_glossary]: [None], a string, or a
    value of another type, of which only the name of the type is kept. *)
Inductive py_value : Type :=
  | PyNone
  | PyStr (s : string)
  | PyOther (type_name : string).

(** The files that can be opened: path to text, as the text layer of
    [open] delivers it. *)
Definition file_system : Type := string → option string.

(** Local variables of [token_categorizer]. *)
Record categorizer_state : Type := {
  cs_dict : token_dict;
  cs_features : list string;
  f_i : Z;
  e_i : Z;
}.

(** One line of the glossary file. *)
Definition file_step (special_char : ascii) (token_list : list string)
    (st : categorizer_state) (element : string) : result categorizer_state :=
  if Py.contains special_char element then
    let element := Py.remove Py.newline (Py.remove special_char element) in
    let features := cs_features st ++ [element] in
    c ← Py.getitem features (f_i st);
    Return {| cs_dict := dict_iadd (cs_dict st) (c, 0) "";
              cs_features := features;
              f_i := f_i st + 1;
              e_i := 0 |}
  else
    let element := Py.remove Py.newline (Py.remove Py.space element) in
    if decide (element ∈ token_list) then
      c ← Py.getitem (cs_features st) (f_i st - 1);
      Return {| cs_dict := dict_iadd (cs_dict st) (c, e_i st) element;
                cs_features := cs_features st;
                f_i := f_i st;
                e_i := e_i st + 1 |}
    else Return st.

(** One item of the default dictionary. *)
Definition default_step (token_list : list string)
    (st : categorizer_state) (item : key * string) : result categorizer_state :=
  let features := cs_features st in
  c ← Py.getitem features (f_i st);
  st ← (if decide (item.1.1 ≠ c) then
          c' ← Py.getitem features (f_i st + 1);
          Return {| cs_dict := dict_iadd (cs_dict st) (c', 0) "";
                    cs_features := features;
                    f_i := f_i st + 1;
                    e_i := 0 |}
        else Return st);
  if decide (item.2 ∈ token_list) then
    c ← Py.getitem features (f_i st);
    Return {| cs_dict := dict_iadd (cs_dict st) (c, e_i st) item.2;
              cs_features := features;
              f_i := f_i st;
              e_i := e_i st + 1 |}
  else Return st.

Definition nl : string := String Py.newline "".

(** What the one [print] writes (its four arguments joined by spaces and
    the final newline). *)
Definition warning : string :=
  String.concat "" [nl; nl; "WARNING: GLOSSARY PROVIDED IS WRONG OR INSUFFICIENT TO CLASSIFY";
    " "; "INSTRUCTIONS IN THE DATASET!!! "; nl; "BE SURE THAT #MNEMONIC IN THE";
    " "; "GLOSSARY >= THAN #MNEMONIC IN THE DATASET AND THAT the DOCUMENT IS";
    " "; "IN THE CORRECT FORMAT"; nl; nl; nl].

(** The file branch up to the end of its loop. *)
Definition file_mode (token_list : list string) (lines : list string)
    : result categorizer_state :=
  line ← Py.getitem lines 0;
  special_char ← Py.first_char line;
  Py.foldM (file_step special_char token_list)
    {| cs_dict := []; cs_features := []; f_i := 0; e_i := 0 |} lines.

(** The default branch. *)
Definition default_mode (glossary : Assembly_Glossary) (token_list : list string)
    : result categorizer_state :=
  let default_dict := getDictionary glossary in
  let features := getCategories glossary in
  c ← Py.getitem features 0;
  Py.foldM (default_step token_list)
    {| cs_dict := dict_iadd [] (c, 0) ""; cs_features := features; f_i := 0; e_i := 0 |}
    default_dict.

(** [token_categorizer]: what is printed, and the dictionary returned or
    the exception raised. *)
Definition token_categorizer (self : Assembly_Preprocessor) (fs : file_system)
    (token_list : list string) (instruction_glossary : py_value)
    : list string * result token_dict :=
  match instruction_glossary with
  | PyStr path =>
      match fs path with
      | None => ([], Raise FileNotFoundError)
      | Some text =>
          let lines := Py.readlines text in
          match file_mode token_list lines with
          | Raise e => ([], Raise e)
          | Return st =>
              (if Z.of_nat (length lines) - Z.of_nat (length (cs_features st))
                  <? Z.of_nat (length token_list)
               then [warning] else [],
               Return (cs_dict st))
          end
      end
  | _ =>
      ([], st ← default_mode (default_glossary self) token_list; Return (cs_dict st))
  end.

(** ** Floating-point quotient and rounding *)

(** A finite binary64 value [mantissa / 2 ^ shift] (times [2 ^ - shift] when
    [shift] is negative).  The exponent range is not bounded: the model
    agrees with binary64 on quotients between [2 ^ -1022] and [2 ^ 1024],
    so for every count below [2 ^ 1022]. *)
Record float : Type := { mantissa : Z; shift : Z }.

(** The integer nearest to [n / d], halves to the even neighbour ([0 < d]). *)
Definition round_half_even (n d : Z) : Z :=
  let q := n / d in
  let r := n mod d in
  if 2 * r <? d then q
  else if d <? 2 * r then q + 1
  else if Z.even q then q else q + 1.

(** [n * 2 ^ sh / d], rounded to an integer. *)
Definition scaled_quotient (n d sh : Z) : Z :=
  round_half_even (n * 2 ^ Z.max sh 0) (d * 2 ^ Z.max (- sh) 0).

(** The binary64 nearest to the quotient of two integers, [b] not zero: 53
    significant bits, halves to even. *)
Definition quotient (a b : Z) : float :=
  if a =? 0 then {| mantissa := 0; shift := 0 |}
  else
    let n := Z.abs a in
    let d := Z.abs b in
    let sh0 := 53 + Z.log2 d - Z.log2 n in
    let sh := if n * 2 ^ Z.max sh0 0 <? 2 ^ 53 * (d * 2 ^ Z.max (- sh0) 0)
              then sh0 else sh0 - 1 in
    {| mantissa := Z.sgn a * Z.sgn b * scaled_quotient n d sh; shift := sh |}.

(** [a / b] on integers; [b = 0] raises. *)
Definition truediv (a b : Z) : result float :=
  if b =? 0 then Raise ZeroDivisionError else Return (quotient a b).

(** [round(x, 2)], in hundredths: Python takes the two-digit decimal nearest
    to the exact value of [x], halves to even, and returns the binary64
    nearest to that decimal.  A cell of the table is identified by the
    number of hundredths of that decimal. *)
Definition round2 (x : float) : Z :=
  round_half_even (100 * mantissa x * 2 ^ Z.max (- shift x) 0) (2 ^ Z.max (shift x) 0).

(** ** Aggregator *)

(** [pd.DataFrame(data=..., columns=...)]: named columns and rows of cells,
    each cell in hundredths. *)
Record DataFrame : Type := {
  columns : list string;
  data : list (list Z);
}.

(** The first loop of [assembly_dataframer]: category names in the order in
    which the items first show them. *)
Definition dict_categories (token_dictionary : token_dict) : list string :=
  foldl (λ categories item,
           if decide (item.1.1 ∉ categories) then categories ++ [item.1.1]
           else categories)
        [] token_dictionary.

(** Local variables of the loop over the items, for one function. *)
Record counter_state : Type := {
  cat_i : Z;
  duplicate_control : list string;
  token_occ : list Z;
}.

(** [for token in function: if token == item[1]: token_occ[i] += 1]. *)
Definition count_instances (function : list string) (mnemonic : string) (i : Z)
    (token_occ : list Z) : result (list Z) :=
  Py.foldM (λ occ token, if decide (token = mnemonic) then Py.iadd occ i 1 else Return occ)
           token_occ function.

(** One item of the dictionary, for one function. *)
Definition occ_step (categories : list string) (function : list string)
    (st : counter_state) (item : key * string) : result counter_state :=
  c ← Py.getitem categories (cat_i st);
  let i := if decide (c ≠ item.1.1) then cat_i st + 1 else cat_i st in
  if decide (item.2 ∈ function) then
    if decide (item.2 ∈ duplicate_control st) then
      Return {| cat_i := i; duplicate_control := duplicate_control st;
                token_occ := token_occ st |}
    else
      occ ← count_instances function item.2 i (token_occ st);
      Return {| cat_i := i; duplicate_control := duplicate_control st ++ [item.2];
                token_occ := occ |}
  else
    Return {| cat_i := i; duplicate_control := duplicate_control st;
              token_occ := token_occ st |}.

(** The raw occurrence counts of one function. *)
Definition count_occurrences (categories : list string) (token_dictionary : token_dict)
    (function : list string) : result (list Z) :=
  st ← Py.foldM (occ_step categories function)
         {| cat_i := 0; duplicate_control := [];
            token_occ := replicate (length categories) 0 |}
         token_dictionary;
  Return (token_occ st).

(** [sum(l)]. *)
Definition sum (l : list Z) : Z := foldl Z.add 0 l.

(** The normalisation loop. *)
Definition percentages (categories : list string) (token_occ : list Z)
    : result (list Z) :=
  Py.foldM (λ percentage_calc i,
              occ ← Py.getitem token_occ (Z.of_nat i);
              x ← truediv occ (sum token_occ);
              j ← Py.index (length percentage_calc) (Z.of_nat i);
              Return (<[j := round2 x]> percentage_calc))
           (replicate (length categories) 0)
           (seq 0 (length categories)).

(** [assembly_dataframer].  [fun_index] comes from
    [range(len(tokenized_functions))], so [percentage_list[fun_index]] is
    always there. *)
Definition assembly_dataframer (tokenized_functions : list (list string))
    (token_dictionary : token_dict) : result DataFrame :=
  let categories := dict_categories token_dictionary in
  percentage_list ←
    Py.foldM (λ percentage_list p,
                token_occ ← count_occurrences categories token_dictionary p.1;
                percentage_calc ← percentages categories token_occ;
                Return (<[p.2 := percentage_calc]> percentage_list))
             (replicate (length tokenized_functions) [])
             (zip tokenized_functions (seq 0 (length tokenized_functions)));
  Return {| columns := categories; data := percentage_list |}.

(** ** Pipeline *)

(** [complete_preprocessing]: what is printed, and the table returned or
    the exception raised. *)
Definition complete_preprocessing (self : Assembly_Preprocessor) (fs : file_system)
    (assembly_functions : list string) (instruction_glossary : py_value)
    : list string * result DataFrame :=
  let '(token_list, tokenized_functions) := tokenize_instructions assembly_functions in
  let '(printed, token_dict) := token_categorizer self fs token_list instruction_glossary in
  (printed, token_dict ← token_dict; assembly_dataframer tokenized_functions token_dict).

(** ** Specification-level descriptions *)

(** The mnemonic of an instruction: its first word. *)
Definition command_of (instruction : string) : string :=
  default "" (head (Py.split Py.space instruction)).

(** The token sequence of one function. *)
Definition tokens_of (function : string) : list string :=
  filter (λ c, c ∉ separators) (command_of <$> Py.split Py.quote function).

(** The distinct elements of a list in the order of their first occurrence. *)
Fixpoint first_seen (l : list string) : list string :=
  match l with
  | [] => []
  | x :: l' => x :: filter (λ y, y ≠ x) (first_seen l')
  end.

(** Appending the elements not yet present, one at a time. *)
Definition add_all (seen : list string) (l : list string) : list string :=
  foldl (λ seen c, if decide (c ∉ seen) then seen ++ [c] else seen) seen l.

(** A cell: the share of [a] in [total], in hundredths. *)
Definition percent (total a : Z) : Z := round2 (quotient a total).

(** The row of one function. *)
Definition feature_row (categories : list string) (token_dictionary : token_dict)
    (function : list string) : result (list Z) :=
  token_occ ← count_occurrences categories token_dictionary function;
  percentages categories token_occ.

(** The name a marker line gives its category. *)
Definition category_name (special_char : ascii) (line : string) : string :=
  Py.remove Py.newline (Py.remove special_char line).

(** The lines that hold the marker character. *)
Definition marker_lines (special_char : ascii) (lines : list string) : list string :=
  filter (λ line, Py.contains special_char line) lines.

(** What holds of the locals of [token_categorizer] after the glossary
    lines [processed]. *)
Definition file_invariant (special_char : ascii) (processed : list string)
    (st : categorizer_state) : Prop :=
  cs_features st = category_name special_char <$> marker_lines special_char processed
  ∧ f_i st = Z.of_nat (length (cs_features st))
  ∧ ∀ c, c ∈ (cs_dict st).*1.*1 ↔ c ∈ cs_features st.

(** What holds of the locals of [token_categorizer] in the default branch:
    the index of the tracked category stays inside [getCategories()], and
    the categories with a slot are the ones tracked so far. *)
Definition default_invariant (features : list string) (st : categorizer_state) : Prop :=
  cs_features st = features
  ∧ ∃ j : nat, f_i st = Z.of_nat j ∧ (j < length features)%nat
               ∧ ∀ c, c ∈ (cs_dict st).*1.*1 ↔ c ∈ take (S j) features.

(** The category names [token_categorizer] has discovered when it returns:
    the names of the marker lines of the file, or the categories of the
    default glossary it has tracked. *)
Definition discovered_categories (self : Assembly_Preprocessor) (fs : file_system)
    (token_list : list string) (instruction_glossary : py_value) : list string :=
  match instruction_glossary with
  | PyStr path =>
      match fs path with
      | Some text =>
          match file_mode token_list (Py.readlines text) with
          | Return st => cs_features st
          | Raise _ => []
          end
      | None => []
      end
  | _ =>
      match default_mode (default_glossary self) token_list with
      | Return st => take (S (Z.to_nat (f_i st))) (cs_features st)
      | Raise _ => []
      end
  end.

(** Filling the slots of category [c] from position [e] on. *)
Fixpoint add_slots (d : token_dict) (c : string) (e : Z) (mnemonics : list string)
    : token_dict :=
  match mnemonics with
  | [] => d
  | m :: ms => add_slots (dict_iadd d (c, e) m) c (e + 1) ms
  end.

(** The mnemonics of a run of glossary items that are in the vocabulary. *)
Definition matched (token_list : list string) (block : list (key * string)) : list string :=
  filter (λ m, m ∈ token_list) block.*2.

(** Modelled from the spec: the default glossary is not part of the
    sources, and the specification asks its pairs to be "consistent with the
    category order".  Here: the items come category by category, in the
    order of [getCategories()], every category has an item, and no category
    name is repeated. *)
Record consistent_glossary (glossary : Assembly_Glossary)
    (blocks : list (list (key * string))) : Prop := {
  consistent_items : getDictionary glossary = concat blocks;
  consistent_blocks :
    Forall2 (λ c block, block ≠ [] ∧ Forall (λ item : key * string, item.1.1 = c) block)
            (getCategories glossary) blocks;
  consistent_some : getCategories glossary ≠ [];
  consistent_NoDup : NoDup (getCategories glossary);
}.

(** The assignment the default branch builds from a consistent glossary. *)
Definition default_assignment (token_list : list string) (categories : list string)
    (blocks : list (list (key * string))) (d : token_dict) : token_dict :=
  foldl (λ d p, add_slots (dict_iadd d (p.1, 0) "") p.1 0 (matched token_list p.2))
        d (zip categories blocks).

(** The marker lines of a glossary text: the lines holding its first
    character. *)
Definition glossary_markers (text : string) : list string :=
  match text with
  | String c _ => marker_lines c (Py.readlines text)
  | EmptyString => []
  end.

(** The test that decides the warning, on a glossary text and a vocabulary. *)
Definition insufficient (text : string) (vocabulary : list string) : Prop :=
  Z.of_nat (length (Py.readlines text)) - Z.of_nat (length (glossary_markers text))
  < Z.of_nat (length (remove_dups vocabulary)).

#[global] Instance insufficient_dec text vocabulary : Decision (insufficient text vocabulary).
Proof. unfold insufficient. apply _. Defined.

(** The number of instances of a mnemonic in a token sequence. *)
Definition instances (function : list string) (mnemonic : string) : Z :=
  Z.of_nat (length (filter (λ token, token = mnemonic) function)).

(** The locals of the counting loop when it starts on a function. *)
Definition counter_start (categories : list string) : counter_state :=
  {| cat_i := 0; duplicate_control := [];
     token_occ := replicate (length categories) 0 |}.

(** The glossary lists [mnemonic] under [category]. *)
Definition places (glossary : Assembly_Glossary) (mnemonic category : string) : Prop :=
  ∃ e, ((category, e), mnemonic) ∈ getDictionary glossary.

(** The value of the table in row [r] under the column named [column]. *)
Definition cell (df : DataFrame) (r : nat) (column : string) : option Z :=
  '(i, _) ← list_find (λ c, c = column) (columns df);
  row ← data df !! r;
  row !! i.

(** ** Concrete inputs *)

(** The functions of the example of the specification. *)
Definition example_functions : list string :=
  ["'mov eax, ebx''add eax, 1'"; "'jmp 0x10''jmp 0x20'"].

(** A default glossary with the three categories of the example. *)
Definition glossary3 : Assembly_Glossary :=
  {| getDictionary := [(("Data transfer", 0), "mov"); (("Data transfer", 1), "push");
                       (("Arithmetic", 0), "add"); (("Control flow", 0), "jmp")];
     getCategories := ["Data transfer"; "Arithmetic"; "Control flow"] |}.

(** A default glossary with a fourth category. *)
Definition glossary4 : Assembly_Glossary :=
  {| getDictionary := [(("Data transfer", 0), "mov"); (("Arithmetic", 0), "add");
                       (("Control flow", 0), "jmp"); (("Logic", 0), "xor")];
     getCategories := ["Data transfer"; "Arithmetic"; "Control flow"; "Logic"] |}.

Definition no_files : file_system := λ _, None.

Definition example_vocabulary : list string := [""; "mov"; "add"; "jmp"].

Definition example_tokens : list (list string) :=
  [[""; "mov"; ""; "add"; ""]; [""; "jmp"; ""; "jmp"; ""]].

Definition example_assignment : token_dict :=
  [(("Data transfer", 0), "mov"); (("Arithmetic", 0), "add"); (("Control flow", 0), "jmp")].

Definition example_table : DataFrame :=
  {| columns := ["Data transfer"; "Arithmetic"; "Control flow"];
     data := [[50; 50; 0]; [0; 0; 100]] |}.

(** A glossary file with two categories and three mnemonic lines. *)
Definition small_glossary_text : string :=
  String.concat nl ["*Data transfer instructions*"; "mov"; "push";
                    "*Arithmetic instructions*"; "add"; ""].

(** A file with no line that looks like a category. *)
Definition unmarked_glossary_text : string :=
  String.concat nl ["mov"; "add"; ""].

Definition one_file (path text : string) : file_system :=
  λ p, if decide (p = path) then Some text else None.

(** A glossary file that lists [mov] under two categories, and the
    assignment [token_categorizer] builds from it. *)
Definition shared_glossary_text : string :=
  String.concat nl ["*Data transfer*"; "mov"; "*Arithmetic*"; "mov"; "add"; ""].

Definition shared_assignment : token_dict :=
  [(("Data transfer", 0), "mov"); (("Arithmetic", 0), "mov"); (("Arithmetic", 1), "add")].



(** What the pipeline returns on the example with [glossary4]. *)
Definition table4 : DataFrame :=
  {| columns := ["Data transfer"; "Arithmetic"; "Control flow"; "Logic"];
     data := [[20; 20; 0; 60]; [0; 0; 40; 60]] |}.


(** ** Further descriptions *)

(** A function in the format of the docstring: the printed form of a list
    of instructions, each between quotes, separated by a comma and a space,
    inside brackets. *)
Fixpoint printed_items (instructions : list string) : string :=
  match instructions with
  | [] => "]"
  | [instruction] => String Py.quote (instruction +:+ "']")
  | instruction :: rest =>
      String Py.quote (instruction +:+ "', " +:+ printed_items rest)
  end.

Definition printed_list (instructions : list string) : string :=
  String "[" (printed_items instructions).

(** The slots of one category from position [e] on: position and mnemonic. *)
Definition slots_from (c : string) (e : Z) (mnemonics : list string) : token_dict :=
  imap (λ j m, ((c, e + Z.of_nat j), m)) mnemonics.

(** The slots a category gets: one per mnemonic, from position 0 on, or
    the empty placeholder alone. *)
Definition slots (c : string) (mnemonics : list string) : token_dict :=
  match mnemonics with
  | [] => [((c, 0), "")]
  | _ :: _ => slots_from c 0 mnemonics
  end.

(** An assignment whose items come category by category: [blocks] holds
    the items, each block non-empty and of one category, and no category has
    two blocks. *)
Definition grouped (categories : list string) (blocks : list (list (key * string)))
    : Prop :=
  NoDup categories
  ∧ Forall2 (λ c block, block ≠ [] ∧ Forall (λ item : key * string, item.1.1 = c) block)
      categories blocks.

(** The instances, in a function, of the mnemonics of a run of slots,
    leaving out the mnemonics that an earlier slot holds. *)
Fixpoint tally (function seen mnemonics : list string) : Z :=
  match mnemonics with
  | [] => 0
  | m :: ms =>
      (if decide (m ∈ seen) then 0 else instances function m)
      + tally function (seen ++ [m]) ms
  end.

(** The tallies of the blocks of a grouped assignment, block by block. *)
Fixpoint block_counts (function seen : list string) (blocks : list (list (key * string)))
    : list Z :=
  match blocks with
  | [] => []
  | block :: blocks =>
      tally function seen block.*2 :: block_counts function (seen ++ block.*2) blocks
  end.

(** A function none of whose tokens a slot of the assignment holds. *)
Definition unscored (token_dictionary : token_dict) (function : list string) : Prop :=
  Forall (λ token, token ∉ token_dictionary.*2) function.

#[global] Instance unscored_dec token_dictionary function :
  Decision (unscored token_dictionary function).
Proof. unfold unscored. apply _. Defined.

(** The row of a function on a grouped assignment: the share of each
    block in the total of the tallies. *)
Definition grouped_row (blocks : list (list (key * string))) (function : list string)
    : list Z :=
  percent (sum (block_counts function [] blocks)) <$> block_counts function [] blocks.

(** The slots of each category of a default glossary, for a vocabulary. *)
Definition category_slots (token_list : list string) (categories : list string)
    (blocks : list (list (key * string))) : list token_dict :=
  zip_with (λ c block, slots c (matched token_list block)) categories blocks.

(** The mnemonic a line of the glossary file names. *)
Definition mnemonic_of (line : string) : string :=
  Py.remove Py.newline (Py.remove Py.space line).

(** The lines of a glossary file given section by section: a marker line
    and the lines that follow it up to the next marker line. *)
Definition section_lines (sections : list (string * list string)) : list string :=
  concat ((λ s, s.1 :: s.2) <$> sections).

(** The layout the docstring asks of a glossary file, for the marker
    character [special_char]: every section starts with a line that holds
    the character, no other line holds it, and no category name comes
    twice. *)
Definition layout (special_char : ascii) (sections : list (string * list string))
    : Prop :=
  Forall (λ s : string * list string,
            Py.contains special_char s.1 = true
            ∧ Forall (λ line, Py.contains special_char line = false) s.2) sections
  ∧ NoDup (category_name special_char <$> sections.*1).

(** The mnemonics of a section that are in the vocabulary. *)
Definition listed (token_list : list string) (mnemonic_lines : list string)
    : list string :=
  filter (λ m, m ∈ token_list) (mnemonic_of <$> mnemonic_lines).

(** The slots of each section of a glossary file, for a vocabulary. *)
Definition section_slots (special_char : ascii) (token_list : list string)
    (sections : list (string * list string)) : list token_dict :=
  (λ s, slots (category_name special_char s.1) (listed token_list s.2)) <$> sections.

(** The sections of [small_glossary_text]. *)
Definition small_glossary_sections : list (string * list string) :=
  [("*Data transfer instructions*" +:+ nl, ["mov" +:+ nl; "push" +:+ nl]);
   ("*Arithmetic instructions*" +:+ nl, ["add" +:+ nl])].

(** ** The cells as binary64 numbers *)

(** The exact value of a finite binary64 number. *)
Definition float_value (x : float) : Q :=
  (mantissa x * 2 ^ Z.max (- shift x) 0) # Z.to_pos (2 ^ Z.max (shift x) 0).

(** The binary64 number a cell holds: [round(x, 2)] returns the binary64
    nearest to the two-decimal number it has chosen, [hundredths / 100]. *)
Definition cell_float (hundredths : Z) : float := quotient hundredths 100.

(** The sum of the exact values of binary64 numbers. *)
Definition exact_sum (xs : list float) : Q :=
  foldr (λ x s, float_value x + s)%Q 0%Q xs.

(** [x + y] in binary64, for two numbers that are not negative and whose
    [shift] is not negative: the binary64 nearest to the exact sum, halves
    to even. *)
Definition fadd (x y : float) : float :=
  let s := Z.max (shift x) (shift y) in
  quotient (mantissa x * 2 ^ (s - shift x) + mantissa y * 2 ^ (s - shift y)) (2 ^ s).

(** Binary64 numbers added one after the other, from [0], as repeated [+]
    does. *)
Definition float_sum (xs : list float) : float :=
  foldl fadd {| mantissa := 0; shift := 0 |} xs.

(** A function with 67 tokens of one category and 133 of another. *)
Definition tokens_67_133 : list string := replicate 67 "mov" ++ replicate 133 "add".

Definition two_assignment : token_dict :=
  [(("Data transfer", 0), "mov"); (("Arithmetic", 0), "add")].
(** * Proofs *)

(** ** The definitions on concrete inputs *)

Example tokenize_example :
  tokenize_instructions ["'mov eax, ebx''add eax, 1'"; "'jmp 0x10''jmp 0x20'"]
  = ([""; "mov"; "add"; "jmp"], [[""; "mov"; ""; "add"; ""]; [""; "jmp"; ""; "jmp"; ""]]).
Proof. vm_compute. reflexivity. Qed.

Example tokenize_printed_list :
  tokenize_instructions ["['jmp qword ptr [rip + 0x220882]', 'jmp qword ptr [rip + 0x220832]']"]
  = (["jmp"], [["jmp"; "jmp"]]).
Proof. vm_compute. reflexivity. Qed.

Example round2_half : (x ← truediv 1 2; Return (round2 x)) = Return 50.
Proof. vm_compute. reflexivity. Qed.

Example round2_third : (x ← truediv 1 3; Return (round2 x)) = Return 33.
Proof. vm_compute. reflexivity. Qed.

Example round2_eighth : (x ← truediv 1 8; Return (round2 x)) = Return 12.
Proof. vm_compute. reflexivity. Qed.

Example round2_3eighth : (x ← truediv 3 8; Return (round2 x)) = Return 38.
Proof. vm_compute. reflexivity. Qed.

Example round2_fortieth : (x ← truediv 1 40; Return (round2 x)) = Return 3.
Proof. vm_compute. reflexivity. Qed.

Example round2_200th : (x ← truediv 1 200; Return (round2 x)) = Return 1.
Proof. vm_compute. reflexivity. Qed.

Example round2_3_200th : (x ← truediv 3 200; Return (round2 x)) = Return 1.
Proof. vm_compute. reflexivity. Qed.

Example truediv_tenth :
  truediv 1 10 = Return {| mantissa := 7205759403792794; shift := 56 |}.
Proof. vm_compute. reflexivity. Qed.

Example truediv_third :
  truediv 1 3 = Return {| mantissa := 6004799503160661; shift := 54 |}.
Proof. vm_compute. reflexivity. Qed.

Example truediv_three :
  truediv 3 1 = Return {| mantissa := 6755399441055744; shift := 51 |}.
Proof. vm_compute. reflexivity. Qed.

Example truediv_zero : truediv 1 0 = Raise ZeroDivisionError.
Proof. reflexivity. Qed.

Example pipeline_three_categories :
  complete_preprocessing {| default_glossary := glossary3 |} no_files example_functions PyNone
  = ([], Return {| columns := ["Data transfer"; "Arithmetic"; "Control flow"];
                   data := [[50; 50; 0]; [0; 0; 100]] |}).
Proof. vm_compute. reflexivity. Qed.

Example pipeline_four_categories :
  complete_preprocessing {| default_glossary := glossary4 |} no_files example_functions PyNone
  = ([], Return {| columns := ["Data transfer"; "Arithmetic"; "Control flow"; "Logic"];
                   data := [[20; 20; 0; 60]; [0; 0; 40; 60]] |}).
Proof. vm_compute. reflexivity. Qed.

(** ** Lists in the order of first occurrence *)

Section first_seen.

Lemma elem_of_first_seen (x : string) (l : list string) :
  x ∈ first_seen l ↔ x ∈ l.
Proof.
  induction l as [|y l IH]; simpl; [done|].
  rewrite !elem_of_cons, list_elem_of_filter, IH.
  destruct (decide (x = y)); tauto.
Qed.

Lemma NoDup_first_seen (l : list string) : NoDup (first_seen l).
Proof.
  induction l as [|y l IH]; simpl; [constructor|].
  constructor.
  - rewrite list_elem_of_filter. tauto.
  - by apply NoDup_filter.
Qed.

Lemma filter_not_in_snoc (seen : list string) (x : string) (l : list string) :
  filter (λ y, y ∉ seen ++ [x]) l = filter (λ y, y ∉ seen) (filter (λ y, y ≠ x) l).
Proof.
  rewrite list_filter_filter. apply list_filter_iff.
  intros y. rewrite not_elem_of_app, list_elem_of_singleton. tauto.
Qed.

Lemma filter_not_in_absorb (seen : list string) (x : string) (l : list string) :
  x ∈ seen →
  filter (λ y, y ∉ seen) (filter (λ y, y ≠ x) l) = filter (λ y, y ∉ seen) l.
Proof.
  intros Hx. rewrite list_filter_filter. apply list_filter_iff.
  intros y. intuition congruence.
Qed.

Lemma add_all_first_seen (seen l : list string) :
  add_all seen l = seen ++ filter (λ y, y ∉ seen) (first_seen l).
Proof.
  revert seen. induction l as [|x l IH]; intros seen; simpl.
  - by rewrite app_nil_r.
  - unfold add_all in *. simpl. destruct (decide (x ∉ seen)) as [Hx|Hx].
    + rewrite IH, filter_cons_True by done.
      rewrite <- app_assoc. simpl. by rewrite filter_not_in_snoc.
    + apply dec_stable in Hx.
      rewrite IH, filter_cons_False by tauto.
      by rewrite filter_not_in_absorb.
Qed.

Lemma filter_all {A : Type} (P : A → Prop) `{!∀ x, Decision (P x)} (l : list A) :
  Forall P l → filter P l = l.
Proof.
  induction 1 as [|x l Hx _ IH]; [done|].
  by rewrite filter_cons_True, IH.
Qed.

Lemma filter_none {A : Type} (P : A → Prop) `{!∀ x, Decision (P x)} (l : list A) :
  Forall (λ x, ¬ P x) l → filter P l = [].
Proof.
  induction 1 as [|x l Hx _ IH]; [done|].
  by rewrite filter_cons_False.
Qed.

Lemma add_all_nil (l : list string) : add_all [] l = first_seen l.
Proof.
  rewrite add_all_first_seen. simpl.
  apply filter_all, Forall_forall. intros y _. apply not_elem_of_nil.
Qed.

Lemma add_all_app (seen l1 l2 : list string) :
  add_all seen (l1 ++ l2) = add_all (add_all seen l1) l2.
Proof. unfold add_all. by rewrite foldl_app. Qed.

Lemma first_seen_app (l1 l2 : list string) :
  first_seen (l1 ++ l2) = first_seen l1 ++ filter (λ y, y ∉ l1) (first_seen l2).
Proof.
  rewrite <- !add_all_nil, add_all_app, add_all_first_seen, !add_all_nil.
  f_equal. apply list_filter_iff. intros y. by rewrite elem_of_first_seen.
Qed.

Lemma first_seen_NoDup (l : list string) : NoDup l → first_seen l = l.
Proof.
  induction 1 as [|x l Hx _ IH]; simpl; [done|]. rewrite IH. f_equal.
  apply filter_all, Forall_forall. intros y Hy ->. done.
Qed.

End first_seen.

(** ** Python subscripts inside the range *)

Section subscripts.

Lemma index_nat (n i : nat) : (i < n)%nat → Py.index n (Z.of_nat i) = Return i.
Proof.
  intros Hi. unfold Py.index.
  destruct (Z.ltb_spec (Z.of_nat i) 0); [lia|].
  destruct (Z.leb_spec 0 (Z.of_nat i)); [|lia].
  destruct (Z.ltb_spec (Z.of_nat i) (Z.of_nat n)); [|lia].
  simpl. by rewrite Nat2Z.id.
Qed.

Lemma index_nat_ge (n i : nat) : (n ≤ i)%nat → Py.index n (Z.of_nat i) = Raise IndexError.
Proof.
  intros Hi. unfold Py.index.
  destruct (Z.ltb_spec (Z.of_nat i) 0); [lia|].
  destruct (Z.ltb_spec (Z.of_nat i) (Z.of_nat n)); [lia|].
  by rewrite andb_false_r.
Qed.

Lemma getitem_nat {A : Type} (l : list A) (i : nat) (x : A) :
  l !! i = Some x → Py.getitem l (Z.of_nat i) = Return x.
Proof.
  intros Hi. unfold Py.getitem.
  rewrite index_nat by (by eapply lookup_lt_Some). simpl. by rewrite Hi.
Qed.

Lemma getitem_nat_ge {A : Type} (l : list A) (i : nat) :
  (length l ≤ i)%nat → Py.getitem l (Z.of_nat i) = Raise IndexError.
Proof. intros Hi. unfold Py.getitem. by rewrite index_nat_ge. Qed.

Lemma iadd_nat (l : list Z) (i : nat) (x d : Z) :
  l !! i = Some x → Py.iadd l (Z.of_nat i) d = Return (<[i := x + d]> l).
Proof.
  intros Hi. unfold Py.iadd.
  rewrite index_nat by (by eapply lookup_lt_Some). simpl.
  by rewrite (getitem_nat l i x).
Qed.

Lemma iadd_length (l l' : list Z) (i d : Z) :
  Py.iadd l i d = Return l' → length l' = length l.
Proof.
  unfold Py.iadd. destruct (Py.index _ _); simpl; [|done].
  destruct (Py.getitem _ _); simpl; [|done].
  intros [= <-]. apply length_insert.
Qed.

End subscripts.

Section loops.

Context {A B : Type}.

Lemma foldM_app (f : A → B → result A) (a : A) (l1 l2 : list B) :
  Py.foldM f a (l1 ++ l2) = (a' ← Py.foldM f a l1; Py.foldM f a' l2).
Proof.
  revert a. induction l1 as [|x l1 IH]; intros a; simpl; [done|].
  destruct (f a x); simpl; [apply IH|done].
Qed.

(** A loop invariant that every step preserves holds when the loop returns. *)
Lemma foldM_invariant (P : A → Prop) (f : A → B → result A) (l : list B) (a a' : A) :
  (∀ s x s', P s → f s x = Return s' → P s') →
  P a → Py.foldM f a l = Return a' → P a'.
Proof.
  intros Hstep. revert a. induction l as [|x l IH]; intros a Ha; simpl.
  - by intros [= <-].
  - destruct (f a x) as [s|] eqn:Hf; simpl; [|done]. eauto.
Qed.

End loops.

Section rows.

Context {A B : Type} (f : A → result B).

Lemma mapM_app (l1 l2 : list A) :
  Py.mapM f (l1 ++ l2)
  = (ys1 ← Py.mapM f l1; ys2 ← Py.mapM f l2; Return (ys1 ++ ys2)).
Proof.
  induction l1 as [|x l1 IH]; simpl.
  - by destruct (Py.mapM f l2).
  - destruct (f x); simpl; [|done]. rewrite IH.
    destruct (Py.mapM f l1); simpl; [|done].
    by destruct (Py.mapM f l2).
Qed.

(** A loop returns no list when one of its steps raises. *)
Lemma mapM_raises (l : list A) (x : A) (e : exception) :
  x ∈ l → f x = Raise e → ∃ e', Py.mapM f l = Raise e'.
Proof.
  intros Hx Hf. induction Hx as [x l|x y l _ IH]; simpl.
  - rewrite Hf. by exists e.
  - destruct (f y); simpl; [|by eauto].
    destruct IH as [e' ->]; [done|]. by exists e'.
Qed.

(** The first step that raises decides the exception. *)
Lemma mapM_first_raise (before after : list A) (x : A) (ys : list B) (e : exception) :
  Py.mapM f before = Return ys → f x = Raise e →
  Py.mapM f (before ++ x :: after) = Raise e.
Proof. intros Hbefore Hf. rewrite mapM_app, Hbefore. simpl. by rewrite Hf. Qed.

Lemma mapM_lookup (l : list A) (ys : list B) (i : nat) (y : B) :
  Py.mapM f l = Return ys → ys !! i = Some y →
  ∃ x, l !! i = Some x ∧ f x = Return y.
Proof.
  revert ys i. induction l as [|x l IH]; intros ys i; simpl.
  - by intros [= <-].
  - destruct (f x) as [y'|] eqn:Hf; simpl; [|done].
    destruct (Py.mapM f l) as [ys'|]; simpl; [|done].
    intros [= <-]. destruct i as [|i]; simpl.
    + intros [= <-]. by exists x.
    + intros Hy. by apply (IH ys').
Qed.

End rows.

(** ** The tokenizer *)

Section tokenizer.

Lemma tokenize_inner (i : nat) (instructions token_list : list string)
    (tokenized_functions : list (list string)) :
  let commands := filter (λ c, c ∉ separators) (command_of <$> instructions) in
  foldl (tokenize_step i) (token_list, tokenized_functions) instructions
  = (add_all token_list commands, alter (λ f, f ++ commands) i tokenized_functions).
Proof.
  revert token_list tokenized_functions.
  induction instructions as [|x l IH]; intros tl tfs.
  - simpl. f_equal. symmetry. apply list_alter_id. intros f. apply app_nil_r.
  - rewrite fmap_cons, filter_cons. cbn [foldl].
    unfold tokenize_step at 2. fold (command_of x).
    destruct (decide (command_of x ∉ separators)) as [Hs|Hs].
    + assert (∀ tl', foldl (tokenize_step i)
                (tl', alter (λ f, f ++ [command_of x]) i tfs) l
              = (add_all tl' (filter (λ c, c ∉ separators) (command_of <$> l)),
                 alter (λ f, f ++ command_of x :: filter (λ c, c ∉ separators) (command_of <$> l)) i tfs))
        as Hgo.
      { intros tl'. rewrite IH. f_equal.
        rewrite list_alter_alter_eq. apply list_alter_ext; [|done].
        intros f _. unfold compose. by rewrite <- app_assoc. }
      unfold add_all at 1. simpl.
      destruct (decide (command_of x ∉ tl)); apply Hgo.
    + apply IH.
Qed.

Lemma tokenize_outer (fs : list string) (k : nat) (token_list : list string)
    (done_functions : list (list string)) :
  length done_functions = k →
  foldl (λ st p, foldl (tokenize_step p.2) st (Py.split Py.quote p.1))
        (token_list, done_functions ++ replicate (length fs) [])
        (zip fs (seq k (length fs)))
  = (add_all token_list (concat (tokens_of <$> fs)),
     done_functions ++ (tokens_of <$> fs)).
Proof.
  revert k token_list done_functions.
  induction fs as [|f fs IH]; intros k tl pre Hk; simpl; [done|].
  rewrite tokenize_inner. fold (tokens_of f).
  replace k with (length pre + 0)%nat at 1 by lia.
  rewrite alter_app_r. simpl.
  rewrite (cons_middle (tokens_of f) pre), app_assoc.
  rewrite IH by (rewrite length_app; simpl; lia).
  by rewrite add_all_app, <- app_assoc.
Qed.

(** What [tokenize_instructions] returns, function by function. *)
Lemma tokenize_instructions_spec (assembly_functions : list string) :
  tokenize_instructions assembly_functions
  = (first_seen (concat (tokens_of <$> assembly_functions)),
     tokens_of <$> assembly_functions).
Proof.
  unfold tokenize_instructions.
  pose proof (tokenize_outer assembly_functions 0 [] [] eq_refl) as H.
  simpl in H. rewrite H. by rewrite add_all_nil.
Qed.

End tokenizer.

(** ** Claims about the tokenizer *)

Lemma elem_of_concat {A : Type} (x : A) (ls : list (list A)) :
  x ∈ concat ls ↔ ∃ l, x ∈ l ∧ l ∈ ls.
Proof.
  induction ls as [|l ls IH]; simpl.
  - split; [by intros ?%elem_of_nil|]. by intros (l & _ & ?%elem_of_nil).
  - rewrite elem_of_app, IH. split.
    + intros [H|(l' & H1 & H2)].
      * exists l. split; [done|]. apply list_elem_of_here.
      * exists l'. split; [done|]. by apply list_elem_of_further.
    + intros (l' & H1 & H2). apply elem_of_cons in H2 as [->|H2]; [by left|].
      right. by exists l'.
Qed.

(** C3, as stated, fails: the empty function gets the token sequence
    [[""]], not the empty one, and adds the empty string to the vocabulary
    (without that function the vocabulary is empty). *)
Lemma C3_empty_function_counterexample :
  tokenize_instructions [""] = ([""], [[""]])
  ∧ (tokenize_instructions [""]).2 !! 0%nat ≠ Some []
  ∧ (tokenize_instructions [""]).1 ≠ (tokenize_instructions []).1.
Proof. vm_compute. repeat split; discriminate. Qed.

(** C3, amended: for every input list in which some function is the empty
    string, [tokenize_instructions] produces the one-element token sequence
    [[""]] for that function, and the empty string is in the returned
    vocabulary. *)
Theorem C3_empty_function (assembly_functions : list string) (i : nat) :
  assembly_functions !! i = Some "" →
  (tokenize_instructions assembly_functions).2 !! i = Some [""]
  ∧ "" ∈ (tokenize_instructions assembly_functions).1.
Proof.
  intros Hi. rewrite tokenize_instructions_spec. simpl. split.
  - by rewrite list_lookup_fmap, Hi.
  - rewrite elem_of_first_seen. apply elem_of_concat.
    exists [""]. split; [apply list_elem_of_here|].
    apply list_elem_of_fmap. exists "". split; [done|].
    by apply list_elem_of_lookup_2 in Hi.
Qed.

Lemma C3_empty_function_witness :
  (tokenize_instructions ["'mov eax, ebx'"; ""]).2 !! 1%nat = Some [""]
  ∧ "" ∈ (tokenize_instructions ["'mov eax, ebx'"; ""]).1.
Proof. apply (C3_empty_function ["'mov eax, ebx'"; ""] 1). reflexivity. Defined.

(** C9: the vocabulary returned by [tokenize_instructions] is determined by
    the input list alone (it is a function of the token sequences, which
    are a function of the input), contains each mnemonic at most once, and
    lists the mnemonics in the order of their first occurrence across the
    input functions. *)
Theorem C9_vocabulary_first_seen (assembly_functions : list string) :
  (tokenize_instructions assembly_functions).2 = tokens_of <$> assembly_functions
  ∧ (tokenize_instructions assembly_functions).1
    = first_seen (concat (tokenize_instructions assembly_functions).2)
  ∧ NoDup (tokenize_instructions assembly_functions).1.
Proof.
  rewrite tokenize_instructions_spec. simpl.
  repeat split. apply NoDup_first_seen.
Qed.

(** ** The aggregator, loop by loop *)

Section aggregator.

Lemma dict_categories_first_seen (token_dictionary : token_dict) :
  dict_categories token_dictionary = first_seen ((λ item, item.1.1) <$> token_dictionary).
Proof.
  rewrite <- add_all_nil. unfold dict_categories, add_all.
  by rewrite foldl_fmap.
Qed.

Lemma count_instances_length (function : list string) (m : string) (i : Z)
    (occ occ' : list Z) :
  count_instances function m i occ = Return occ' → length occ' = length occ.
Proof.
  unfold count_instances.
  apply (foldM_invariant (λ o, length o = length occ)); [|done].
  intros s x s' Hs. destruct (decide (x = m)).
  - intros ->%iadd_length. done.
  - by intros [= <-].
Qed.

Lemma count_occurrences_length (categories : list string) (token_dictionary : token_dict)
    (function : list string) (occ : list Z) :
  count_occurrences categories token_dictionary function = Return occ →
  length occ = length categories.
Proof.
  unfold count_occurrences.
  destruct (Py.foldM _ _ _) as [st|] eqn:Hloop; simpl; [|done].
  intros [= <-]. revert Hloop.
  apply (foldM_invariant (λ st, length (token_occ st) = length categories)).
  - intros s x s' Hs. unfold occ_step.
    destruct (Py.getitem _ _); simpl; [|done].
    destruct (decide (x.2 ∈ function)); [|by intros [= <-]].
    destruct (decide (x.2 ∈ duplicate_control s)); [by intros [= <-]|].
    destruct (count_instances _ _ _ _) as [o|] eqn:Ho; simpl; [|done].
    intros [= <-]. simpl. apply count_instances_length in Ho. congruence.
  - simpl. apply length_replicate.
Qed.

Lemma percentages_loop (total : Z) (done_occ rest_occ : list Z) :
  total ≠ 0 →
  Py.foldM (λ percentage_calc i,
              occ ← Py.getitem (done_occ ++ rest_occ) (Z.of_nat i);
              x ← truediv occ total;
              j ← Py.index (length percentage_calc) (Z.of_nat i);
              Return (<[j := round2 x]> percentage_calc))
           ((percent total <$> done_occ) ++ replicate (length rest_occ) 0)
           (seq (length done_occ) (length rest_occ))
  = Return (percent total <$> (done_occ ++ rest_occ)).
Proof.
  intros Htotal.
  assert (∀ a, truediv a total = Return (quotient a total)) as Hdiv.
  { intros a. unfold truediv. by destruct (Z.eqb_spec total 0). }
  revert done_occ.
  induction rest_occ as [|a rest IH]; intros done_occ; simpl.
  - by rewrite !app_nil_r.
  - rewrite (getitem_nat _ _ a) by (by rewrite list_lookup_middle). simpl.
    rewrite Hdiv. simpl.
    rewrite index_nat by (rewrite length_app, length_fmap; simpl; lia). simpl.
    replace (length done_occ) with (length (percent total <$> done_occ) + 0)%nat at 1
      by (rewrite length_fmap; lia).
    rewrite insert_app_r. simpl.
    specialize (IH (done_occ ++ [a])).
    rewrite fmap_app, length_app, <- !app_assoc in IH. simpl in IH.
    rewrite Nat.add_1_r in IH. apply IH.
Qed.

(** The normalisation loop on counts whose sum is not zero. *)
Lemma percentages_spec (categories : list string) (occ : list Z) :
  length occ = length categories → sum occ ≠ 0 →
  percentages categories occ = Return (percent (sum occ) <$> occ).
Proof.
  intros Hlen Hsum. unfold percentages. rewrite <- Hlen.
  apply (percentages_loop (sum occ) [] occ Hsum).
Qed.

(** The normalisation loop on counts whose sum is zero. *)
Lemma percentages_zero (categories : list string) (occ : list Z) :
  length occ = length categories → sum occ = 0 →
  percentages categories occ
  = if decide (categories = []) then Return [] else Raise ZeroDivisionError.
Proof.
  intros Hlen Hsum. unfold percentages.
  destruct categories as [|c cs]; simpl; [done|].
  destruct occ as [|a occ]; [done|].
  rewrite (getitem_nat _ 0 a) by done. simpl.
  by rewrite Hsum.
Qed.

Lemma rows_loop (categories : list string) (token_dictionary : token_dict)
    (done_rows : list (list Z)) (functions : list (list string)) :
  Py.foldM (λ percentage_list p,
              token_occ ← count_occurrences categories token_dictionary p.1;
              percentage_calc ← percentages categories token_occ;
              Return (<[p.2 := percentage_calc]> percentage_list))
           (done_rows ++ replicate (length functions) [])
           (zip functions (seq (length done_rows) (length functions)))
  = (rows ← Py.mapM (feature_row categories token_dictionary) functions;
     Return (done_rows ++ rows)).
Proof.
  unfold feature_row.
  revert done_rows. induction functions as [|f fs IH]; intros done_rows; simpl.
  { by rewrite !app_nil_r. }
  destruct (count_occurrences _ _ f) as [occ|]; simpl; [|done].
  destruct (percentages _ occ) as [row|]; simpl; [|done].
  replace (length done_rows) with (length done_rows + 0)%nat at 1 by lia.
  rewrite insert_app_r. simpl.
  specialize (IH (done_rows ++ [row])).
  rewrite length_app, <- app_assoc in IH. simpl in IH.
  rewrite Nat.add_1_r in IH. rewrite IH.
  destruct (Py.mapM _ fs); simpl; [|done].
  by rewrite <- app_assoc.
Qed.

(** [assembly_dataframer], row by row. *)
Lemma assembly_dataframer_spec (tokenized_functions : list (list string))
    (token_dictionary : token_dict) :
  assembly_dataframer tokenized_functions token_dictionary
  = (rows ← Py.mapM (feature_row (dict_categories token_dictionary) token_dictionary)
              tokenized_functions;
     Return {| columns := dict_categories token_dictionary; data := rows |}).
Proof.
  unfold assembly_dataframer.
  pose proof (rows_loop (dict_categories token_dictionary) token_dictionary []
                tokenized_functions) as H.
  simpl in H. rewrite H. by destruct (Py.mapM _ _).
Qed.

End aggregator.

(** ** The categorizer *)

Section dictionary.

Lemma dict_iadd_keys (d : token_dict) (k : key) (v : string) :
  (dict_iadd d k v).*1 = if decide (k ∈ d.*1) then d.*1 else d.*1 ++ [k].
Proof.
  induction d as [|[k' w] d IH].
  - simpl. by destruct (decide (k ∈ [])) as [?%elem_of_nil|].
  - cbn [dict_iadd]. rewrite fmap_cons. cbn [fst].
    destruct (decide (k' = k)) as [->|Hne]; rewrite fmap_cons; cbn [fst].
    + rewrite decide_True; [done|apply list_elem_of_here].
    + rewrite IH. destruct (decide (k ∈ d.*1)) as [Hin|Hin].
      * rewrite decide_True; [done|by apply list_elem_of_further].
      * rewrite decide_False; [done|].
        intros [?|?]%elem_of_cons; congruence.
Qed.

Lemma elem_of_dict_iadd_keys (d : token_dict) (k k' : key) (v : string) :
  k' ∈ (dict_iadd d k v).*1 ↔ k' ∈ d.*1 ∨ k' = k.
Proof.
  rewrite dict_iadd_keys. destruct (decide (k ∈ d.*1)).
  - split; [tauto|]. intros [?| ->]; done.
  - by rewrite elem_of_app, list_elem_of_singleton.
Qed.

(** The category names among the keys. *)
Lemma elem_of_dict_iadd_categories (d : token_dict) (c c' : string) (e : Z) (v : string) :
  c' ∈ (dict_iadd d (c, e) v).*1.*1 ↔ c' ∈ d.*1.*1 ∨ c' = c.
Proof.
  rewrite !list_elem_of_fmap. split.
  - intros (k & -> & [Hk| ->]%elem_of_dict_iadd_keys); [|by right].
    left. by exists k.
  - intros [(k & -> & Hk)| ->].
    + exists k. split; [done|]. apply elem_of_dict_iadd_keys. by left.
    + exists (c, e). split; [done|]. apply elem_of_dict_iadd_keys. by right.
Qed.

Lemma dict_categories_elem_of (d : token_dict) (c : string) :
  c ∈ dict_categories d ↔ c ∈ d.*1.*1.
Proof.
  rewrite dict_categories_first_seen, elem_of_first_seen.
  by rewrite <- list_fmap_compose.
Qed.

Lemma NoDup_dict_categories (d : token_dict) : NoDup (dict_categories d).
Proof. rewrite dict_categories_first_seen. apply NoDup_first_seen. Qed.

End dictionary.

Section file_mode.

Context (special_char : ascii) (token_list : list string).

Lemma file_step_invariant (processed : list string) (st : categorizer_state)
    (element : string) :
  file_invariant special_char processed st →
  cs_features st ≠ [] ∨ Py.contains special_char element →
  ∃ st', file_step special_char token_list st element = Return st'
         ∧ file_invariant special_char (processed ++ [element]) st'
         ∧ cs_features st' ≠ [].
Proof.
  intros (Hfeat & Hfi & Hkeys) Hopen.
  assert (category_name special_char <$> marker_lines special_char (processed ++ [element])
          = cs_features st ++ (if Py.contains special_char element
                               then [category_name special_char element] else []))
    as Hmarkers.
  { unfold marker_lines. rewrite filter_app, filter_cons, filter_nil, fmap_app, Hfeat.
    by destruct (Py.contains special_char element). }
  unfold file_step, file_invariant. rewrite Hmarkers.
  destruct (Py.contains special_char element) eqn:Hc.
  - rewrite Hfi.
    rewrite (getitem_nat _ _ (category_name special_char element))
      by (apply list_lookup_middle; done).
    eexists. split; [done|]. simpl. repeat split.
    + rewrite length_app. simpl. lia.
    + intros Hin. apply elem_of_dict_iadd_categories in Hin.
      rewrite elem_of_app, list_elem_of_singleton, <- Hkeys. tauto.
    + intros Hin. apply elem_of_dict_iadd_categories.
      rewrite elem_of_app, list_elem_of_singleton, <- Hkeys in Hin. tauto.
    + by intros ?%app_eq_nil%proj2.
  - rewrite app_nil_r.
    destruct Hopen as [Hne|[]].
    destruct (decide (_ ∈ token_list)); [|by exists st].
    assert (is_Some (cs_features st !! (length (cs_features st) - 1)%nat)) as [c Hlast].
    { apply lookup_lt_is_Some. destruct (cs_features st); [done|simpl; lia]. }
    replace (f_i st - 1) with (Z.of_nat (length (cs_features st) - 1)).
    2:{ rewrite Hfi. destruct (cs_features st); [done|simpl; lia]. }
    rewrite (getitem_nat _ _ c) by done.
    eexists. split; [done|]. simpl. repeat split; try done.
    + intros Hin. apply elem_of_dict_iadd_categories in Hin as [Hin| ->].
      * by apply Hkeys.
      * by eapply list_elem_of_lookup_2.
    + intros Hin. apply elem_of_dict_iadd_categories. left. by apply Hkeys.
Qed.

Lemma file_loop_invariant (lines processed : list string) (st : categorizer_state) :
  file_invariant special_char processed st →
  cs_features st ≠ [] →
  ∃ st', Py.foldM (file_step special_char token_list) st lines = Return st'
         ∧ file_invariant special_char (processed ++ lines) st'
         ∧ cs_features st' ≠ [].
Proof.
  revert processed st. induction lines as [|l lines IH]; intros processed st Hinv Hne.
  - exists st. by rewrite app_nil_r.
  - destruct (file_step_invariant processed st l Hinv (or_introl Hne))
      as (st1 & Hstep & Hinv1 & Hne1).
    destruct (IH _ _ Hinv1 Hne1) as (st' & Hloop & Hinv' & Hne').
    exists st'. simpl. rewrite Hstep. simpl.
    by rewrite <- app_assoc in Hinv'.
Qed.

End file_mode.

Lemma contains_first (c : ascii) (s : string) : Py.contains c (String c s) = true.
Proof. simpl. by rewrite Ascii.eqb_refl. Qed.

(** On a glossary with a first line, the file branch returns, and its first
    line is a marker line. *)
Lemma file_mode_spec (token_list : list string) (c : ascii) (line : string)
    (lines : list string) :
  ∃ st, file_mode token_list (String c line :: lines) = Return st
        ∧ file_invariant c (String c line :: lines) st
        ∧ cs_features st ≠ [].
Proof.
  unfold file_mode. rewrite (getitem_nat _ 0 (String c line)) by done.
  set (st0 := {| cs_dict := []; cs_features := []; f_i := 0; e_i := 0 |}).
  change (∃ st, (st1 ← file_step c token_list st0 (String c line);
                 Py.foldM (file_step c token_list) st1 lines) = Return st
                ∧ file_invariant c (String c line :: lines) st
                ∧ cs_features st ≠ []).
  assert (file_invariant c [] st0) as Hinv0 by done.
  destruct (file_step_invariant c token_list [] st0 (String c line) Hinv0)
    as (st1 & Hstep & Hinv1 & Hne1).
  { right. by rewrite contains_first. }
  rewrite Hstep.
  destruct (file_loop_invariant c token_list lines _ st1 Hinv1 Hne1)
    as (st' & Hloop & Hinv' & Hne').
  exists st'. split; [exact Hloop|done].
Qed.

Lemma readlines_first (c : ascii) (s : string) :
  ∃ line lines, Py.readlines (String c s) = String c line :: lines.
Proof.
  simpl. destruct (Ascii.eqb c Py.newline); [by eauto|].
  destruct (Py.readlines s); by eauto.
Qed.

Section default_mode.

Context (features : list string) (token_list : list string).

Lemma default_step_invariant (st st' : categorizer_state) (item : key * string) :
  default_invariant features st →
  default_step token_list st item = Return st' →
  default_invariant features st'.
Proof.
  intros (Hfeat & j & Hj & Hlt & Hkeys). unfold default_step.
  rewrite Hfeat, Hj.
  destruct (lookup_lt_is_Some_2 features j Hlt) as [c Hc].
  rewrite (getitem_nat _ _ c) by done. simpl.
  assert (∀ st1 k, cs_features st1 = features → f_i st1 = Z.of_nat k →
                   (k < length features)%nat →
                   (∀ c, c ∈ (cs_dict st1).*1.*1 ↔ c ∈ take (S k) features) →
                   (if decide (item.2 ∈ token_list)
                    then c ← Py.getitem features (f_i st1);
                         Return {| cs_dict := dict_iadd (cs_dict st1) (c, e_i st1) item.2;
                                   cs_features := features;
                                   f_i := f_i st1;
                                   e_i := e_i st1 + 1 |}
                    else Return st1) = Return st' →
                   default_invariant features st') as Hrest.
  { intros st1 k Hfeat1 Hk Hklt Hkeys1.
    destruct (decide (item.2 ∈ token_list)).
    - rewrite Hk. destruct (lookup_lt_is_Some_2 features k Hklt) as [c1 Hc1].
      rewrite (getitem_nat _ _ c1) by done. simpl. intros [= <-].
      split; [done|]. exists k. simpl. repeat split; try done.
      + intros [Hin| ->]%elem_of_dict_iadd_categories; [by apply Hkeys1|].
        apply list_elem_of_lookup. exists k. rewrite lookup_take_lt by lia. done.
      + intros Hin. apply elem_of_dict_iadd_categories. left. by apply Hkeys1.
    - intros [= <-]. split; [done|]. by exists k. }
  destruct (decide (item.1.1 ≠ c)) as [Hne|Heq].
  - replace (Z.of_nat j + 1) with (Z.of_nat (S j)) by lia.
    destruct (decide (S j < length features)%nat) as [Hlt'|Hge].
    + destruct (lookup_lt_is_Some_2 features (S j) Hlt') as [c' Hc'].
      rewrite (getitem_nat _ _ c') by done. simpl.
      apply (Hrest {| cs_dict := dict_iadd (cs_dict st) (c', 0) "";
                      cs_features := features;
                      f_i := Z.of_nat (S j);
                      e_i := 0 |} (S j)); simpl; try done.
      intros x. rewrite elem_of_dict_iadd_categories, Hkeys.
      rewrite (take_S_r features (S j) c') by done.
      rewrite elem_of_app, list_elem_of_singleton. tauto.
    + rewrite getitem_nat_ge by lia. done.
  - simpl. by apply (Hrest st j).
Qed.

(** An item of the tracked category opens no new category. *)
Lemma default_step_same (st : categorizer_state) (item : key * string)
    (j : nat) (c : string) :
  cs_features st = features → f_i st = Z.of_nat j → features !! j = Some c →
  item.1.1 = c →
  default_step token_list st item
  = Return (if decide (item.2 ∈ token_list)
            then {| cs_dict := dict_iadd (cs_dict st) (c, e_i st) item.2;
                    cs_features := features;
                    f_i := Z.of_nat j;
                    e_i := e_i st + 1 |}
            else st).
Proof.
  intros Hfeat Hj Hc Hitem. unfold default_step.
  rewrite Hfeat, Hj, (getitem_nat _ _ c) by done. simpl.
  destruct (decide (item.1.1 ≠ c)); [congruence|]. simpl.
  destruct (decide (item.2 ∈ token_list)); [|done].
  rewrite Hj, (getitem_nat _ _ c) by done. done.
Qed.

(** An item of the next category opens it, and is then handled as an item
    of the tracked category. *)
Lemma default_step_next (st : categorizer_state) (item : key * string)
    (j : nat) (c c' : string) :
  cs_features st = features → f_i st = Z.of_nat j → features !! j = Some c →
  features !! S j = Some c' → c' ≠ c → item.1.1 = c' →
  default_step token_list st item
  = default_step token_list
      {| cs_dict := dict_iadd (cs_dict st) (c', 0) "";
         cs_features := features;
         f_i := Z.of_nat (S j);
         e_i := 0 |} item.
Proof.
  intros Hfeat Hj Hc Hc' Hne Hitem. unfold default_step. simpl.
  rewrite Hfeat, Hj, (getitem_nat _ _ c), (getitem_nat _ _ c') by done. simpl.
  rewrite decide_True by congruence.
  replace (Z.of_nat j + 1) with (Z.of_nat (S j)) by lia.
  rewrite (getitem_nat _ _ c') by done. simpl.
  destruct (decide (item.1.1 ≠ c')); [congruence|done].
Qed.

(** A run of items of the tracked category fills the slots of that
    category. *)
Lemma default_block (block : list (key * string)) (st : categorizer_state)
    (j : nat) (c : string) :
  cs_features st = features → f_i st = Z.of_nat j → features !! j = Some c →
  Forall (λ item : key * string, item.1.1 = c) block →
  Py.foldM (default_step token_list) st block
  = Return {| cs_dict := add_slots (cs_dict st) c (e_i st) (matched token_list block);
              cs_features := features;
              f_i := Z.of_nat j;
              e_i := e_i st + Z.of_nat (length (matched token_list block)) |}.
Proof.
  intros Hfeat Hj Hc. revert st Hfeat Hj.
  induction block as [|item block IH]; intros st Hfeat Hj Hblock.
  - simpl. destruct st; simpl in *. f_equal. f_equal; [done|lia..].
  - apply Forall_cons in Hblock as [Hitem Hblock].
    cbn [Py.foldM]. rewrite (default_step_same st item j c) by done.
    unfold matched. rewrite fmap_cons, filter_cons. fold (matched token_list block).
    cbn [mbind result_bind].
    destruct (decide (item.2 ∈ token_list)).
    + rewrite IH by done. simpl. f_equal. f_equal. lia.
    + by rewrite IH.
Qed.

End default_mode.

Section consistent_glossary.

Context (token_list : list string).

Lemma default_blocks (categories : list string) (blocks : list (list (key * string))) :
  Forall2 (λ c block, block ≠ [] ∧ Forall (λ item : key * string, item.1.1 = c) block)
          categories blocks →
  ∀ (tracked : list string) (c0 : string) (st : categorizer_state),
    NoDup (tracked ++ c0 :: categories) →
    cs_features st = tracked ++ c0 :: categories →
    f_i st = Z.of_nat (length tracked) →
    ∃ st', Py.foldM (default_step token_list) st (concat blocks) = Return st'
           ∧ cs_dict st' = default_assignment token_list categories blocks (cs_dict st)
           ∧ f_i st' = Z.of_nat (length tracked + length categories).
Proof.
  induction 1 as [|c1 block cs bs [Hne Hblock] _ IH]; intros tracked c0 st Hnodup Hfeat Hfi.
  - exists st. simpl. repeat split. rewrite Hfi. f_equal. lia.
  - destruct block as [|item rest]; [done|].
    set (features := tracked ++ c0 :: c1 :: cs) in *.
    assert (features !! length tracked = Some c0) as Hc0
      by (by apply list_lookup_middle).
    assert (features !! S (length tracked) = Some c1) as Hc1.
    { unfold features. rewrite (cons_middle c0), app_assoc.
      apply list_lookup_middle. rewrite length_app. simpl. lia. }
    assert (c1 ≠ c0) as Hdiff.
    { intros ->. apply NoDup_app in Hnodup as (_ & _ & Hnodup).
      apply NoDup_cons in Hnodup as [Hnotin _]. apply Hnotin, list_elem_of_here. }
    change (concat ((item :: rest) :: bs)) with (item :: (rest ++ concat bs)).
    cbn [Py.foldM].
    rewrite (default_step_next features token_list st item (length tracked) c0 c1)
      by (try done; by apply Forall_cons in Hblock as [? _]).
    set (st1 := {| cs_dict := dict_iadd (cs_dict st) (c1, 0) "";
                   cs_features := features;
                   f_i := Z.of_nat (S (length tracked));
                   e_i := 0 |}).
    change (∃ st', Py.foldM (default_step token_list) st1 ((item :: rest) ++ concat bs)
                   = Return st'
                   ∧ cs_dict st' = default_assignment token_list (c1 :: cs)
                                     ((item :: rest) :: bs) (cs_dict st)
                   ∧ f_i st' = Z.of_nat (length tracked + length (c1 :: cs))).
    rewrite foldM_app.
    rewrite (default_block features token_list (item :: rest) st1 (S (length tracked)) c1)
      by done.
    cbn [mbind result_bind].
    match goal with |- ∃ st', Py.foldM _ ?s _ = _ ∧ _ => set (st2 := s) end.
    destruct (IH (tracked ++ [c0]) c1 st2) as (st' & Hloop & Hdict & Hfi').
    { by rewrite <- app_assoc. }
    { simpl. by rewrite <- app_assoc. }
    { simpl. rewrite length_app. simpl. f_equal. lia. }
    exists st'. split; [exact Hloop|]. split.
    + rewrite Hdict. done.
    + rewrite Hfi'. rewrite length_app. simpl. f_equal. lia.
Qed.

(** On a consistent glossary the default branch returns, with one run of
    slots per category. *)
Lemma default_mode_consistent (glossary : Assembly_Glossary)
    (blocks : list (list (key * string))) :
  consistent_glossary glossary blocks →
  ∃ st, default_mode glossary token_list = Return st
        ∧ cs_dict st = default_assignment token_list (getCategories glossary) blocks []
        ∧ f_i st = Z.of_nat (length (getCategories glossary) - 1).
Proof.
  intros [Hitems Hblocks Hsome Hnodup]. unfold default_mode. rewrite Hitems.
  destruct Hblocks as [|c0 block cs bs [Hne Hblock] Hrest]; [done|].
  rewrite (getitem_nat _ 0 c0) by done. cbn [mbind result_bind].
  simpl concat. rewrite foldM_app.
  rewrite (default_block (c0 :: cs) token_list block _ 0 c0) by done.
  cbn [mbind result_bind].
  match goal with |- ∃ st', Py.foldM _ ?s _ = _ ∧ _ => set (st1 := s) end.
  destruct (default_blocks cs bs Hrest [] c0 st1) as (st' & Hloop & Hdict & Hfi');
    [done..|].
  exists st'. split; [exact Hloop|]. split.
  - rewrite Hdict. done.
  - rewrite Hfi'. simpl. f_equal. lia.
Qed.

End consistent_glossary.

(** ** Claims about the categorizer *)

Lemma getitem_zero_inv {A : Type} (l : list A) (x : A) :
  Py.getitem l 0 = Return x → ∃ l', l = x :: l'.
Proof.
  destruct l as [|y l]; [done|].
  change 0 with (Z.of_nat 0).
  rewrite (getitem_nat (y :: l) 0 y) by done. intros [= ->]. by exists l.
Qed.

Lemma assembly_dataframer_columns (tokenized_functions : list (list string))
    (token_dictionary : token_dict) (df : DataFrame) :
  assembly_dataframer tokenized_functions token_dictionary = Return df →
  columns df = dict_categories token_dictionary.
Proof.
  rewrite assembly_dataframer_spec.
  destruct (Py.mapM _ _); simpl; [|done]. by intros [= <-].
Qed.

(** [file_mode] returns only on a glossary with a first character. *)
Lemma file_mode_inv (token_list lines : list string) (st : categorizer_state) :
  file_mode token_list lines = Return st →
  ∃ c line rest, lines = String c line :: rest
                 ∧ file_invariant c lines st ∧ cs_features st ≠ [].
Proof.
  intros Hmode. destruct lines as [|[|c line] rest]; [done..|].
  destruct (file_mode_spec token_list c line rest) as (st' & Hst' & Hinv & Hne).
  rewrite Hmode in Hst'. injection Hst' as <-. by exists c, line, rest.
Qed.

Lemma default_mode_invariant (glossary : Assembly_Glossary) (token_list : list string)
    (st : categorizer_state) :
  default_mode glossary token_list = Return st →
  default_invariant (getCategories glossary) st.
Proof.
  unfold default_mode.
  destruct (Py.getitem _ 0) as [c|] eqn:Hc; [|done]. cbn [mbind result_bind].
  apply getitem_zero_inv in Hc as [cs Hcs].
  apply foldM_invariant.
  - intros s x s'. apply default_step_invariant.
  - split; [done|]. exists 0%nat. rewrite Hcs. simpl.
    split; [done|]. split; [lia|]. intros x. rewrite take_0.
    split; intros H; apply H.
Qed.

(** The categories among the keys of the returned assignment are the
    discovered ones. *)
Lemma token_categorizer_categories (self : Assembly_Preprocessor) (fs : file_system)
    (token_list : list string) (instruction_glossary : py_value)
    (printed : list string) (token_dictionary : token_dict) (c : string) :
  token_categorizer self fs token_list instruction_glossary
  = (printed, Return token_dictionary) →
  c ∈ dict_categories token_dictionary
  ↔ c ∈ discovered_categories self fs token_list instruction_glossary.
Proof.
  assert (∀ r : result categorizer_state,
            (st ← r; Return (cs_dict st)) = Return token_dictionary →
            ∃ st, r = Return st ∧ cs_dict st = token_dictionary) as Hbind.
  { intros [st|]; [|done]. simpl. intros [= <-]. by exists st. }
  assert (default_mode (default_glossary self) token_list
            ≫= (λ st, Return (cs_dict st)) = Return token_dictionary →
          c ∈ dict_categories token_dictionary
          ↔ c ∈ match default_mode (default_glossary self) token_list with
                | Return st => take (S (Z.to_nat (f_i st))) (cs_features st)
                | Raise _ => []
                end) as Hdefault.
  { intros (st & Hst & <-)%Hbind. rewrite Hst.
    apply default_mode_invariant in Hst as (Hfeat & j & Hj & _ & Hkeys).
    by rewrite dict_categories_elem_of, Hkeys, Hj, Nat2Z.id, Hfeat. }
  unfold token_categorizer, discovered_categories.
  destruct instruction_glossary as [|path|other].
  - intros [= _ H]. by apply Hdefault.
  - destruct (fs path) as [text|]; [|done].
    destruct (file_mode _ _) as [st|] eqn:Hst; [|done].
    intros [= _ <-].
    apply file_mode_inv in Hst as (? & ? & ? & _ & (_ & _ & Hkeys) & _).
    by rewrite dict_categories_elem_of, Hkeys.
  - intros [= _ H]. by apply Hdefault.
Qed.

Lemma length_remove_dups_NoDup (l : list string) :
  NoDup l → length (remove_dups l) = length l.
Proof.
  intros Hl. apply Permutation_length, NoDup_Permutation; [|done|].
  - apply NoDup_remove_dups.
  - intros x. apply elem_of_remove_dups.
Qed.

(** In file mode the discovered categories are the names on the marker
    lines. *)
Lemma discovered_categories_file (self : Assembly_Preprocessor) (fs : file_system)
    (token_list : list string) (path : string) (c : ascii) (s : string) :
  fs path = Some (String c s) →
  discovered_categories self fs token_list (PyStr path)
  = category_name c <$> glossary_markers (String c s).
Proof.
  intros Hfile. unfold discovered_categories, glossary_markers. rewrite Hfile.
  destruct (readlines_first c s) as (line & lines & ->).
  by destruct (file_mode_spec token_list c line lines) as (st & -> & (-> & _) & _).
Qed.

(** In default mode, on a consistent glossary, they are the categories of
    the glossary. *)
Lemma discovered_categories_default (self : Assembly_Preprocessor) (fs : file_system)
    (token_list : list string) (instruction_glossary : py_value)
    (blocks : list (list (key * string))) :
  (∀ path, instruction_glossary ≠ PyStr path) →
  consistent_glossary (default_glossary self) blocks →
  discovered_categories self fs token_list instruction_glossary
  = getCategories (default_glossary self).
Proof.
  intros Hstr Hconsistent.
  assert (discovered_categories self fs token_list instruction_glossary
          = discovered_categories self fs token_list PyNone) as ->.
  { destruct instruction_glossary as [|path|]; [done|by destruct (Hstr path)|done]. }
  unfold discovered_categories.
  destruct (default_mode_consistent token_list _ _ Hconsistent) as (st & Hst & _ & Hfi).
  rewrite Hst. apply default_mode_invariant in Hst as [-> _].
  rewrite Hfi, Nat2Z.id. apply take_ge.
  destruct (getCategories (default_glossary self)); simpl; lia.
Qed.

(** C8: for every assignment produced by [token_categorizer] and every
    list of token sequences, the empty list included, the number of columns
    of the table returned by [assembly_dataframer] is the number of distinct
    category names discovered by [token_categorizer]: in file mode the
    distinct names on the marker lines of the glossary, in default mode on a
    consistent glossary the categories of the glossary.  The number of
    functions plays no part. *)
Theorem C8_column_count (self : Assembly_Preprocessor) (fs : file_system)
    (token_list : list string) (instruction_glossary : py_value)
    (printed : list string) (token_dictionary : token_dict)
    (tokenized_functions : list (list string)) (df : DataFrame) :
  token_categorizer self fs token_list instruction_glossary
  = (printed, Return token_dictionary) →
  assembly_dataframer tokenized_functions token_dictionary = Return df →
  length (columns df)
  = length (remove_dups (discovered_categories self fs token_list instruction_glossary))
  ∧ (∀ path c s,
       instruction_glossary = PyStr path → fs path = Some (String c s) →
       length (columns df)
       = length (remove_dups (category_name c <$> glossary_markers (String c s))))
  ∧ (∀ blocks,
       (∀ path, instruction_glossary ≠ PyStr path) →
       consistent_glossary (default_glossary self) blocks →
       length (columns df) = length (getCategories (default_glossary self))).
Proof.
  intros Hcat Hdf.
  assert (length (columns df)
          = length (remove_dups
                      (discovered_categories self fs token_list instruction_glossary)))
    as Hcount.
  { rewrite (assembly_dataframer_columns _ _ _ Hdf).
    apply Permutation_length, NoDup_Permutation.
    - apply NoDup_dict_categories.
    - apply NoDup_remove_dups.
    - intros c. rewrite elem_of_remove_dups.
      by apply (token_categorizer_categories self fs token_list instruction_glossary
                  printed). }
  split; [done|]. split.
  - intros path c s -> Hfile.
    by rewrite Hcount, (discovered_categories_file self fs token_list path c s).
  - intros blocks Hstr Hconsistent.
    rewrite Hcount, (discovered_categories_default self fs token_list _ blocks) by done.
    apply length_remove_dups_NoDup, Hconsistent.
Qed.

Lemma C8_column_count_witness :
  let self := {| default_glossary := glossary3 |} in
  token_categorizer self no_files example_vocabulary PyNone
  = ([], Return example_assignment)
  ∧ assembly_dataframer example_tokens example_assignment = Return example_table
  ∧ length (columns example_table)
    = length (remove_dups (discovered_categories self no_files example_vocabulary PyNone))
  ∧ (∀ path c s,
       PyNone = PyStr path → no_files path = Some (String c s) →
       length (columns example_table)
       = length (remove_dups (category_name c <$> glossary_markers (String c s))))
  ∧ (∀ blocks,
       (∀ path, PyNone ≠ PyStr path) →
       consistent_glossary glossary3 blocks →
       length (columns example_table) = length (getCategories glossary3)).
Proof.
  intros self.
  split; [vm_compute; reflexivity|]. split; [vm_compute; reflexivity|].
  apply (C8_column_count self no_files example_vocabulary PyNone [] example_assignment
           example_tokens example_table); vm_compute; reflexivity.
Defined.

(** C10: [token_categorizer] reads a file only for a glossary argument that
    is a string.  For every argument that is neither [None] nor a string it
    prints nothing and returns what the default branch returns, whatever the
    files are, the same as with no argument; on a consistent default glossary
    that is an assignment, not an error. *)
Theorem C10_non_string_glossary (self : Assembly_Preprocessor) (fs : file_system)
    (token_list : list string) (instruction_glossary : py_value) :
  instruction_glossary ≠ PyNone →
  (∀ path, instruction_glossary ≠ PyStr path) →
  token_categorizer self fs token_list instruction_glossary
  = ([], st ← default_mode (default_glossary self) token_list; Return (cs_dict st))
  ∧ (∀ fs', token_categorizer self fs' token_list instruction_glossary
            = token_categorizer self fs token_list PyNone)
  ∧ (∀ blocks, consistent_glossary (default_glossary self) blocks →
               ∃ token_dictionary,
                 token_categorizer self fs token_list instruction_glossary
                 = ([], Return token_dictionary)).
Proof.
  intros Hnone Hstr.
  destruct instruction_glossary as [|path|other]; [done|by destruct (Hstr path)|].
  simpl. repeat split.
  intros blocks (st & -> & _)%(default_mode_consistent token_list). by eexists.
Qed.

Lemma glossary3_consistent :
  consistent_glossary glossary3
    [[(("Data transfer", 0), "mov"); (("Data transfer", 1), "push")];
     [(("Arithmetic", 0), "add")]; [(("Control flow", 0), "jmp")]].
Proof.
  split; [done| |done|].
  - repeat constructor; done.
  - repeat constructor; rewrite ?elem_of_cons, ?elem_of_nil; intuition discriminate.
Qed.

Lemma C10_non_string_glossary_witness :
  let self := {| default_glossary := glossary3 |} in
  let fs := one_file "glossary.txt" small_glossary_text in
  PyOther "PosixPath" ≠ PyNone
  ∧ (∀ path, PyOther "PosixPath" ≠ PyStr path)
  ∧ token_categorizer self fs example_vocabulary (PyOther "PosixPath")
    = ([], st ← default_mode glossary3 example_vocabulary; Return (cs_dict st))
  ∧ (∀ fs', token_categorizer self fs' example_vocabulary (PyOther "PosixPath")
            = token_categorizer self fs example_vocabulary PyNone)
  ∧ (∀ blocks, consistent_glossary glossary3 blocks →
               ∃ token_dictionary,
                 token_categorizer self fs example_vocabulary (PyOther "PosixPath")
                 = ([], Return token_dictionary)).
Proof.
  intros self fs. split; [discriminate|]. split; [intros path; discriminate|].
  apply (C10_non_string_glossary self fs example_vocabulary (PyOther "PosixPath")).
  - discriminate.
  - intros path. discriminate.
Defined.

(** C5, as stated, fails on an empty glossary file: one vocabulary token is
    more than zero lines minus zero markers, yet nothing is printed and no
    assignment is returned, [lines[0]] raises. *)
Lemma C5_insufficient_glossary_counterexample :
  let fs := one_file "glossary.txt" "" in
  insufficient "" ["mov"]
  ∧ token_categorizer {| default_glossary := glossary3 |} fs ["mov"] (PyStr "glossary.txt")
    = ([], Raise IndexError).
Proof. split; [vm_compute; reflexivity|vm_compute; reflexivity]. Qed.

(** C5, amended: in file mode on a glossary file that is not empty,
    [token_categorizer] prints the warning exactly when the number of
    distinct vocabulary tokens exceeds the number of glossary lines minus the
    number of category-marker lines; whether or not it does, processing
    continues and the assignment is returned. *)
Theorem C5_insufficient_glossary (self : Assembly_Preprocessor) (fs : file_system)
    (token_list : list string) (path text : string) :
  fs path = Some text → text ≠ "" → NoDup token_list →
  ∃ token_dictionary,
    token_categorizer self fs token_list (PyStr path)
    = (if decide (insufficient text token_list) then [warning] else [],
       Return token_dictionary).
Proof.
  intros Hfile Htext Hnodup. unfold token_categorizer. rewrite Hfile.
  destruct text as [|c s]; [done|].
  destruct (readlines_first c s) as (line & lines & Hlines).
  destruct (decide (insufficient (String c s) token_list)) as [Hins|Hins];
    unfold insufficient, glossary_markers in Hins;
    rewrite length_remove_dups_NoDup in Hins by done;
    rewrite Hlines in *;
    destruct (file_mode_spec token_list c line lines) as (st & -> & (Hfeat & _) & _);
    exists (cs_dict st); f_equal;
    rewrite Hfeat, length_fmap;
    destruct (Z.ltb_spec
                (Z.of_nat (length (String c line :: lines))
                 - Z.of_nat (length (marker_lines c (String c line :: lines))))
                (Z.of_nat (length token_list))); done || lia.
Qed.

Lemma C5_insufficient_glossary_witness :
  let fs := one_file "glossary.txt" small_glossary_text in
  let self := {| default_glossary := glossary3 |} in
  fs "glossary.txt" = Some small_glossary_text
  ∧ small_glossary_text ≠ ""
  ∧ NoDup example_vocabulary
  ∧ ∃ token_dictionary,
      token_categorizer self fs example_vocabulary (PyStr "glossary.txt")
      = (if decide (insufficient small_glossary_text example_vocabulary)
         then [warning] else [],
         Return token_dictionary).
Proof.
  intros fs self.
  assert (NoDup example_vocabulary) as Hnodup.
  { repeat constructor; rewrite ?elem_of_cons, ?elem_of_nil; intuition discriminate. }
  split; [reflexivity|]. split; [discriminate|]. split; [exact Hnodup|].
  apply (C5_insufficient_glossary self fs example_vocabulary "glossary.txt"
           small_glossary_text); [reflexivity|discriminate|exact Hnodup].
Defined.

Example warning_printed :
  token_categorizer {| default_glossary := glossary3 |}
    (one_file "glossary.txt" small_glossary_text) example_vocabulary (PyStr "glossary.txt")
  = ([warning], Return [(("Data transfer instructions", 0), "mov");
                        (("Arithmetic instructions", 0), "add")]).
Proof. vm_compute. reflexivity. Qed.

Example warning_not_printed :
  token_categorizer {| default_glossary := glossary3 |}
    (one_file "glossary.txt" small_glossary_text) ["mov"; "add"; "jmp"] (PyStr "glossary.txt")
  = ([], Return [(("Data transfer instructions", 0), "mov");
                 (("Arithmetic instructions", 0), "add")]).
Proof. vm_compute. reflexivity. Qed.

(** C6, as stated, fails: on an empty glossary file [token_categorizer]
    raises [IndexError] and returns no assignment, and a file without any
    intended marker still yields a category, named by its first line without
    that line's first character, so the table has a column. *)
Lemma C6_malformed_glossary_counterexample :
  let self := {| default_glossary := glossary3 |} in
  token_categorizer self (one_file "glossary.txt" "") ["mov"; "add"] (PyStr "glossary.txt")
  = ([], Raise IndexError)
  ∧ token_categorizer self (one_file "glossary.txt" unmarked_glossary_text)
      ["mov"; "add"] (PyStr "glossary.txt")
    = ([warning], Return [(("ov", 0), "add")])
  ∧ assembly_dataframer [["mov"; "add"]] [(("ov", 0), "add")]
    = Return {| columns := ["ov"]; data := [[100]] |}.
Proof. repeat split; vm_compute; reflexivity. Qed.

(** C6, amended: on an empty glossary file [token_categorizer] raises
    [IndexError] and returns no assignment; on any other glossary file the
    first character of the file is the marker, the first line is a marker
    line, and [token_categorizer] returns an assignment with at least one
    category, the first line without marker characters and newline, so a
    table the Aggregator produces from it has at least that column. *)
Theorem C6_malformed_glossary (self : Assembly_Preprocessor) (fs : file_system)
    (token_list : list string) (path text : string) :
  fs path = Some text →
  (text = "" →
   token_categorizer self fs token_list (PyStr path) = ([], Raise IndexError))
  ∧ (∀ c s, text = String c s →
       ∃ printed token_dictionary line,
         head (Py.readlines text) = Some line
         ∧ token_categorizer self fs token_list (PyStr path)
           = (printed, Return token_dictionary)
         ∧ category_name c line ∈ dict_categories token_dictionary
         ∧ ∀ tokenized_functions df,
             assembly_dataframer tokenized_functions token_dictionary = Return df →
             category_name c line ∈ columns df).
Proof.
  intros Hfile. unfold token_categorizer. rewrite Hfile. split.
  - by intros ->.
  - intros c s ->.
    destruct (readlines_first c s) as (line & lines & Hlines). rewrite Hlines.
    destruct (file_mode_spec token_list c line lines)
      as (st & -> & (Hfeat & _ & Hkeys) & _).
    assert (category_name c (String c line) ∈ dict_categories (cs_dict st)) as Hin.
    { rewrite dict_categories_elem_of, Hkeys, Hfeat.
      apply list_elem_of_fmap_2. unfold marker_lines.
      rewrite filter_cons_True by (by rewrite contains_first).
      apply list_elem_of_here. }
    eexists _, (cs_dict st), (String c line). repeat split; [done|].
    intros tfs df ->%assembly_dataframer_columns. done.
Qed.

Lemma C6_malformed_glossary_witness :
  let fs := one_file "glossary.txt" unmarked_glossary_text in
  let self := {| default_glossary := glossary3 |} in
  fs "glossary.txt" = Some unmarked_glossary_text
  ∧ (unmarked_glossary_text = "" →
     token_categorizer self fs ["mov"; "add"] (PyStr "glossary.txt")
     = ([], Raise IndexError))
  ∧ (∀ c s, unmarked_glossary_text = String c s →
       ∃ printed token_dictionary line,
         head (Py.readlines unmarked_glossary_text) = Some line
         ∧ token_categorizer self fs ["mov"; "add"] (PyStr "glossary.txt")
           = (printed, Return token_dictionary)
         ∧ category_name c line ∈ dict_categories token_dictionary
         ∧ ∀ tokenized_functions df,
             assembly_dataframer tokenized_functions token_dictionary = Return df →
             category_name c line ∈ columns df).
Proof.
  intros fs self. split; [reflexivity|].
  apply (C6_malformed_glossary self fs ["mov"; "add"] "glossary.txt"
           unmarked_glossary_text).
  reflexivity.
Defined.

(** ** The counting loop *)

Section counting.

Lemma iadd_alter (l l' : list Z) (i d : Z) :
  0 ≤ i → Py.iadd l i d = Return l' →
  l' = alter (λ x, x + d) (Z.to_nat i) l ∧ (Z.to_nat i < length l)%nat.
Proof.
  intros Hi. unfold Py.iadd, Py.getitem, Py.index.
  destruct (Z.ltb_spec i 0); [lia|].
  destruct (Z.leb_spec 0 i); [|lia].
  destruct (Z.ltb_spec i (Z.of_nat (length l))); [|done]. simpl.
  destruct (l !! Z.to_nat i) as [x|] eqn:Hx; [|done]. simpl.
  intros [= <-]. split; [|lia].
  rewrite list_insert_alter. apply list_alter_ext; [|done].
  intros y Hy. congruence.
Qed.

Lemma count_instances_alter (function : list string) (m : string) (i : Z)
    (occ occ' : list Z) :
  0 ≤ i → count_instances function m i occ = Return occ' →
  occ' = alter (λ x, x + instances function m) (Z.to_nat i) occ.
Proof.
  intros Hi. unfold count_instances, instances. revert occ.
  induction function as [|token f IH]; intros occ; simpl.
  - intros [= <-]. symmetry. apply list_alter_id. intros x. lia.
  - rewrite filter_cons. destruct (decide (token = m)) as [->|Hne].
    + destruct (Py.iadd occ i 1) as [occ1|] eqn:Hadd; [|done]. simpl.
      apply iadd_alter in Hadd as [-> _]; [|done].
      intros ->%IH. rewrite list_alter_alter_eq.
      apply list_alter_ext; [|done]. intros x _. unfold compose.
      simpl length. lia.
    + simpl. apply IH.
Qed.

(** When a mnemonic occurs in the function, counting it touches the list
    of counts, so the tracked index is inside it. *)
Lemma count_instances_in_range (function : list string) (m : string) (i : Z)
    (occ occ' : list Z) :
  0 ≤ i → m ∈ function → count_instances function m i occ = Return occ' →
  (Z.to_nat i < length occ)%nat.
Proof.
  intros Hi. unfold count_instances. revert occ.
  induction function as [|token f IH]; intros occ Hin; simpl.
  - by apply elem_of_nil in Hin.
  - destruct (decide (token = m)) as [->|Hne].
    + destruct (Py.iadd occ i 1) as [occ1|] eqn:Hadd; [|done].
      apply iadd_alter in Hadd as [_ Hlt]; done.
    + simpl. apply IH. apply elem_of_cons in Hin as [?|?]; congruence.
Qed.

Context (categories : list string) (function : list string).

(** What one step does to the counts and to the list of scored mnemonics. *)
Lemma occ_step_spec (st st' : counter_state) (item : key * string) :
  0 ≤ cat_i st →
  occ_step categories function st item = Return st' →
  cat_i st ≤ cat_i st'
  ∧ if decide (item.2 ∈ function ∧ item.2 ∉ duplicate_control st)
    then duplicate_control st' = duplicate_control st ++ [item.2]
         ∧ token_occ st'
           = alter (λ x, x + instances function item.2) (Z.to_nat (cat_i st'))
               (token_occ st)
         ∧ (Z.to_nat (cat_i st') < length (token_occ st))%nat
    else duplicate_control st' = duplicate_control st
         ∧ token_occ st' = token_occ st.
Proof.
  intros Hi. unfold occ_step.
  destruct (Py.getitem _ _) as [c|]; [|done]. simpl.
  set (i := if decide (c ≠ item.1.1) then cat_i st + 1 else cat_i st).
  assert (cat_i st ≤ i) as Hle by (unfold i; destruct (decide _); lia).
  destruct (decide (item.2 ∈ function)) as [Hin|Hin].
  - destruct (decide (item.2 ∈ duplicate_control st)) as [Hdup|Hdup].
    + intros [= <-]. simpl. split; [done|].
      rewrite decide_False by tauto. done.
    + destruct (count_instances _ _ _ _) as [occ|] eqn:Hocc; [|done]. simpl.
      intros [= <-]. simpl. split; [done|].
      rewrite decide_True by done. repeat split.
      * apply count_instances_alter in Hocc; [done|lia].
      * apply count_instances_in_range in Hocc; [done|lia|done].
  - intros [= <-]. simpl. split; [done|].
    rewrite decide_False by tauto. done.
Qed.

(** After the items [items], the scored mnemonics are the mnemonics of
    [items] that occur in the function. *)
Lemma counting_loop_scored (items : token_dict) (st : counter_state) :
  Py.foldM (occ_step categories function) (counter_start categories) items = Return st →
  0 ≤ cat_i st
  ∧ ∀ m, m ∈ duplicate_control st ↔ m ∈ items.*2 ∧ m ∈ function.
Proof.
  revert st. induction items as [|item items IH] using rev_ind; intros st.
  - simpl. intros [= <-]. simpl. split; [done|]. intros m.
    split; [by intros ?%elem_of_nil|by intros [?%elem_of_nil _]].
  - rewrite foldM_app.
    destruct (Py.foldM _ _ items) as [st0|]; [|done]. cbn [mbind result_bind Py.foldM].
    destruct (IH st0 eq_refl) as [Hi Hdup].
    destruct (occ_step categories function st0 item) as [st1|] eqn:Hstep; [|done].
    simpl. intros [= <-].
    apply occ_step_spec in Hstep as [Hle Hstep]; [|done].
    split; [lia|]. intros m. rewrite fmap_app, elem_of_app. simpl.
    rewrite list_elem_of_singleton.
    destruct (decide _) as [[Hin Hnew]|Hold].
    + destruct Hstep as (-> & _). rewrite elem_of_app, list_elem_of_singleton, Hdup.
      split; [|tauto]. intros [?| ->]; tauto.
    + destruct Hstep as (-> & _). rewrite Hdup. split; [tauto|].
      intros [[?| ->] Hm]; [tauto|].
      apply Hdup. destruct (decide (item.2 ∈ duplicate_control st0)); tauto.
Qed.

End counting.

Section totals.

Lemma foldl_add (a : Z) (l : list Z) : foldl Z.add a l = a + sum l.
Proof.
  unfold sum. revert a. induction l as [|x l IH]; intros a; simpl; [lia|].
  rewrite (IH (a + x)), (IH (0 + x)). lia.
Qed.

Lemma sum_cons (x : Z) (l : list Z) : sum (x :: l) = x + sum l.
Proof. unfold sum at 1. simpl. apply foldl_add. Qed.

Lemma sum_replicate_zero (n : nat) : sum (replicate n 0) = 0.
Proof. induction n as [|n IH]; [done|]. simpl. by rewrite sum_cons, IH. Qed.

Lemma sum_alter (l : list Z) (i : nat) (d : Z) :
  (i < length l)%nat → sum (alter (λ x, x + d) i l) = sum l + d.
Proof.
  revert i. induction l as [|x l IH]; intros i Hi; simpl in Hi; [lia|].
  destruct i as [|i].
  - simpl. rewrite !sum_cons. lia.
  - change (alter (λ x, x + d) (S i) (x :: l)) with (x :: alter (λ x, x + d) i l).
    rewrite !sum_cons, IH by lia. lia.
Qed.

Lemma instances_in (function : list string) (m : string) :
  m ∈ function → 0 < instances function m.
Proof.
  intros Hm. unfold instances.
  assert (m ∈ filter (λ token, token = m) function) as Hin
    by (by apply list_elem_of_filter).
  destruct (filter _ function); [by apply elem_of_nil in Hin|simpl; lia].
Qed.

(** The total of the raw occurrence counts of a function is zero exactly
    when no token of the function is the mnemonic of a slot. *)
Lemma count_occurrences_total (categories : list string) (token_dictionary : token_dict)
    (function : list string) (occ : list Z) :
  count_occurrences categories token_dictionary function = Return occ →
  0 ≤ sum occ
  ∧ (sum occ = 0 ↔ ∀ item, item ∈ token_dictionary → item.2 ∉ function).
Proof.
  unfold count_occurrences.
  destruct (Py.foldM _ _ _) as [st|] eqn:Hloop; simpl; [|done].
  intros [= <-].
  destruct (counting_loop_scored categories function _ _ Hloop) as [_ Hscored].
  assert (0 ≤ cat_i st
          ∧ (duplicate_control st = [] → sum (token_occ st) = 0)
          ∧ (duplicate_control st ≠ [] → 0 < sum (token_occ st))) as (_ & Hnone & Hsome).
  { revert Hloop.
    apply (foldM_invariant
             (λ st, 0 ≤ cat_i st
                    ∧ (duplicate_control st = [] → sum (token_occ st) = 0)
                    ∧ (duplicate_control st ≠ [] → 0 < sum (token_occ st)))).
    - intros s item s' (Hi & Hnone & Hsome) Hstep.
      apply occ_step_spec in Hstep as [Hle Hstep]; [|done]. split; [lia|].
      destruct (decide _) as [[Hin _]|_].
      + destruct Hstep as (-> & -> & Hlt). rewrite sum_alter by done.
        pose proof (instances_in function item.2 Hin).
        split; [by intros [_ ?]%app_eq_nil|]. intros _.
        destruct (duplicate_control s); [rewrite Hnone by done|
                                         specialize (Hsome ltac:(done))]; lia.
      + by destruct Hstep as (-> & ->).
    - simpl. split; [done|]. split; [|done]. intros _. apply sum_replicate_zero. }
  destruct (duplicate_control st) as [|m ms] eqn:Hdup.
  - split; [by rewrite Hnone|]. split; [|by intros; apply Hnone].
    intros _ item Hitem Hin.
    assert (item.2 ∈ []) as ?%elem_of_nil; [|done].
    apply Hscored. split; [by apply list_elem_of_fmap_2|done].
  - specialize (Hsome ltac:(done)). split; [lia|]. split; [lia|].
    intros Hno. exfalso.
    destruct (proj1 (Hscored m) ltac:(apply list_elem_of_here)) as [Hm Hin].
    apply list_elem_of_fmap in Hm as (item & -> & Hitem). by apply (Hno item).
Qed.

End totals.

(** ** Claims about the aggregator *)

Lemma instances_not_in (function : list string) (m : string) :
  m ∉ function → instances function m = 0.
Proof.
  intros Hm. unfold instances. rewrite filter_none; [done|].
  apply Forall_forall. intros x Hx ->. done.
Qed.

Example shared_assignment_from_file :
  token_categorizer {| default_glossary := glossary3 |}
    (one_file "glossary.txt" shared_glossary_text) ["mov"; "add"] (PyStr "glossary.txt")
  = ([], Return shared_assignment).
Proof. vm_compute. reflexivity. Qed.

(** C7, as stated, fails: [mov] is assigned to two categories, and its two
    instances are tallied into the first of them only. *)
Lemma C7_double_count_counterexample :
  count_occurrences (dict_categories shared_assignment) shared_assignment ["mov"; "mov"; "add"]
  = Return [2; 1]
  ∧ assembly_dataframer [["mov"; "mov"; "add"]] shared_assignment
    = Return {| columns := ["Data transfer"; "Arithmetic"]; data := [[67; 33]] |}.
Proof. split; vm_compute; reflexivity. Qed.

(** C7, amended: a mnemonic assigned to several categories is not counted
    twice.  For each function, when the loop over the assignment reaches a
    slot whose mnemonic an earlier slot already held, in whatever category,
    every raw occurrence count stays as it is; only the first slot holding a
    mnemonic tallies the instances of that mnemonic, into the count of the
    category tracked at that slot. *)
Theorem C7_counted_once (categories : list string) (function : list string)
    (earlier : token_dict) (item : key * string) (st st' : counter_state) :
  Py.foldM (occ_step categories function) (counter_start categories) earlier = Return st →
  occ_step categories function st item = Return st' →
  (item.2 ∈ earlier.*2 → token_occ st' = token_occ st)
  ∧ (item.2 ∉ earlier.*2 →
     token_occ st'
     = alter (λ x, x + instances function item.2) (Z.to_nat (cat_i st')) (token_occ st)).
Proof.
  intros [Hi Hdup]%counting_loop_scored Hstep.
  apply occ_step_spec in Hstep as [_ Hstep]; [|done].
  destruct (decide _) as [[Hin Hnew]|Hold].
  - destruct Hstep as (_ & -> & _). split; [|done].
    intros Hearlier. destruct Hnew. by apply Hdup.
  - destruct Hstep as (_ & ->). split; [done|].
    intros Hearlier. rewrite instances_not_in.
    + symmetry. apply list_alter_id. intros x. lia.
    + intros Hin. apply Hold. split; [done|]. rewrite Hdup. tauto.
Qed.

Lemma C7_counted_once_witness :
  let categories := dict_categories shared_assignment in
  let function := ["mov"; "mov"; "add"] in
  let st := {| cat_i := 0; duplicate_control := ["mov"]; token_occ := [2; 0] |} in
  let st' := {| cat_i := 1; duplicate_control := ["mov"]; token_occ := [2; 0] |} in
  Py.foldM (occ_step categories function) (counter_start categories)
    [(("Data transfer", 0), "mov")] = Return st
  ∧ occ_step categories function st (("Arithmetic", 0), "mov") = Return st'
  ∧ ("mov" ∈ [(("Data transfer", 0), "mov")].*2 → token_occ st' = token_occ st)
  ∧ ("mov" ∉ [(("Data transfer", 0), "mov")].*2 →
     token_occ st'
     = alter (λ x, x + instances function "mov") (Z.to_nat (cat_i st')) (token_occ st)).
Proof.
  intros categories function st st'.
  split; [vm_compute; reflexivity|]. split; [vm_compute; reflexivity|].
  apply (C7_counted_once categories function [(("Data transfer", 0), "mov")]
           (("Arithmetic", 0), "mov") st st'); vm_compute; reflexivity.
Defined.

(** C2, as stated, fails: a function without categorized tokens makes
    [assembly_dataframer] raise [ZeroDivisionError], the built-in exception
    of the division and no class of the program's own; and when the
    assignment has no categories nothing is divided, nothing is raised, and
    the row has no cells. *)
Lemma C2_zero_total_counterexample :
  count_occurrences (dict_categories example_assignment) example_assignment ["nop"]
  = Return [0; 0; 0]
  ∧ assembly_dataframer [["nop"]] example_assignment = Raise ZeroDivisionError
  ∧ (∀ name, assembly_dataframer [["nop"]] example_assignment
             ≠ Raise (UserDefined name))
  ∧ count_occurrences (dict_categories []) [] ["nop"] = Return []
  ∧ assembly_dataframer [["nop"]] [] = Return {| columns := []; data := [[]] |}.
Proof. repeat split; try (vm_compute; reflexivity). intros name. vm_compute. discriminate. Qed.

(** C2, amended: if some function's total raw occurrence count across all
    categories is zero and the assignment has at least one category,
    [assembly_dataframer] returns no table: it fails, and when every function
    before that one gets its row the failure is the [ZeroDivisionError] that
    Python's division raises, so that no NaN or infinity is ever produced. *)
Theorem C2_zero_total (tokenized_functions : list (list string))
    (token_dictionary : token_dict) (function : list string) (token_occ : list Z) :
  dict_categories token_dictionary ≠ [] →
  function ∈ tokenized_functions →
  count_occurrences (dict_categories token_dictionary) token_dictionary function
  = Return token_occ →
  sum token_occ = 0 →
  (∃ e, assembly_dataframer tokenized_functions token_dictionary = Raise e)
  ∧ (∀ before after rows,
       tokenized_functions = before ++ function :: after →
       Py.mapM (feature_row (dict_categories token_dictionary) token_dictionary) before
       = Return rows →
       assembly_dataframer tokenized_functions token_dictionary
       = Raise ZeroDivisionError).
Proof.
  intros Hcats Hin Hocc Hsum.
  set (categories := dict_categories token_dictionary) in *.
  assert (feature_row categories token_dictionary function = Raise ZeroDivisionError)
    as Hrow.
  { unfold feature_row. rewrite Hocc. simpl.
    rewrite percentages_zero; [|by eapply count_occurrences_length|done].
    by rewrite decide_False. }
  rewrite assembly_dataframer_spec. fold categories. split.
  - destruct (mapM_raises _ _ _ _ Hin Hrow) as [e ->]. by exists e.
  - intros before after rows -> Hbefore.
    by rewrite (mapM_first_raise _ before after function rows ZeroDivisionError).
Qed.

Lemma C2_zero_total_witness :
  let categories := dict_categories example_assignment in
  let tokenized_functions := [["mov"; "add"]; ["nop"]; ["jmp"]] in
  categories ≠ []
  ∧ ["nop"] ∈ tokenized_functions
  ∧ count_occurrences categories example_assignment ["nop"] = Return [0; 0; 0]
  ∧ sum [0; 0; 0] = 0
  ∧ (∃ e, assembly_dataframer tokenized_functions example_assignment = Raise e)
  ∧ (∀ before after rows,
       tokenized_functions = before ++ ["nop"] :: after →
       Py.mapM (feature_row categories example_assignment) before = Return rows →
       assembly_dataframer tokenized_functions example_assignment
       = Raise ZeroDivisionError).
Proof.
  intros categories tokenized_functions.
  assert (categories ≠ []) as Hcats by (vm_compute; discriminate).
  assert (["nop"] ∈ tokenized_functions) as Hin
    by (apply list_elem_of_further, list_elem_of_here).
  split; [exact Hcats|]. split; [exact Hin|].
  split; [vm_compute; reflexivity|]. split; [reflexivity|].
  apply (C2_zero_total tokenized_functions example_assignment ["nop"] [0; 0; 0]);
    [exact Hcats|exact Hin|vm_compute; reflexivity|reflexivity].
Defined.

(** ** Rounding *)

Section rounding.

(** Rounding to the nearest integer is off by at most a half. *)
Lemma round_half_even_error (n d : Z) :
  0 < d → - d ≤ 2 * (round_half_even n d * d - n) ≤ d.
Proof.
  intros Hd. unfold round_half_even.
  pose proof (Z.div_mod n d ltac:(lia)) as Hdiv.
  pose proof (Z.mod_pos_bound n d Hd) as Hmod.
  destruct (Z.ltb_spec (2 * (n mod d)) d); [nia|].
  destruct (Z.ltb_spec d (2 * (n mod d))); [nia|].
  destruct (Z.even (n / d)); nia.
Qed.

(** The quotient of two counts, [0 < a ≤ b]: at least 52 binary digits
    after the point, and off by at most half a unit of the last one. *)
Lemma quotient_error (a b : Z) :
  0 < a ≤ b →
  52 ≤ shift (quotient a b)
  ∧ - b ≤ 2 * (mantissa (quotient a b) * b - a * 2 ^ shift (quotient a b)) ≤ b.
Proof.
  intros [Ha Hab]. unfold quotient.
  destruct (Z.eqb_spec a 0); [lia|].
  rewrite (Z.abs_eq a), (Z.abs_eq b), (Z.sgn_pos a), (Z.sgn_pos b) by lia.
  pose proof (Z.log2_le_mono a b Hab) as Hlog.
  set (sh0 := 53 + Z.log2 b - Z.log2 a).
  set (sh := if a * 2 ^ Z.max sh0 0 <? 2 ^ 53 * (b * 2 ^ Z.max (- sh0) 0)
             then sh0 else sh0 - 1).
  assert (52 ≤ sh) as Hsh by (unfold sh, sh0; destruct (_ <? _); lia).
  cbn [shift mantissa]. split; [done|].
  unfold scaled_quotient.
  rewrite (Z.max_l sh 0), (Z.max_r (- sh) 0) by lia.
  rewrite Z.pow_0_r, !Z.mul_1_r, !Z.mul_1_l.
  apply round_half_even_error. lia.
Qed.

(** A cell is within half a hundredth of the exact share, up to the
    rounding of the binary quotient. *)
Lemma percent_error (total a : Z) :
  0 ≤ a ≤ total → 0 < total →
  - (total * (2 ^ 52 + 100))
  ≤ 2 ^ 53 * (percent total a * total - 100 * a)
  ≤ total * (2 ^ 52 + 100).
Proof.
  intros [Ha Hab] Htotal. unfold percent.
  destruct (Z.eq_dec a 0) as [->|Hne].
  - change (round2 (quotient 0 total)) with 0. lia.
  - destruct (quotient_error a total ltac:(lia)) as [Hsh Hm].
    unfold round2.
    set (m := mantissa (quotient a total)) in *.
    set (s := shift (quotient a total)) in *.
    rewrite (Z.max_l s 0), (Z.max_r (- s) 0) by lia.
    rewrite Z.pow_0_r, Z.mul_1_r.
    assert (0 < 2 ^ s) as HP by (apply Z.pow_pos_nonneg; lia).
    pose proof (round_half_even_error (100 * m) (2 ^ s) HP) as Hk.
    set (k := round_half_even (100 * m) (2 ^ s)) in *.
    assert (2 ^ s = 2 ^ 52 * 2 ^ (s - 52)) as Hsplit.
    { rewrite <- Z.pow_add_r by lia. f_equal. lia. }
    assert (0 < 2 ^ (s - 52)) as Ht by (apply Z.pow_pos_nonneg; lia).
    set (t := 2 ^ (s - 52)) in *. set (P := 2 ^ s) in *.
    assert (P * (k * total - 100 * a)
            = total * (k * P - 100 * m) + 100 * (m * total - a * P)) as Hdecomp by ring.
    assert (- (total * P + 100 * total)
            ≤ 2 * (P * (k * total - 100 * a))
            ≤ total * P + 100 * total) as Hbound by nia.
    assert (1 ≤ t) as Ht1 by lia.
    assert (- (t * (total * (2 ^ 52 + 100)))
            ≤ t * (2 ^ 53 * (k * total - 100 * a))
            ≤ t * (total * (2 ^ 52 + 100))) as Hscaled.
    { replace (t * (2 ^ 53 * (k * total - 100 * a)))
        with (2 * (P * (k * total - 100 * a))) by (rewrite Hsplit; ring).
      assert (total * P + 100 * total ≤ t * (total * (2 ^ 52 + 100))); [|lia].
      rewrite Hsplit. nia. }
    split; nia.
Qed.

End rounding.

Section row_sum.

Lemma sum_nonneg (l : list Z) : Forall (λ a, 0 ≤ a) l → 0 ≤ sum l.
Proof.
  induction 1 as [|x l Hx _ IH]; [done|]. rewrite sum_cons. lia.
Qed.

Lemma sum_upper (l : list Z) :
  Forall (λ a, 0 ≤ a) l → Forall (λ a, 0 ≤ a ≤ sum l) l.
Proof.
  induction 1 as [|x l Hx Hl IH]; [done|]. rewrite sum_cons.
  pose proof (sum_nonneg l Hl). constructor; [lia|].
  eapply Forall_impl; [exact IH|]. simpl. lia.
Qed.


Lemma count_occurrences_nonneg (categories : list string) (token_dictionary : token_dict)
    (function : list string) (occ : list Z) :
  count_occurrences categories token_dictionary function = Return occ →
  Forall (λ a, 0 ≤ a) occ.
Proof.
  unfold count_occurrences.
  destruct (Py.foldM _ _ _) as [st|] eqn:Hloop; simpl; [|done].
  intros [= <-]. revert Hloop.
  apply (foldM_invariant (λ st, 0 ≤ cat_i st ∧ Forall (λ a, 0 ≤ a) (token_occ st))).
  - intros s item s' [Hi Hocc] Hstep.
    apply occ_step_spec in Hstep as [Hle Hstep]; [|done]. split; [lia|].
    destruct (decide _).
    + destruct Hstep as (_ & -> & _). apply Forall_alter; [done|].
      intros x _ Hx. unfold instances. lia.
    + destruct Hstep as (_ & ->). done.
  - simpl. split; [done|]. apply Forall_replicate. done.
Qed.

End row_sum.

Section row_sum_large.

(** A cell is not negative and at most about twice the exact share. *)
Lemma percent_coarse (total a : Z) :
  0 ≤ a ≤ total → 0 < total →
  0 ≤ percent total a * total ≤ 301 * a.
Proof.
  intros Ha Htotal. pose proof (percent_error total a Ha Htotal) as Herr.
  set (k := percent total a) in *.
  assert (0 ≤ k) as Hk.
  { destruct (Z_lt_le_dec k 0) as [Hneg|]; [|done].
    assert (k * total ≤ - total) by nia. lia. }
  split; [nia|].
  destruct (Z.eq_dec k 0) as [->|Hpos]; [lia|].
  assert (total ≤ k * total) by nia. lia.
Qed.



End row_sum_large.




(** ** The example of the specification *)

Ltac elem_of_list := repeat first [apply list_elem_of_here | apply list_elem_of_further].

Lemma example_tokenized :
  tokenize_instructions example_functions = (example_vocabulary, example_tokens).
Proof. vm_compute. reflexivity. Qed.

(** In the format of the docstring, the printed form of a list of
    instructions, no fragment is empty and the fourth category stays at
    0.00. *)
Example pipeline_printed_lists :
  complete_preprocessing {| default_glossary := glossary4 |} no_files
    ["['mov eax, ebx', 'add eax, 1']"; "['jmp 0x10', 'jmp 0x20']"] PyNone
  = ([], Return {| columns := ["Data transfer"; "Arithmetic"; "Control flow"; "Logic"];
                   data := [[50; 50; 0; 0]; [0; 0; 100; 0]] |}).
Proof. vm_compute. reflexivity. Qed.

(** C1, as stated, fails: a default glossary that places [mov], [add] and
    [jmp] as the claim asks and has a further category, none of whose
    mnemonics is in the input, gets the empty fragments between the quotes
    of the input counted under that category through its empty slot: row 1
    is 0.20, 0.20, 0.00 (and 0.60), row 2 is 0.00, 0.00, 0.40 (and 0.60). *)
Lemma C1_example_counterexample :
  places glossary4 "mov" "Data transfer"
  ∧ places glossary4 "add" "Arithmetic"
  ∧ places glossary4 "jmp" "Control flow"
  ∧ complete_preprocessing {| default_glossary := glossary4 |} no_files
      example_functions PyNone
    = ([], Return table4)
  ∧ cell table4 0 "Data transfer" = Some 20
  ∧ cell table4 0 "Arithmetic" = Some 20
  ∧ cell table4 1 "Control flow" = Some 40.
Proof.
  split; [exists 0; elem_of_list|].
  split; [exists 0; elem_of_list|].
  split; [exists 0; elem_of_list|].
  repeat split; vm_compute; reflexivity.
Qed.

(** C1, amended: for the input functions of the example, under the
    hypothesis that the default glossary has exactly the categories
    "Data transfer", "Arithmetic" and "Control flow", in this order and with
    a dictionary consistent with it, and that of the tokens of the input it
    lists [mov], and no other, under "Data transfer", [add] under
    "Arithmetic" and [jmp] under "Control flow", [complete_preprocessing]
    with no glossary file prints nothing and returns the table whose row 1
    is 0.50, 0.50, 0.00 and whose row 2 is 0.00, 0.00, 1.00. *)
Theorem C1_example (self : Assembly_Preprocessor) (fs : file_system)
    (data_transfer arithmetic control_flow : list (key * string)) :
  getCategories (default_glossary self) = ["Data transfer"; "Arithmetic"; "Control flow"] →
  consistent_glossary (default_glossary self) [data_transfer; arithmetic; control_flow] →
  matched example_vocabulary data_transfer = ["mov"] →
  matched example_vocabulary arithmetic = ["add"] →
  matched example_vocabulary control_flow = ["jmp"] →
  complete_preprocessing self fs example_functions PyNone = ([], Return example_table).
Proof.
  intros Hcats Hconsistent Hmov Hadd Hjmp.
  unfold complete_preprocessing. rewrite example_tokenized.
  destruct (default_mode_consistent example_vocabulary _ _ Hconsistent)
    as (st & Hmode & Hdict & _).
  unfold token_categorizer. rewrite Hmode. cbn [mbind result_bind].
  rewrite Hdict, Hcats. unfold default_assignment. simpl zip. simpl foldl.
  rewrite Hmov, Hadd, Hjmp. vm_compute. reflexivity.
Qed.

Lemma C1_example_witness :
  let self := {| default_glossary := glossary3 |} in
  getCategories glossary3 = ["Data transfer"; "Arithmetic"; "Control flow"]
  ∧ consistent_glossary glossary3
      [[(("Data transfer", 0), "mov"); (("Data transfer", 1), "push")];
       [(("Arithmetic", 0), "add")]; [(("Control flow", 0), "jmp")]]
  ∧ matched example_vocabulary
      [(("Data transfer", 0), "mov"); (("Data transfer", 1), "push")] = ["mov"]
  ∧ matched example_vocabulary [(("Arithmetic", 0), "add")] = ["add"]
  ∧ matched example_vocabulary [(("Control flow", 0), "jmp")] = ["jmp"]
  ∧ complete_preprocessing self no_files example_functions PyNone
    = ([], Return example_table).
Proof.
  intros self. split; [reflexivity|]. split; [exact glossary3_consistent|].
  split; [vm_compute; reflexivity|]. split; [vm_compute; reflexivity|].
  split; [vm_compute; reflexivity|].
  apply (C1_example self no_files
           [(("Data transfer", 0), "mov"); (("Data transfer", 1), "push")]
           [(("Arithmetic", 0), "add")] [(("Control flow", 0), "jmp")]);
    [reflexivity|exact glossary3_consistent|vm_compute; reflexivity..].
Defined.

(** * Further properties *)

(** ** Fragments of a split *)

Section split.

Lemma split_cons (sep : ascii) (s : string) :
  ∃ w ws, Py.split sep s = w :: ws.
Proof.
  destruct s as [|c s]; simpl; [by eauto|].
  destruct (Ascii.eqb c sep); [by eauto|].
  destruct (Py.split sep s); by eauto.
Qed.

(** No fragment holds the separator. *)
Lemma split_no_separator (sep : ascii) (s w : string) :
  w ∈ Py.split sep s → Py.contains sep w = false.
Proof.
  revert w. induction s as [|c s IH]; intros w; simpl.
  - by intros ->%list_elem_of_singleton.
  - destruct (Ascii.eqb c sep) eqn:Hc.
    + intros [->|Hw]%elem_of_cons; [done|by apply IH].
    + destruct (Py.split sep s) as [|w' ws] eqn:Hsplit.
      * intros ->%list_elem_of_singleton. simpl. by rewrite Hc.
      * intros [->|Hw]%elem_of_cons.
        -- simpl. rewrite Hc. apply IH, list_elem_of_here.
        -- by apply IH, list_elem_of_further.
Qed.

(** A fragment holds only characters of the string. *)
Lemma split_contains (sep c : ascii) (s w : string) :
  w ∈ Py.split sep s → Py.contains c w = true → Py.contains c s = true.
Proof.
  revert w. induction s as [|d s IH]; intros w; simpl.
  - by intros ->%list_elem_of_singleton.
  - destruct (Ascii.eqb d sep) eqn:Hd.
    + intros [->|Hw]%elem_of_cons; [done|]. intros Hc.
      rewrite (IH w) by done. apply orb_true_r.
    + destruct (Py.split sep s) as [|w' ws] eqn:Hsplit.
      * intros ->%list_elem_of_singleton. simpl. rewrite orb_false_r.
        intros ->. done.
      * intros [->|Hw]%elem_of_cons.
        -- simpl. intros [->|Hc]%orb_true_iff; [done|].
           rewrite (IH w') by (done || apply list_elem_of_here). apply orb_true_r.
        -- intros Hc. rewrite (IH w) by (done || by apply list_elem_of_further).
           apply orb_true_r.
Qed.

(** A string without the separator is its own single fragment. *)
Lemma split_none (sep : ascii) (s : string) :
  Py.contains sep s = false → Py.split sep s = [s].
Proof.
  induction s as [|c s IH]; simpl; [done|].
  intros [Hc Hs]%orb_false_iff. rewrite Hc, IH by done. done.
Qed.

(** Up to the first separator. *)
Lemma split_app (sep : ascii) (s1 s2 : string) :
  Py.contains sep s1 = false →
  Py.split sep (s1 +:+ String sep s2) = s1 :: Py.split sep s2.
Proof.
  induction s1 as [|c s1 IH]; simpl.
  - intros _. by rewrite Ascii.eqb_refl.
  - intros [Hc Hs]%orb_false_iff. rewrite Hc, IH by done. done.
Qed.

Lemma command_of_elem (instruction : string) :
  command_of instruction ∈ Py.split Py.space instruction.
Proof.
  unfold command_of.
  destruct (split_cons Py.space instruction) as (w & ws & ->). apply list_elem_of_here.
Qed.

End split.

(** ** The tokenizer *)

(** X1: no token that [tokenize_instructions] returns, in the vocabulary or
    in a token sequence, is one of the fragments ["["], ["]"], [","], and no
    token holds a space or a quote. *)
Theorem X1_tokens_clean (assembly_functions : list string) (token : string) :
  (token ∈ (tokenize_instructions assembly_functions).1
   ∨ ∃ function, function ∈ (tokenize_instructions assembly_functions).2
                 ∧ token ∈ function) →
  (token ∉ separators)
  ∧ Py.contains Py.space token = false
  ∧ Py.contains Py.quote token = false.
Proof.
  rewrite tokenize_instructions_spec. simpl.
  rewrite elem_of_first_seen, elem_of_concat.
  intros Htoken.
  assert (∃ function, function ∈ assembly_functions ∧ token ∈ tokens_of function)
    as (function & _ & Hin).
  { destruct Htoken as [(l & Hl & Hfun)|(l & Hfun & Hl)];
      apply list_elem_of_fmap in Hfun as (function & -> & Hfun); eauto. }
  unfold tokens_of in Hin.
  apply list_elem_of_filter in Hin as [Hsep Hin].
  apply list_elem_of_fmap in Hin as (instruction & -> & Hinstruction).
  split; [done|]. split.
  - apply (split_no_separator _ instruction), command_of_elem.
  - destruct (Py.contains Py.quote (command_of instruction)) eqn:Hquote; [|done].
    apply (split_contains Py.space _ instruction) in Hquote; [|apply command_of_elem].
    by rewrite (split_no_separator _ _ _ Hinstruction) in Hquote.
Qed.

Lemma X1_tokens_clean_witness :
  let assembly_functions := ["['jmp qword ptr [rip + 0x220882]']"] in
  ("jmp" ∈ (tokenize_instructions assembly_functions).1
   ∨ ∃ function, function ∈ (tokenize_instructions assembly_functions).2
                 ∧ "jmp" ∈ function)
  ∧ ("jmp" ∉ separators)
  ∧ Py.contains Py.space "jmp" = false
  ∧ Py.contains Py.quote "jmp" = false.
Proof.
  intros assembly_functions.
  assert ("jmp" ∈ (tokenize_instructions assembly_functions).1) as Hin
    by (apply (bool_decide_unpack _); vm_compute; exact I).
  split; [by left|].
  apply (X1_tokens_clean assembly_functions "jmp"). by left.
Defined.

(** X2: tokenizing a list of functions in two parts: the token sequences of
    the whole are those of the parts, one after the other, and its
    vocabulary is the vocabulary of the first part followed by the new
    mnemonics of the second. *)
Theorem X2_tokenize_app (functions1 functions2 : list string) :
  tokenize_instructions (functions1 ++ functions2)
  = ((tokenize_instructions functions1).1
     ++ filter (λ token, token ∉ (tokenize_instructions functions1).1)
          (tokenize_instructions functions2).1,
     (tokenize_instructions functions1).2 ++ (tokenize_instructions functions2).2).
Proof.
  rewrite !tokenize_instructions_spec. simpl.
  rewrite fmap_app, concat_app, first_seen_app. do 2 f_equal.
  apply list_filter_iff. intros token. by rewrite elem_of_first_seen.
Qed.

Section printed_lists.

Lemma comma_dropped : command_of ", " ∈ separators.
Proof. apply (bool_decide_unpack _). vm_compute. exact I. Qed.

Lemma open_bracket_dropped : command_of "[" ∈ separators.
Proof. apply (bool_decide_unpack _). vm_compute. exact I. Qed.

Lemma close_bracket_dropped : command_of "]" ∈ separators.
Proof. apply (bool_decide_unpack _). vm_compute. exact I. Qed.

Lemma printed_items_quote (instruction : string) (rest : list string) :
  ∃ s, printed_items (instruction :: rest) = String Py.quote s.
Proof. destruct rest; simpl; by eauto. Qed.

Lemma split_printed_items (instructions : list string) :
  instructions ≠ [] →
  Forall (λ instruction, Py.contains Py.quote instruction = false) instructions →
  ∃ fragments,
    Py.split Py.quote (printed_items instructions) = "" :: fragments
    ∧ filter (λ c, c ∉ separators) (command_of <$> fragments)
      = filter (λ c, c ∉ separators) (command_of <$> instructions).
Proof.
  intros Hne Hquotes. induction Hquotes as [|i rest Hi Hrest IH]; [done|].
  destruct rest as [|j rest].
  - exists [i; "]"]. split.
    + cbn [printed_items Py.split]. rewrite Ascii.eqb_refl.
      change (i +:+ "']") with (i +:+ String Py.quote "]").
      by rewrite split_app.
    + rewrite !fmap_cons, !filter_cons, fmap_nil, filter_nil.
      rewrite (decide_False (P := command_of "]" ∉ separators)); [done|].
      intros Hnot. apply Hnot, close_bracket_dropped.
  - destruct IH as (fragments & Hsplit & Htokens); [done|].
    destruct (printed_items_quote j rest) as [s Hs].
    rewrite Hs in Hsplit. cbn [Py.split] in Hsplit.
    rewrite Ascii.eqb_refl in Hsplit. injection Hsplit as Hsplit.
    exists (i :: ", " :: fragments). split.
    + change (printed_items (i :: j :: rest))
        with (String Py.quote (i +:+ String Py.quote (", " +:+ printed_items (j :: rest)))).
      cbn [Py.split]. rewrite Ascii.eqb_refl, split_app by done.
      rewrite Hs, (split_app Py.quote ", " s) by done. by rewrite Hsplit.
    + rewrite (fmap_cons _ i), (fmap_cons _ i (j :: rest)), !filter_cons.
      rewrite fmap_cons, filter_cons_False, Htokens; [done|].
      intros Hnot. apply Hnot, comma_dropped.
Qed.

Lemma tokens_of_printed_list (instructions : list string) :
  instructions ≠ [] →
  Forall (λ instruction, Py.contains Py.quote instruction = false) instructions →
  tokens_of (printed_list instructions)
  = filter (λ c, c ∉ separators) (command_of <$> instructions).
Proof.
  intros Hne Hquotes.
  destruct (split_printed_items instructions Hne Hquotes) as (fragments & Hsplit & <-).
  unfold tokens_of, printed_list. cbn [Py.split]. rewrite Hsplit.
  change (Ascii.eqb "[" Py.quote) with false. cbn iota.
  rewrite fmap_cons, filter_cons_False; [done|].
  intros Hnot. apply Hnot, open_bracket_dropped.
Qed.

End printed_lists.

Example tokenize_empty_printed_list :
  tokenize_instructions [printed_list []] = (["[]"], [["[]"]]).
Proof. vm_compute. reflexivity. Qed.

(** X3: on functions written in the format of the docstring, printed lists
    of one or more instructions that hold no quote, the token sequence of a
    function is the list of the first words of its instructions (without
    those that are ["["], ["]"] or [","]), in order. *)
Theorem X3_printed_lists (functions : list (list string)) :
  Forall (λ instructions : list string,
            instructions ≠ []
            ∧ Forall (λ instruction, Py.contains Py.quote instruction = false)
                instructions) functions →
  (tokenize_instructions (printed_list <$> functions)).2
  = (λ instructions : list string,
       filter (λ c, c ∉ separators) (command_of <$> instructions))
    <$> functions.
Proof.
  intros Hfunctions. rewrite tokenize_instructions_spec. simpl.
  rewrite <- list_fmap_compose. apply Forall_fmap_ext.
  eapply Forall_impl; [exact Hfunctions|]. simpl.
  intros instructions [Hne Hquotes]. by apply tokens_of_printed_list.
Qed.

Lemma X3_printed_lists_witness :
  let functions := [["jmp qword ptr [rip + 0x220882]"; "mov eax, ebx"]; ["ret"]] in
  Forall (λ instructions : list string,
            instructions ≠ []
            ∧ Forall (λ instruction, Py.contains Py.quote instruction = false)
                instructions) functions
  ∧ (tokenize_instructions (printed_list <$> functions)).2
    = (λ instructions : list string,
       filter (λ c, c ∉ separators) (command_of <$> instructions))
      <$> functions.
Proof.
  intros functions.
  assert (Forall (λ instructions : list string,
                    instructions ≠ []
                    ∧ Forall (λ instruction, Py.contains Py.quote instruction = false)
                        instructions) functions) as Hfunctions.
  { repeat constructor; discriminate. }
  split; [exact Hfunctions|]. apply (X3_printed_lists functions Hfunctions).
Defined.

(** ** The categorizer *)

Section loops_ext.

Context {A B : Type}.

Lemma foldM_ext (f g : A → B → result A) (l : list B) (a : A) :
  (∀ s x, x ∈ l → f s x = g s x) → Py.foldM f a l = Py.foldM g a l.
Proof.
  revert a. induction l as [|x l IH]; intros a Hfg; simpl; [done|].
  rewrite (Hfg a x) by apply list_elem_of_here.
  destruct (g a x); simpl; [|done].
  apply IH. intros s y Hy. apply Hfg. by apply list_elem_of_further.
Qed.

Lemma mapM_ext (f g : A → result B) (l : list A) :
  (∀ x, x ∈ l → f x = g x) → Py.mapM f l = Py.mapM g l.
Proof.
  induction l as [|x l IH]; intros Hfg; simpl; [done|].
  rewrite (Hfg x) by apply list_elem_of_here.
  rewrite IH; [done|]. intros y Hy. apply Hfg. by apply list_elem_of_further.
Qed.

End loops_ext.

Lemma file_mode_membership (token_list1 token_list2 lines : list string) :
  (∀ token, token ∈ token_list1 ↔ token ∈ token_list2) →
  file_mode token_list1 lines = file_mode token_list2 lines.
Proof.
  intros Hsame. unfold file_mode.
  destruct (Py.getitem lines 0) as [line|]; [|done]. simpl.
  destruct (Py.first_char line) as [c|]; [|done]. simpl.
  apply foldM_ext. intros st element _. unfold file_step.
  destruct (Py.contains c element); [done|].
  destruct (decide (_ ∈ token_list1)) as [H1|H1], (decide (_ ∈ token_list2)) as [H2|H2];
    [done| | |done]; exfalso; [apply H2, Hsame, H1|apply H1, Hsame, H2].
Qed.

Lemma default_mode_membership (glossary : Assembly_Glossary)
    (token_list1 token_list2 : list string) :
  (∀ token, token ∈ token_list1 ↔ token ∈ token_list2) →
  default_mode glossary token_list1 = default_mode glossary token_list2.
Proof.
  intros Hsame. unfold default_mode.
  destruct (Py.getitem _ 0) as [c|]; [|done]. simpl.
  apply foldM_ext. intros st item _. unfold default_step.
  destruct (Py.getitem (cs_features st) (f_i st)) as [c'|]; simpl; [|done].
  destruct (decide (item.1.1 ≠ c')); simpl.
  - destruct (Py.getitem (cs_features st) (f_i st + 1)); simpl; [|done].
    destruct (decide (_ ∈ token_list1)) as [H1|H1], (decide (_ ∈ token_list2)) as [H2|H2];
      [done| | |done]; exfalso; [apply H2, Hsame, H1|apply H1, Hsame, H2].
  - destruct (decide (_ ∈ token_list1)) as [H1|H1], (decide (_ ∈ token_list2)) as [H2|H2];
      [done| | |done]; exfalso; [apply H2, Hsame, H1|apply H1, Hsame, H2].
Qed.

(** X4: the assignment [token_categorizer] returns, or the exception it
    raises, depends on the vocabulary only through the tokens it holds: two
    vocabularies with the same tokens, in whatever order and however often
    repeated, give the same outcome. *)
Theorem X4_vocabulary_membership (self : Assembly_Preprocessor) (fs : file_system)
    (token_list1 token_list2 : list string) (instruction_glossary : py_value) :
  (∀ token, token ∈ token_list1 ↔ token ∈ token_list2) →
  (token_categorizer self fs token_list1 instruction_glossary).2
  = (token_categorizer self fs token_list2 instruction_glossary).2.
Proof.
  intros Hsame. unfold token_categorizer.
  destruct instruction_glossary as [|path|other]; simpl.
  - by rewrite (default_mode_membership _ _ _ Hsame).
  - destruct (fs path) as [text|]; [|done].
    rewrite (file_mode_membership _ _ _ Hsame).
    by destruct (file_mode token_list2 _).
  - by rewrite (default_mode_membership _ _ _ Hsame).
Qed.

Lemma X4_vocabulary_membership_witness :
  let self := {| default_glossary := glossary3 |} in
  let fs := one_file "glossary.txt" small_glossary_text in
  (∀ token, token ∈ ["mov"; "add"] ↔ token ∈ ["add"; "mov"; "add"])
  ∧ (token_categorizer self fs ["mov"; "add"] (PyStr "glossary.txt")).2
    = (token_categorizer self fs ["add"; "mov"; "add"] (PyStr "glossary.txt")).2.
Proof.
  intros self fs.
  assert (∀ token, token ∈ ["mov"; "add"] ↔ token ∈ ["add"; "mov"; "add"]) as Hsame.
  { intros token. rewrite !elem_of_cons, !elem_of_nil. tauto. }
  split; [exact Hsame|].
  apply (X4_vocabulary_membership self fs ["mov"; "add"] ["add"; "mov"; "add"]
           (PyStr "glossary.txt") Hsame).
Defined.

(** ** The order of the categories *)

Section category_order.

Lemma first_seen_snoc (l : list string) (x : string) :
  first_seen (l ++ [x]) = if decide (x ∈ l) then first_seen l else first_seen l ++ [x].
Proof.
  rewrite first_seen_app. simpl. rewrite filter_nil, filter_cons, filter_nil.
  destruct (decide (x ∉ l)) as [Hx|Hx].
  - by rewrite decide_False.
  - apply dec_stable in Hx. by rewrite decide_True, app_nil_r.
Qed.

Lemma first_seen_snoc_ext (l1 l2 : list string) (x : string) :
  first_seen l1 = first_seen l2 → first_seen (l1 ++ [x]) = first_seen (l2 ++ [x]).
Proof.
  intros Hsame. rewrite !first_seen_snoc, Hsame.
  assert (x ∈ l1 ↔ x ∈ l2) as Hiff
    by (by rewrite <- (elem_of_first_seen x l1), Hsame, elem_of_first_seen).
  destruct (decide (x ∈ l1)), (decide (x ∈ l2)); tauto || done.
Qed.

Lemma first_seen_dict_iadd (d : token_dict) (c : string) (e : Z) (v : string) :
  first_seen (dict_iadd d (c, e) v).*1.*1 = first_seen (d.*1.*1 ++ [c]).
Proof.
  rewrite dict_iadd_keys. case_decide as Hin.
  - rewrite first_seen_snoc, decide_True; [done|].
    apply list_elem_of_fmap. by exists (c, e).
  - by rewrite fmap_app.
Qed.

Lemma getitem_elem {A : Type} (l : list A) (i : Z) (x : A) :
  Py.getitem l i = Return x → x ∈ l.
Proof.
  unfold Py.getitem. destruct (Py.index _ _) as [j|]; simpl; [|done].
  destruct (l !! j) eqn:Hj; [|done]. intros [= <-]. by eapply list_elem_of_lookup_2.
Qed.

Context (special_char : ascii) (token_list : list string).

Lemma file_step_order (processed : list string) (st st' : categorizer_state)
    (element : string) :
  file_invariant special_char processed st →
  first_seen (cs_dict st).*1.*1 = first_seen (cs_features st) →
  file_step special_char token_list st element = Return st' →
  first_seen (cs_dict st').*1.*1 = first_seen (cs_features st').
Proof.
  intros (_ & Hfi & _) Horder. unfold file_step.
  destruct (Py.contains special_char element).
  - rewrite Hfi, (getitem_nat _ _ (category_name special_char element))
      by (by apply list_lookup_middle).
    simpl. intros [= <-]. simpl.
    rewrite first_seen_dict_iadd. by apply first_seen_snoc_ext.
  - destruct (decide (_ ∈ token_list)); [|by intros [= <-]].
    destruct (Py.getitem _ _) as [c|] eqn:Hc; simpl; [|done].
    intros [= <-]. simpl. apply getitem_elem in Hc.
    rewrite first_seen_dict_iadd, first_seen_snoc, decide_True; [done|].
    by rewrite <- elem_of_first_seen, Horder, elem_of_first_seen.
Qed.

Lemma file_loop_order (lines processed : list string) (st st' : categorizer_state) :
  file_invariant special_char processed st →
  cs_features st ≠ [] →
  first_seen (cs_dict st).*1.*1 = first_seen (cs_features st) →
  Py.foldM (file_step special_char token_list) st lines = Return st' →
  first_seen (cs_dict st').*1.*1 = first_seen (cs_features st').
Proof.
  revert processed st.
  induction lines as [|l lines IH]; intros processed st Hinv Hne Horder; simpl.
  - by intros [= <-].
  - destruct (file_step_invariant special_char token_list processed st l Hinv
                (or_introl Hne)) as (st1 & Hstep & Hinv1 & Hne1).
    rewrite Hstep. simpl. apply (IH _ _ Hinv1 Hne1).
    by apply (file_step_order processed st st1 l).
Qed.

End category_order.

Lemma dict_categories_keys (d : token_dict) :
  dict_categories d = first_seen d.*1.*1.
Proof. rewrite dict_categories_first_seen. f_equal. by rewrite <- list_fmap_compose. Qed.

(** In file mode the categories of the assignment come in the order of the
    marker lines. *)
Lemma file_mode_order (token_list lines : list string) (st : categorizer_state) :
  file_mode token_list lines = Return st →
  dict_categories (cs_dict st) = first_seen (cs_features st).
Proof.
  intros Hmode. rewrite dict_categories_keys.
  destruct lines as [|[|c line] rest]; [done..|].
  unfold file_mode in Hmode.
  rewrite (getitem_nat _ 0 (String c line)) in Hmode by done.
  set (st0 := {| cs_dict := []; cs_features := []; f_i := 0; e_i := 0 |}) in Hmode.
  change ((st1 ← file_step c token_list st0 (String c line);
           Py.foldM (file_step c token_list) st1 rest) = Return st) in Hmode.
  assert (file_invariant c [] st0) as Hinv0 by done.
  destruct (file_step_invariant c token_list [] st0 (String c line) Hinv0)
    as (st1 & Hstep & Hinv1 & Hne1).
  { right. by rewrite contains_first. }
  rewrite Hstep in Hmode. simpl in Hmode.
  apply (file_loop_order c token_list rest _ st1 st Hinv1 Hne1); [|done].
  by apply (file_step_order c token_list [] st0 st1 (String c line)).
Qed.

Lemma getitem_nat_inv {A : Type} (l : list A) (i : nat) (x : A) :
  Py.getitem l (Z.of_nat i) = Return x → l !! i = Some x.
Proof.
  destruct (decide (i < length l)%nat) as [Hlt|Hge].
  - destruct (lookup_lt_is_Some_2 l i Hlt) as [y Hy].
    rewrite (getitem_nat l i y Hy). by intros [= <-].
  - rewrite getitem_nat_ge by lia. done.
Qed.

Lemma default_step_order (features token_list : list string)
    (st st' : categorizer_state) (item : key * string) :
  (cs_features st = features
   ∧ ∃ j : nat, f_i st = Z.of_nat j
                ∧ first_seen (cs_dict st).*1.*1 = first_seen (take (S j) features)) →
  default_step token_list st item = Return st' →
  cs_features st' = features
  ∧ ∃ j : nat, f_i st' = Z.of_nat j
               ∧ first_seen (cs_dict st').*1.*1 = first_seen (take (S j) features).
Proof.
  intros (Hfeat & j & Hj & Horder). unfold default_step. rewrite Hfeat, Hj.
  assert (∀ st1 k, cs_features st1 = features → f_i st1 = Z.of_nat k →
                   first_seen (cs_dict st1).*1.*1 = first_seen (take (S k) features) →
                   (if decide (item.2 ∈ token_list)
                    then c ← Py.getitem features (f_i st1);
                         Return {| cs_dict := dict_iadd (cs_dict st1) (c, e_i st1) item.2;
                                   cs_features := features;
                                   f_i := f_i st1;
                                   e_i := e_i st1 + 1 |}
                    else Return st1) = Return st' →
                   cs_features st' = features
                   ∧ ∃ j : nat, f_i st' = Z.of_nat j
                                ∧ first_seen (cs_dict st').*1.*1
                                  = first_seen (take (S j) features)) as Hrest.
  { intros st1 k Hfeat1 Hk Horder1.
    destruct (decide (item.2 ∈ token_list)); [|intros [= <-]; eauto].
    rewrite Hk. destruct (Py.getitem features (Z.of_nat k)) as [c1|] eqn:Hc1; [|done].
    apply getitem_nat_inv in Hc1. simpl. intros [= <-]. simpl.
    split; [done|]. exists k. split; [done|].
    rewrite first_seen_dict_iadd, first_seen_snoc, decide_True; [done|].
    rewrite <- elem_of_first_seen, Horder1, elem_of_first_seen.
    apply list_elem_of_lookup. exists k. rewrite lookup_take_lt by lia. done. }
  destruct (Py.getitem features (Z.of_nat j)) as [c|] eqn:Hc; [|done]. simpl.
  destruct (decide (item.1.1 ≠ c)).
  - replace (Z.of_nat j + 1) with (Z.of_nat (S j)) by lia.
    destruct (Py.getitem features (Z.of_nat (S j))) as [c'|] eqn:Hc'; [|done].
    apply getitem_nat_inv in Hc'. simpl.
    apply (Hrest {| cs_dict := dict_iadd (cs_dict st) (c', 0) "";
                    cs_features := features;
                    f_i := Z.of_nat (S j);
                    e_i := 0 |} (S j)); simpl; try done.
    rewrite first_seen_dict_iadd, (take_S_r features (S j) c') by done.
    by apply first_seen_snoc_ext.
  - simpl. by apply (Hrest st j).
Qed.

(** In default mode they come in the order of [getCategories()], as far as
    the loop has tracked them. *)
Lemma default_mode_order (glossary : Assembly_Glossary) (token_list : list string)
    (st : categorizer_state) :
  default_mode glossary token_list = Return st →
  dict_categories (cs_dict st)
  = first_seen (take (S (Z.to_nat (f_i st))) (cs_features st)).
Proof.
  intros Hmode. rewrite dict_categories_keys.
  assert (cs_features st = getCategories glossary
          ∧ ∃ j : nat, f_i st = Z.of_nat j
                       ∧ first_seen (cs_dict st).*1.*1
                         = first_seen (take (S j) (getCategories glossary)))
    as (-> & j & -> & ->); [|by rewrite Nat2Z.id].
  revert Hmode. unfold default_mode.
  destruct (Py.getitem _ 0) as [c|] eqn:Hc; [|done]. cbn [mbind result_bind].
  apply getitem_zero_inv in Hc as [cs Hcs].
  apply (foldM_invariant
           (λ st, cs_features st = getCategories glossary
                  ∧ ∃ j : nat, f_i st = Z.of_nat j
                               ∧ first_seen (cs_dict st).*1.*1
                                 = first_seen (take (S j) (getCategories glossary)))).
  - intros s x s'. apply default_step_order.
  - split; [done|]. exists 0%nat. split; [done|]. rewrite Hcs. simpl.
    by rewrite ?take_0.
Qed.

(** X6: the columns of the table come in the order in which
    [token_categorizer] discovers the categories, each category once, at its
    first discovery: in file mode the order of the marker lines of the
    glossary, in default mode on a consistent glossary the order of
    [getCategories()]. *)
Theorem X6_column_order (self : Assembly_Preprocessor) (fs : file_system)
    (token_list : list string) (instruction_glossary : py_value)
    (printed : list string) (token_dictionary : token_dict)
    (tokenized_functions : list (list string)) (df : DataFrame) :
  token_categorizer self fs token_list instruction_glossary
  = (printed, Return token_dictionary) →
  assembly_dataframer tokenized_functions token_dictionary = Return df →
  columns df
  = first_seen (discovered_categories self fs token_list instruction_glossary)
  ∧ (∀ path c s,
       instruction_glossary = PyStr path → fs path = Some (String c s) →
       columns df = first_seen (category_name c <$> glossary_markers (String c s)))
  ∧ (∀ blocks,
       (∀ path, instruction_glossary ≠ PyStr path) →
       consistent_glossary (default_glossary self) blocks →
       columns df = getCategories (default_glossary self)).
Proof.
  intros Hcat Hdf. rewrite (assembly_dataframer_columns _ _ _ Hdf).
  assert (dict_categories token_dictionary
          = first_seen (discovered_categories self fs token_list instruction_glossary))
    as Horder.
  { assert (∀ r : result categorizer_state,
              (st ← r; Return (cs_dict st)) = Return token_dictionary →
              ∃ st, r = Return st ∧ cs_dict st = token_dictionary) as Hbind.
    { intros [st|]; [|done]. simpl. intros [= <-]. by exists st. }
    unfold token_categorizer, discovered_categories in *.
    destruct instruction_glossary as [|path|other].
    - injection Hcat as _ (st & Hst & <-)%Hbind. rewrite Hst.
      by apply (default_mode_order _ _ _ Hst).
    - destruct (fs path) as [text|]; [|done].
      destruct (file_mode _ _) as [st|] eqn:Hst; [|done].
      injection Hcat as _ <-. by apply (file_mode_order _ _ _ Hst).
    - injection Hcat as _ (st & Hst & <-)%Hbind. rewrite Hst.
      by apply (default_mode_order _ _ _ Hst). }
  split; [done|]. split.
  - intros path c s -> Hfile.
    by rewrite Horder, (discovered_categories_file self fs token_list path c s).
  - intros blocks Hstr Hconsistent.
    rewrite Horder, (discovered_categories_default self fs token_list _ blocks) by done.
    apply first_seen_NoDup, Hconsistent.
Qed.

Lemma X6_column_order_witness :
  let self := {| default_glossary := glossary3 |} in
  let fs := one_file "glossary.txt" shared_glossary_text in
  token_categorizer self fs ["mov"; "add"] (PyStr "glossary.txt")
  = ([], Return shared_assignment)
  ∧ assembly_dataframer [["mov"; "mov"; "add"]] shared_assignment
    = Return {| columns := ["Data transfer"; "Arithmetic"]; data := [[67; 33]] |}
  ∧ ["Data transfer"; "Arithmetic"]
    = first_seen (discovered_categories self fs ["mov"; "add"] (PyStr "glossary.txt"))
  ∧ (∀ path c s,
       PyStr "glossary.txt" = PyStr path → fs path = Some (String c s) →
       ["Data transfer"; "Arithmetic"]
       = first_seen (category_name c <$> glossary_markers (String c s)))
  ∧ (∀ blocks,
       (∀ path, PyStr "glossary.txt" ≠ PyStr path) →
       consistent_glossary glossary3 blocks →
       ["Data transfer"; "Arithmetic"] = getCategories glossary3).
Proof.
  intros self fs.
  split; [vm_compute; reflexivity|]. split; [vm_compute; reflexivity|].
  apply (X6_column_order self fs ["mov"; "add"] (PyStr "glossary.txt") []
           shared_assignment [["mov"; "mov"; "add"]]
           {| columns := ["Data transfer"; "Arithmetic"]; data := [[67; 33]] |});
    vm_compute; reflexivity.
Defined.

(** ** The assignment, slot by slot *)

Section slots.

Lemma dict_iadd_fresh (d : token_dict) (k : key) (v : string) :
  k ∉ d.*1 → dict_iadd d k v = d ++ [(k, v)].
Proof.
  induction d as [|[k' w] d IH]; [done|].
  rewrite fmap_cons, not_elem_of_cons. simpl. intros [Hne Hnotin].
  rewrite decide_False by done. by rewrite IH.
Qed.

Lemma dict_iadd_last (d : token_dict) (k : key) (w v : string) :
  k ∉ d.*1 → dict_iadd (d ++ [(k, w)]) k v = d ++ [(k, String.append w v)].
Proof.
  induction d as [|[k' w'] d IH].
  - intros _. simpl. by rewrite decide_True.
  - rewrite fmap_cons, not_elem_of_cons. simpl. intros [Hne Hnotin].
    rewrite decide_False by done. by rewrite IH.
Qed.

Lemma slots_from_cons (c : string) (e : Z) (m : string) (ms : list string) :
  slots_from c e (m :: ms) = ((c, e), m) :: slots_from c (e + 1) ms.
Proof.
  unfold slots_from. rewrite imap_cons. f_equal.
  - do 2 f_equal. lia.
  - apply imap_ext. intros j x _. simpl. do 2 f_equal. lia.
Qed.

Lemma slots_from_keys (c : string) (e : Z) (ms : list string) (k : key) :
  k ∈ (slots_from c e ms).*1 → k.1 = c ∧ e ≤ k.2.
Proof.
  revert e. induction ms as [|m ms IH]; intros e.
  - by intros ?%elem_of_nil.
  - rewrite slots_from_cons, fmap_cons.
    intros [->|Hk]%elem_of_cons; [simpl; split; [done|lia]|].
    apply IH in Hk as [? ?]. split; [done|lia].
Qed.

Lemma slots_keys (c : string) (ms : list string) (k : key) :
  k ∈ (slots c ms).*1 → k.1 = c.
Proof.
  destruct ms as [|m ms].
  - simpl. by intros ->%list_elem_of_singleton.
  - unfold slots. by intros [? _]%slots_from_keys.
Qed.

Lemma add_slots_fresh (ms : list string) (d : token_dict) (c : string) (e : Z) :
  (∀ e', e ≤ e' → (c, e') ∉ d.*1) →
  add_slots d c e ms = d ++ slots_from c e ms.
Proof.
  revert d e. induction ms as [|m ms IH]; intros d e Hfresh.
  - simpl. by rewrite app_nil_r.
  - cbn [add_slots]. rewrite dict_iadd_fresh by (apply Hfresh; lia).
    rewrite IH, slots_from_cons, <- app_assoc; [done|].
    intros e' He'. rewrite fmap_app, not_elem_of_app. split; [apply Hfresh; lia|].
    simpl. rewrite list_elem_of_singleton. intros [= ?]. lia.
Qed.

(** Opening a new category and filling its slots. *)
Lemma add_slots_new_category (d : token_dict) (c : string) (ms : list string) :
  c ∉ d.*1.*1 →
  add_slots (dict_iadd d (c, 0) "") c 0 ms = d ++ slots c ms.
Proof.
  intros Hnew.
  assert (∀ e, (c, e) ∉ d.*1) as Hfresh.
  { intros e Hin. apply Hnew. apply list_elem_of_fmap. by exists (c, e). }
  rewrite dict_iadd_fresh by done.
  destruct ms as [|m ms]; [done|].
  cbn [add_slots slots]. rewrite dict_iadd_last by done.
  rewrite add_slots_fresh, slots_from_cons, <- app_assoc; [done|].
  intros e' He'. rewrite fmap_app, not_elem_of_app. split; [done|].
  simpl. rewrite list_elem_of_singleton. intros [= ?]. lia.
Qed.

Lemma default_assignment_slots (token_list : list string) (categories : list string)
    (blocks : list (list (key * string))) (d : token_dict) :
  NoDup categories →
  (∀ c, c ∈ categories → c ∉ d.*1.*1) →
  default_assignment token_list categories blocks d
  = d ++ concat (zip_with (λ c block, slots c (matched token_list block))
                   categories blocks).
Proof.
  unfold default_assignment. revert blocks d.
  induction categories as [|c cs IH]; intros blocks d Hnodup Hnew.
  - simpl. by rewrite app_nil_r.
  - destruct blocks as [|block blocks]; [simpl; by rewrite app_nil_r|].
    apply NoDup_cons in Hnodup as [Hc Hnodup].
    cbn [zip zip_with foldl fst snd concat].
    rewrite add_slots_new_category by (apply Hnew, list_elem_of_here).
    rewrite IH, <- app_assoc; [done|done|].
    intros c' Hc'. rewrite !fmap_app, not_elem_of_app. split.
    + apply Hnew. by apply list_elem_of_further.
    + intros (k & -> & Hk)%list_elem_of_fmap. apply slots_keys in Hk. congruence.
Qed.

End slots.

(** X7: on a default glossary consistent with its category order, default
    mode returns the assignment that lists the categories in the order of
    [getCategories()] and gives each category the mnemonics of the glossary
    that are in the vocabulary, in the order of the glossary, at positions
    0, 1, 2, ...; a category none of whose mnemonics is in the vocabulary
    gets the single slot at position 0, holding the empty string. *)
Theorem X7_default_assignment (self : Assembly_Preprocessor) (fs : file_system)
    (token_list : list string) (instruction_glossary : py_value)
    (blocks : list (list (key * string))) :
  (∀ path, instruction_glossary ≠ PyStr path) →
  consistent_glossary (default_glossary self) blocks →
  token_categorizer self fs token_list instruction_glossary
  = ([], Return (concat (zip_with (λ c block, slots c (matched token_list block))
                           (getCategories (default_glossary self)) blocks))).
Proof.
  intros Hstr Hconsistent.
  destruct (default_mode_consistent token_list _ _ Hconsistent) as (st & Hmode & Hdict & _).
  rewrite default_assignment_slots in Hdict.
  - unfold token_categorizer.
    destruct instruction_glossary as [|path|other];
      [|by destruct (Hstr path)|]; rewrite Hmode; simpl; by rewrite Hdict.
  - apply Hconsistent.
  - intros c _ ?%elem_of_nil. done.
Qed.

Lemma X7_default_assignment_witness :
  let self := {| default_glossary := glossary4 |} in
  let blocks := [[(("Data transfer", 0), "mov")]; [(("Arithmetic", 0), "add")];
                 [(("Control flow", 0), "jmp")]; [(("Logic", 0), "xor")]] in
  (∀ path, PyNone ≠ PyStr path)
  ∧ consistent_glossary glossary4 blocks
  ∧ token_categorizer self no_files ["mov"; "jmp"] PyNone
    = ([], Return (concat (zip_with (λ c block, slots c (matched ["mov"; "jmp"] block))
                             (getCategories glossary4) blocks))).
Proof.
  intros self blocks.
  assert (consistent_glossary glossary4 blocks) as Hconsistent.
  { split; [done| |done|].
    - repeat constructor; done.
    - repeat constructor; rewrite ?elem_of_cons, ?elem_of_nil; intuition discriminate. }
  split; [intros path; discriminate|]. split; [exact Hconsistent|].
  apply (X7_default_assignment self no_files ["mov"; "jmp"] PyNone blocks);
    [intros path; discriminate|exact Hconsistent].
Defined.

Example default_assignment_example :
  token_categorizer {| default_glossary := glossary4 |} no_files ["mov"; "jmp"] PyNone
  = ([], Return [(("Data transfer", 0), "mov"); (("Arithmetic", 0), "");
                 (("Control flow", 0), "jmp"); (("Logic", 0), "")]).
Proof. vm_compute. reflexivity. Qed.

(** ** The table *)

Section table.

Lemma mapM_length {A B : Type} (f : A → result B) (l : list A) (ys : list B) :
  Py.mapM f l = Return ys → length ys = length l.
Proof.
  revert ys. induction l as [|x l IH]; intros ys; simpl.
  - by intros [= <-].
  - destruct (f x); simpl; [|done].
    destruct (Py.mapM f l) as [ys'|]; simpl; [|done].
    intros [= <-]. simpl. by rewrite (IH ys').
Qed.

(** A row is the list of the shares of the raw counts, or empty when there
    is no category. *)
Lemma feature_row_inv (categories : list string) (token_dictionary : token_dict)
    (function : list string) (row : list Z) :
  feature_row categories token_dictionary function = Return row →
  ∃ occ, count_occurrences categories token_dictionary function = Return occ
         ∧ length occ = length categories
         ∧ Forall (λ a, 0 ≤ a) occ
         ∧ ((categories = [] ∧ row = [])
            ∨ (0 < sum occ ∧ row = percent (sum occ) <$> occ)).
Proof.
  unfold feature_row.
  destruct (count_occurrences _ _ _) as [occ|] eqn:Hocc; simpl; [|done].
  intros Hrow. exists occ.
  pose proof (count_occurrences_length _ _ _ _ Hocc) as Hlen.
  pose proof (count_occurrences_nonneg _ _ _ _ Hocc) as Hnonneg.
  pose proof (sum_nonneg occ Hnonneg) as Hsum.
  repeat split; try done.
  destruct (Z.eq_dec (sum occ) 0) as [Hzero|Hpos].
  - rewrite percentages_zero in Hrow by done.
    destruct (decide (categories = [])) as [->|]; [|done].
    left. split; [done|]. by injection Hrow as <-.
  - rewrite percentages_spec in Hrow by done. injection Hrow as <-.
    right. split; [lia|done].
Qed.

Lemma feature_row_length (categories : list string) (token_dictionary : token_dict)
    (function : list string) (row : list Z) :
  feature_row categories token_dictionary function = Return row →
  length row = length categories.
Proof.
  intros (occ & _ & Hlen & _ & [[-> ->]|[_ ->]])%feature_row_inv; [done|].
  by rewrite length_fmap.
Qed.

Lemma assembly_dataframer_inv (tokenized_functions : list (list string))
    (token_dictionary : token_dict) (df : DataFrame) :
  assembly_dataframer tokenized_functions token_dictionary = Return df →
  columns df = dict_categories token_dictionary
  ∧ Py.mapM (feature_row (dict_categories token_dictionary) token_dictionary)
      tokenized_functions = Return (data df).
Proof.
  rewrite assembly_dataframer_spec.
  destruct (Py.mapM _ _) as [rows|]; simpl; [|done]. by intros [= <-].
Qed.

End table.

(** X9: a table that [assembly_dataframer] returns has one row per function
    and, in every row, one cell per column. *)
Theorem X9_table_shape (tokenized_functions : list (list string))
    (token_dictionary : token_dict) (df : DataFrame) :
  assembly_dataframer tokenized_functions token_dictionary = Return df →
  length (data df) = length tokenized_functions
  ∧ Forall (λ row, length row = length (columns df)) (data df).
Proof.
  intros [Hcolumns Hrows]%assembly_dataframer_inv. split.
  - by apply mapM_length in Hrows.
  - apply Forall_forall. intros row Hrow.
    apply list_elem_of_lookup in Hrow as [r Hrow].
    destruct (mapM_lookup _ _ _ _ _ Hrows Hrow) as (f & _ & Hfeature).
    rewrite Hcolumns. by apply feature_row_length in Hfeature.
Qed.

Lemma X9_table_shape_witness :
  assembly_dataframer example_tokens example_assignment = Return example_table
  ∧ length (data example_table) = length example_tokens
  ∧ Forall (λ row, length row = length (columns example_table)) (data example_table).
Proof.
  split; [vm_compute; reflexivity|].
  apply (X9_table_shape example_tokens example_assignment example_table).
  vm_compute. reflexivity.
Defined.

(** X10: every cell of a table that [assembly_dataframer] returns lies
    between 0.00 and 1.00; it is 0.00 when the function has no token counted
    under the column's category, and 1.00 when all its counted tokens are
    counted there. *)
Theorem X10_cell_range (tokenized_functions : list (list string))
    (token_dictionary : token_dict) (df : DataFrame)
    (r j : nat) (function : list string) (row : list Z) (value : Z) :
  assembly_dataframer tokenized_functions token_dictionary = Return df →
  tokenized_functions !! r = Some function →
  data df !! r = Some row →
  row !! j = Some value →
  0 ≤ value ≤ 100
  ∧ ∃ occ a,
      count_occurrences (dict_categories token_dictionary) token_dictionary function
      = Return occ
      ∧ occ !! j = Some a
      ∧ (a = 0 → value = 0)
      ∧ (a = sum occ → value = 100).
Proof.
  intros [_ Hrows]%assembly_dataframer_inv Hfun Hrow Hvalue.
  destruct (mapM_lookup _ _ _ _ _ Hrows Hrow) as (f & Hf & Hfeature).
  assert (f = function) as -> by congruence.
  apply feature_row_inv in Hfeature
    as (occ & Hocc & Hlen & Hnonneg & [[_ ->]|[Hpos ->]]); [done|].
  rewrite list_lookup_fmap in Hvalue.
  destruct (occ !! j) as [a|] eqn:Ha; [|done]. injection Hvalue as <-.
  assert (0 ≤ a ≤ sum occ) as Hrange.
  { pose proof (sum_upper occ Hnonneg) as Hupper.
    by apply (Forall_lookup_1 _ _ _ _ Hupper Ha). }
  pose proof (percent_error (sum occ) a Hrange Hpos) as Herr.
  pose proof (percent_coarse (sum occ) a Hrange Hpos) as Hcoarse.
  set (k := percent (sum occ) a) in *. set (T := sum occ) in *.
  assert (0 ≤ k ≤ 100) as Hk by (split; nia).
  split; [done|]. exists occ, a. repeat split; try done.
  - intros ->. nia.
  - intros ->. nia.
Qed.

Lemma X10_cell_range_witness :
  assembly_dataframer example_tokens example_assignment = Return example_table
  ∧ example_tokens !! 1%nat = Some [""; "jmp"; ""; "jmp"; ""]
  ∧ data example_table !! 1%nat = Some [0; 0; 100]
  ∧ [0; 0; 100] !! 2%nat = Some 100
  ∧ 0 ≤ 100 ≤ 100
  ∧ ∃ occ a,
      count_occurrences (dict_categories example_assignment) example_assignment
        [""; "jmp"; ""; "jmp"; ""]
      = Return occ
      ∧ occ !! 2%nat = Some a
      ∧ (a = 0 → 100 = 0)
      ∧ (a = sum occ → 100 = 100).
Proof.
  split; [vm_compute; reflexivity|]. split; [reflexivity|]. split; [reflexivity|].
  split; [reflexivity|].
  apply (X10_cell_range example_tokens example_assignment example_table 1 2
           [""; "jmp"; ""; "jmp"; ""] [0; 0; 100] 100);
    [vm_compute; reflexivity|reflexivity..].
Defined.

(** X11: in a table that [assembly_dataframer] returns, the cell of a
    function under a category is the share of the category's raw count in
    the function's total, divided as binary64 and rounded to two decimals;
    it is off from the exact share by at most 0.005 and the error of the
    binary division (in hundredths: the distance between [value * total] and
    [100 * a], scaled by [2 ^ 53], is at most [total * (2 ^ 52 + 100)]). *)
Theorem X11_cell_accuracy (tokenized_functions : list (list string))
    (token_dictionary : token_dict) (df : DataFrame)
    (r j : nat) (function : list string) (row : list Z) (value : Z) :
  assembly_dataframer tokenized_functions token_dictionary = Return df →
  tokenized_functions !! r = Some function →
  data df !! r = Some row →
  row !! j = Some value →
  ∃ occ a,
    count_occurrences (dict_categories token_dictionary) token_dictionary function
    = Return occ
    ∧ occ !! j = Some a
    ∧ 0 < sum occ
    ∧ value = round2 (quotient a (sum occ))
    ∧ 2 ^ 53 * Z.abs (value * sum occ - 100 * a) ≤ sum occ * (2 ^ 52 + 100).
Proof.
  intros [_ Hrows]%assembly_dataframer_inv Hfun Hrow Hvalue.
  destruct (mapM_lookup _ _ _ _ _ Hrows Hrow) as (f & Hf & Hfeature).
  assert (f = function) as -> by congruence.
  apply feature_row_inv in Hfeature
    as (occ & Hocc & Hlen & Hnonneg & [[_ ->]|[Hpos ->]]); [done|].
  rewrite list_lookup_fmap in Hvalue.
  destruct (occ !! j) as [a|] eqn:Ha; [|done]. injection Hvalue as <-.
  assert (0 ≤ a ≤ sum occ) as Hrange.
  { pose proof (sum_upper occ Hnonneg) as Hupper.
    by apply (Forall_lookup_1 _ _ _ _ Hupper Ha). }
  pose proof (percent_error (sum occ) a Hrange Hpos) as Herr.
  exists occ, a. repeat split; try done. lia.
Qed.

Lemma X11_cell_accuracy_witness :
  assembly_dataframer [["mov"; "mov"; "add"]] shared_assignment
  = Return {| columns := ["Data transfer"; "Arithmetic"]; data := [[67; 33]] |}
  ∧ [["mov"; "mov"; "add"]] !! 0%nat = Some ["mov"; "mov"; "add"]
  ∧ [[67; 33]] !! 0%nat = Some [67; 33]
  ∧ [67; 33] !! 0%nat = Some 67
  ∧ ∃ occ a,
      count_occurrences (dict_categories shared_assignment) shared_assignment
        ["mov"; "mov"; "add"]
      = Return occ
      ∧ occ !! 0%nat = Some a
      ∧ 0 < sum occ
      ∧ 67 = round2 (quotient a (sum occ))
      ∧ 2 ^ 53 * Z.abs (67 * sum occ - 100 * a) ≤ sum occ * (2 ^ 52 + 100).
Proof.
  split; [vm_compute; reflexivity|]. split; [reflexivity|]. split; [reflexivity|].
  split; [reflexivity|].
  apply (X11_cell_accuracy [["mov"; "mov"; "add"]] shared_assignment
           {| columns := ["Data transfer"; "Arithmetic"]; data := [[67; 33]] |}
           0 0 ["mov"; "mov"; "add"] [67; 33] 67);
    [vm_compute; reflexivity|reflexivity..].
Defined.

Lemma assembly_dataframer_rows (tokenized_functions : list (list string))
    (token_dictionary : token_dict) (df : DataFrame) :
  assembly_dataframer tokenized_functions token_dictionary = Return df →
  length (data df) = length tokenized_functions.
Proof. intros [_ Hrows]%assembly_dataframer_inv. by apply mapM_length in Hrows. Qed.

(** X12: the row of a function does not depend on the other functions: in a
    table that [assembly_dataframer] returns, the row of a function is the
    row of the table returned for that function alone. *)
Theorem X12_row_alone (tokenized_functions : list (list string))
    (token_dictionary : token_dict) (df : DataFrame)
    (r : nat) (function : list string) :
  assembly_dataframer tokenized_functions token_dictionary = Return df →
  tokenized_functions !! r = Some function →
  ∃ row, data df !! r = Some row
         ∧ assembly_dataframer [function] token_dictionary
           = Return {| columns := columns df; data := [row] |}.
Proof.
  intros Hdf Hfun.
  pose proof (assembly_dataframer_rows _ _ _ Hdf) as Hlen.
  apply assembly_dataframer_inv in Hdf as [Hcolumns Hrows].
  destruct (lookup_lt_is_Some_2 (data df) r) as [row Hrow].
  { rewrite Hlen. by eapply lookup_lt_Some. }
  exists row. split; [done|].
  destruct (mapM_lookup _ _ _ _ _ Hrows Hrow) as (f & Hf & Hfeature).
  assert (f = function) as -> by congruence.
  rewrite assembly_dataframer_spec. simpl. rewrite Hfeature. simpl.
  by rewrite Hcolumns.
Qed.

Lemma X12_row_alone_witness :
  assembly_dataframer example_tokens example_assignment = Return example_table
  ∧ example_tokens !! 1%nat = Some [""; "jmp"; ""; "jmp"; ""]
  ∧ ∃ row, data example_table !! 1%nat = Some row
           ∧ assembly_dataframer [[""; "jmp"; ""; "jmp"; ""]] example_assignment
             = Return {| columns := columns example_table; data := [row] |}.
Proof.
  split; [vm_compute; reflexivity|]. split; [reflexivity|].
  apply (X12_row_alone example_tokens example_assignment example_table 1
           [""; "jmp"; ""; "jmp"; ""]); [vm_compute; reflexivity|reflexivity].
Defined.

(** ** What is counted *)

Section counted.

Lemma filter_length_snoc (scored : list string) (m : string) (function : list string) :
  m ∉ scored →
  Z.of_nat (length (filter (λ token, token ∈ scored ++ [m]) function))
  = Z.of_nat (length (filter (λ token, token ∈ scored) function)) + instances function m.
Proof.
  intros Hm. unfold instances. induction function as [|t f IH]; [done|].
  rewrite !filter_cons.
  destruct (decide (t = m)) as [->|Hne].
  - rewrite decide_True by (rewrite elem_of_app, list_elem_of_singleton; tauto).
    rewrite decide_False by done. simpl length. lia.
  - destruct (decide (t ∈ scored)) as [Hin|Hnotin].
    + rewrite decide_True by (rewrite elem_of_app; tauto). simpl length. lia.
    + rewrite decide_False; [done|].
      rewrite elem_of_app, list_elem_of_singleton. tauto.
Qed.

Lemma filter_ext_in {A : Type} (P Q : A → Prop) `{!∀ x, Decision (P x)}
    `{!∀ x, Decision (Q x)} (l : list A) :
  (∀ x, x ∈ l → P x ↔ Q x) → filter P l = filter Q l.
Proof.
  induction l as [|x l IH]; intros Hext; [done|].
  rewrite !filter_cons.
  assert (filter P l = filter Q l) as ->
    by (apply IH; intros y Hy; apply Hext; by apply list_elem_of_further).
  pose proof (Hext x ltac:(apply list_elem_of_here)) as Hx.
  destruct (decide (P x)), (decide (Q x)); tauto || done.
Qed.

(** The counts add up to the number of tokens scored so far. *)
Lemma counting_loop_total (categories : list string) (function : list string)
    (items : token_dict) (st : counter_state) :
  Py.foldM (occ_step categories function) (counter_start categories) items = Return st →
  sum (token_occ st)
  = Z.of_nat (length (filter (λ token, token ∈ duplicate_control st) function)).
Proof.
  intros Hloop.
  set (P := λ s : counter_state,
              0 ≤ cat_i s
              ∧ sum (token_occ s)
                = Z.of_nat (length (filter (λ token, token ∈ duplicate_control s)
                                      function))).
  assert (P st) as [_ Htotal]; [|exact Htotal].
  revert Hloop. apply (foldM_invariant P); unfold P.
  - intros s item s' [Hi Htotal] Hstep.
    apply occ_step_spec in Hstep as [Hle Hstep]; [|done]. split; [lia|].
    destruct (decide _) as [[Hin Hnew]|_].
    + destruct Hstep as (-> & -> & Hlt).
      by rewrite sum_alter, filter_length_snoc, Htotal by done.
    + by destruct Hstep as (-> & ->).
  - simpl. split; [done|]. rewrite sum_replicate_zero.
    rewrite filter_none; [done|]. apply Forall_forall. intros x _. apply not_elem_of_nil.
Qed.

End counted.

(** X13: each token of a function that is the mnemonic of some slot is
    counted exactly once, whatever the number of slots that hold it: when
    the counting loop returns, the raw occurrence counts of the function add
    up to the number of its tokens that are held by a slot of the
    assignment. *)
Theorem X13_counted_once_each (categories : list string) (token_dictionary : token_dict)
    (function : list string) (occ : list Z) :
  count_occurrences categories token_dictionary function = Return occ →
  sum occ
  = Z.of_nat (length (filter (λ token, token ∈ token_dictionary.*2) function)).
Proof.
  unfold count_occurrences.
  destruct (Py.foldM _ _ _) as [st|] eqn:Hloop; simpl; [|done].
  intros [= <-].
  rewrite (counting_loop_total _ _ _ _ Hloop).
  destruct (counting_loop_scored categories function _ _ Hloop) as [_ Hscored].
  do 2 f_equal. apply filter_ext_in. intros token Htoken.
  rewrite Hscored. tauto.
Qed.

Lemma X13_counted_once_each_witness :
  count_occurrences (dict_categories shared_assignment) shared_assignment
    ["mov"; "nop"; "mov"; "add"] = Return [2; 1]
  ∧ sum [2; 1]
    = Z.of_nat (length (filter (λ token, token ∈ shared_assignment.*2)
                          ["mov"; "nop"; "mov"; "add"])).
Proof.
  split; [vm_compute; reflexivity|].
  apply (X13_counted_once_each (dict_categories shared_assignment) shared_assignment
           ["mov"; "nop"; "mov"; "add"] [2; 1]).
  vm_compute. reflexivity.
Defined.

(** ** What a row depends on *)

Section instances.

Lemma filter_eq_replicate (function : list string) (m : string) :
  filter (λ token, token = m) function
  = replicate (length (filter (λ token, token = m) function)) m.
Proof.
  induction function as [|t f IH]; [done|].
  rewrite filter_cons. destruct (decide (t = m)) as [->|]; [|done].
  simpl. by rewrite <- IH.
Qed.

Lemma count_instances_filter (function : list string) (m : string) (i : Z)
    (occ : list Z) :
  count_instances function m i occ
  = count_instances (filter (λ token, token = m) function) m i occ.
Proof.
  unfold count_instances. revert occ.
  induction function as [|t f IH]; intros occ; [done|].
  rewrite filter_cons. destruct (decide (t = m)) as [->|Hne]; simpl.
  - rewrite decide_True by done.
    destruct (Py.iadd occ i 1); simpl; [apply IH|done].
  - rewrite decide_False by done. simpl. apply IH.
Qed.

Lemma count_instances_same (function1 function2 : list string) (m : string) (i : Z)
    (occ : list Z) :
  instances function1 m = instances function2 m →
  count_instances function1 m i occ = count_instances function2 m i occ.
Proof.
  unfold instances. intros Hsame.
  rewrite (count_instances_filter function1), (count_instances_filter function2).
  rewrite (filter_eq_replicate function1), (filter_eq_replicate function2).
  do 2 f_equal. lia.
Qed.

Lemma elem_of_instances (function : list string) (m : string) :
  m ∈ function ↔ instances function m ≠ 0.
Proof.
  split.
  - intros Hin. pose proof (instances_in function m Hin). lia.
  - intros Hne. destruct (decide (m ∈ function)) as [|Hnotin]; [done|].
    by rewrite instances_not_in in Hne.
Qed.

Lemma occ_step_same (categories function1 function2 : list string)
    (st : counter_state) (item : key * string) :
  instances function1 item.2 = instances function2 item.2 →
  occ_step categories function1 st item = occ_step categories function2 st item.
Proof.
  intros Hsame. unfold occ_step.
  destruct (Py.getitem _ _) as [c|]; simpl; [|done].
  assert (item.2 ∈ function1 ↔ item.2 ∈ function2) as Hiff
    by (by rewrite !elem_of_instances, Hsame).
  destruct (decide (item.2 ∈ function1)) as [H1|H1],
           (decide (item.2 ∈ function2)) as [H2|H2]; try tauto.
  destruct (decide (item.2 ∈ duplicate_control st)); [done|].
  by rewrite (count_instances_same function1 function2).
Qed.

(** The row of a function is decided by the number of instances, in the
    function, of each mnemonic held by a slot. *)
Lemma feature_row_same (categories : list string) (token_dictionary : token_dict)
    (function1 function2 : list string) :
  (∀ m, m ∈ token_dictionary.*2 → instances function1 m = instances function2 m) →
  feature_row categories token_dictionary function1
  = feature_row categories token_dictionary function2.
Proof.
  intros Hsame. unfold feature_row, count_occurrences.
  rewrite (foldM_ext (occ_step categories function1) (occ_step categories function2));
    [done|].
  intros st item Hitem. apply occ_step_same, Hsame. by apply list_elem_of_fmap_2.
Qed.

Lemma mapM_Forall2 {A B : Type} (f : A → result B) (l1 l2 : list A) :
  Forall2 (λ x y, f x = f y) l1 l2 → Py.mapM f l1 = Py.mapM f l2.
Proof.
  induction 1 as [|x y l1 l2 Hxy _ IH]; simpl; [done|]. by rewrite Hxy, IH.
Qed.

Lemma instances_Permutation (function1 function2 : list string) (m : string) :
  function1 ≡ₚ function2 → instances function1 m = instances function2 m.
Proof. intros Hperm. unfold instances. by rewrite Hperm. Qed.

Lemma instances_app (function1 function2 : list string) (m : string) :
  instances (function1 ++ function2) m = instances function1 m + instances function2 m.
Proof. unfold instances. rewrite filter_app, length_app. lia. Qed.

End instances.

(** X14: the table depends on a function only through the number of
    instances of each mnemonic that a slot of the assignment holds: two
    lists of functions that agree on these numbers, function by function,
    give the same table or the same exception; tokens that no slot holds
    play no part. *)
Theorem X14_instances_decide (tokenized_functions1 tokenized_functions2 : list (list string))
    (token_dictionary : token_dict) :
  Forall2 (λ function1 function2,
             ∀ m, m ∈ token_dictionary.*2 →
                  instances function1 m = instances function2 m)
          tokenized_functions1 tokenized_functions2 →
  assembly_dataframer tokenized_functions1 token_dictionary
  = assembly_dataframer tokenized_functions2 token_dictionary.
Proof.
  intros Hsame. rewrite !assembly_dataframer_spec.
  rewrite (mapM_Forall2 _ tokenized_functions1 tokenized_functions2); [done|].
  eapply Forall2_impl; [exact Hsame|]. simpl.
  intros function1 function2. apply feature_row_same.
Qed.

Lemma X14_instances_decide_witness :
  Forall2 (λ function1 function2,
             ∀ m, m ∈ example_assignment.*2 →
                  instances function1 m = instances function2 m)
          [["mov"; "add"]] [["nop"; "mov"; "add"; "ret"]]
  ∧ assembly_dataframer [["mov"; "add"]] example_assignment
    = assembly_dataframer [["nop"; "mov"; "add"; "ret"]] example_assignment.
Proof.
  assert (Forall2 (λ function1 function2,
                     ∀ m, m ∈ example_assignment.*2 →
                          instances function1 m = instances function2 m)
                  [["mov"; "add"]] [["nop"; "mov"; "add"; "ret"]]) as Hsame.
  { repeat constructor. intros m. simpl.
    rewrite !elem_of_cons, elem_of_nil. intros [->|[->|[->|[]]]]; reflexivity. }
  split; [exact Hsame|].
  apply (X14_instances_decide [["mov"; "add"]] [["nop"; "mov"; "add"; "ret"]]
           example_assignment Hsame).
Defined.

(** X15: the order of the tokens inside a function plays no part: two
    lists of functions whose functions are, one by one, rearrangements of
    each other give the same table or the same exception. *)
Theorem X15_token_order (tokenized_functions1 tokenized_functions2 : list (list string))
    (token_dictionary : token_dict) :
  Forall2 Permutation tokenized_functions1 tokenized_functions2 →
  assembly_dataframer tokenized_functions1 token_dictionary
  = assembly_dataframer tokenized_functions2 token_dictionary.
Proof.
  intros Hperm. rewrite !assembly_dataframer_spec.
  rewrite (mapM_Forall2 _ tokenized_functions1 tokenized_functions2); [done|].
  eapply Forall2_impl; [exact Hperm|]. simpl.
  intros function1 function2 Hfun. apply feature_row_same.
  intros m _. by apply instances_Permutation.
Qed.

Lemma X15_token_order_witness :
  Forall2 Permutation [["mov"; "add"; "mov"]] [["add"; "mov"; "mov"]]
  ∧ assembly_dataframer [["mov"; "add"; "mov"]] example_assignment
    = assembly_dataframer [["add"; "mov"; "mov"]] example_assignment.
Proof.
  assert (Forall2 Permutation [["mov"; "add"; "mov"]] [["add"; "mov"; "mov"]]) as Hperm.
  { repeat constructor. }
  split; [exact Hperm|].
  apply (X15_token_order [["mov"; "add"; "mov"]] [["add"; "mov"; "mov"]]
           example_assignment Hperm).
Defined.

(** ** Grouped assignments *)

Lemma count_instances_return (function : list string) (m : string) (i : nat)
    (occ : list Z) :
  (i < length occ)%nat →
  count_instances function m (Z.of_nat i) occ
  = Return (alter (λ x, x + instances function m) i occ).
Proof.
  intros Hi.
  assert (∃ occ', count_instances function m (Z.of_nat i) occ = Return occ')
    as [occ' Hocc].
  { unfold count_instances. revert occ Hi.
    induction function as [|t f IH]; intros occ Hi; simpl; [by eexists|].
    destruct (decide (t = m)); simpl; [|by apply IH].
    destruct (lookup_lt_is_Some_2 occ i Hi) as [x Hx].
    rewrite (iadd_nat occ i x 1 Hx). simpl. apply IH. by rewrite length_insert. }
  rewrite Hocc. f_equal. apply count_instances_alter in Hocc; [|lia].
  by rewrite Nat2Z.id in Hocc.
Qed.

Lemma alter_add_zero (l : list Z) (i : nat) : alter (λ x, x + 0) i l = l.
Proof. apply list_alter_id. intros x. lia. Qed.

Lemma alter_add_add (l : list Z) (i : nat) (a b : Z) :
  alter (λ x, x + b) i (alter (λ x, x + a) i l) = alter (λ x, x + (a + b)) i l.
Proof.
  rewrite list_alter_alter_eq. apply list_alter_ext; [|done].
  intros x _. unfold compose. lia.
Qed.

Section grouped.

Context (categories : list string) (function : list string).

(** One slot, when the tracked category is in range. *)
Lemma occ_step_at (st : counter_state) (item : key * string) (seen : list string)
    (j : nat) (c : string) :
  cat_i st = Z.of_nat j →
  categories !! j = Some c →
  ((if decide (c ≠ item.1.1) then S j else j) < length (token_occ st))%nat →
  (∀ m, m ∈ duplicate_control st ↔ m ∈ seen ∧ m ∈ function) →
  ∃ st', occ_step categories function st item = Return st'
         ∧ cat_i st' = Z.of_nat (if decide (c ≠ item.1.1) then S j else j)
         ∧ token_occ st'
           = alter (λ x, x + (if decide (item.2 ∈ seen) then 0
                              else instances function item.2))
               (if decide (c ≠ item.1.1) then S j else j) (token_occ st)
         ∧ (∀ m, m ∈ duplicate_control st' ↔ m ∈ seen ++ [item.2] ∧ m ∈ function).
Proof.
  intros Hcat Hc Hlt Hscored. unfold occ_step.
  rewrite Hcat, (getitem_nat _ _ _ Hc). simpl.
  set (i := if decide (c ≠ item.1.1) then S j else j) in *.
  replace (if decide (c ≠ item.1.1) then Z.of_nat j + 1 else Z.of_nat j)
    with (Z.of_nat i) by (unfold i; destruct (decide _); lia).
  destruct (decide (item.2 ∈ function)) as [Hin|Hin].
  - destruct (decide (item.2 ∈ duplicate_control st)) as [Hdup|Hdup].
    + eexists. split; [done|]. simpl. split; [done|].
      apply Hscored in Hdup as Hseen. rewrite decide_True by tauto.
      split; [by rewrite alter_add_zero|].
      intros m. rewrite Hscored, elem_of_app, list_elem_of_singleton.
      split; [tauto|]. intros [[?| ->] ?]; tauto.
    + rewrite count_instances_return by done. simpl.
      eexists. split; [done|]. simpl. split; [done|].
      rewrite decide_False by (intros Hseen; apply Hdup, Hscored; tauto).
      split; [done|].
      intros m. rewrite !elem_of_app, list_elem_of_singleton, Hscored.
      split; [intros [?| ->]; tauto|]. intros [[?| ->] ?]; tauto.
  - eexists. split; [done|]. simpl. split; [done|].
    rewrite (instances_not_in _ _ Hin).
    split; [destruct (decide (item.2 ∈ seen)); by rewrite alter_add_zero|].
    intros m. rewrite Hscored, elem_of_app, list_elem_of_singleton.
    split; [tauto|]. intros [[?| ->] ?]; tauto.
Qed.

(** The slots of the tracked category. *)
Lemma counting_block (items : list (key * string)) (st : counter_state)
    (seen : list string) (j : nat) (c : string) :
  categories !! j = Some c →
  Forall (λ item : key * string, item.1.1 = c) items →
  cat_i st = Z.of_nat j →
  (j < length (token_occ st))%nat →
  (∀ m, m ∈ duplicate_control st ↔ m ∈ seen ∧ m ∈ function) →
  ∃ st', Py.foldM (occ_step categories function) st items = Return st'
         ∧ cat_i st' = Z.of_nat j
         ∧ token_occ st' = alter (λ x, x + tally function seen items.*2) j (token_occ st)
         ∧ (∀ m, m ∈ duplicate_control st' ↔ m ∈ seen ++ items.*2 ∧ m ∈ function).
Proof.
  intros Hc Hitems. revert st seen.
  induction Hitems as [|item items Hitem _ IH]; intros st seen Hcat Hlt Hscored.
  - exists st. simpl. rewrite alter_add_zero, app_nil_r. done.
  - destruct (occ_step_at st item seen j c Hcat Hc) as (st1 & Hstep & Hcat1 & Hocc1 & Hscored1);
      [by rewrite decide_False by (by intros []) | done |].
    rewrite decide_False in Hcat1, Hocc1 by (by intros []).
    destruct (IH st1 (seen ++ [item.2]) Hcat1) as (st2 & Hloop & Hcat2 & Hocc2 & Hscored2);
      [by rewrite Hocc1, length_alter | done |].
    exists st2. simpl. rewrite Hstep. simpl. split; [done|]. split; [done|].
    split.
    + by rewrite Hocc2, Hocc1, alter_add_add.
    + intros m. rewrite Hscored2, <- app_assoc. done.
Qed.

(** A whole block, entered from the category before it. *)
Lemma counting_entry (block : list (key * string)) (st : counter_state)
    (seen : list string) (j : nat) (c : string) :
  NoDup categories →
  categories !! j = Some c →
  block ≠ [] →
  Forall (λ item : key * string, item.1.1 = c) block →
  cat_i st = Z.of_nat (pred j) →
  (j < length (token_occ st))%nat →
  (∀ m, m ∈ duplicate_control st ↔ m ∈ seen ∧ m ∈ function) →
  ∃ st', Py.foldM (occ_step categories function) st block = Return st'
         ∧ cat_i st' = Z.of_nat j
         ∧ token_occ st' = alter (λ x, x + tally function seen block.*2) j (token_occ st)
         ∧ (∀ m, m ∈ duplicate_control st' ↔ m ∈ seen ++ block.*2 ∧ m ∈ function).
Proof.
  intros Hnodup Hc Hne Hblock Hcat Hlt Hscored.
  destruct j as [|k]; [by apply (counting_block block st seen 0 c)|].
  destruct block as [|item items]; [done|]. clear Hne.
  apply Forall_cons in Hblock as [Hitem Hitems]. simpl in Hcat.
  destruct (lookup_lt_is_Some_2 categories k) as [c0 Hc0];
    [apply lookup_lt_Some in Hc; lia|].
  assert (c0 ≠ item.1.1) as Hother.
  { rewrite Hitem. intros ->.
    pose proof (NoDup_lookup _ _ _ _ Hnodup Hc0 Hc). lia. }
  destruct (occ_step_at st item seen k c0 Hcat Hc0) as (st1 & Hstep & Hcat1 & Hocc1 & Hscored1);
    [by rewrite decide_True | done |].
  rewrite decide_True in Hcat1, Hocc1 by done.
  destruct (counting_block items st1 (seen ++ [item.2]) (S k) c Hc Hitems Hcat1)
    as (st2 & Hloop & Hcat2 & Hocc2 & Hscored2);
    [by rewrite Hocc1, length_alter | done |].
  exists st2. simpl. rewrite Hstep. simpl. split; [done|]. split; [done|].
  split.
  - by rewrite Hocc2, Hocc1, alter_add_add.
  - intros m. rewrite Hscored2, <- app_assoc. done.
Qed.

End grouped.

Lemma counting_blocks (function : list string) (rest_cats : list string)
    (rest_blocks : list (list (key * string))) :
  Forall2 (λ c block, block ≠ [] ∧ Forall (λ item : key * string, item.1.1 = c) block)
    rest_cats rest_blocks →
  ∀ (done_cats : list string) (done_counts : list Z) (st : counter_state)
    (seen : list string),
  NoDup (done_cats ++ rest_cats) →
  length done_counts = length done_cats →
  cat_i st = Z.of_nat (pred (length done_cats)) →
  token_occ st = done_counts ++ replicate (length rest_cats) 0 →
  (∀ m, m ∈ duplicate_control st ↔ m ∈ seen ∧ m ∈ function) →
  ∃ st', Py.foldM (occ_step (done_cats ++ rest_cats) function) st (concat rest_blocks)
         = Return st'
         ∧ token_occ st' = done_counts ++ block_counts function seen rest_blocks.
Proof.
  induction 1 as [|c block cs blocks [Hne Hblock] _ IH];
    intros done_cats done_counts st seen Hnodup Hlen Hcat Hocc Hscored.
  - exists st. simpl in *. done.
  - cbn [concat block_counts]. rewrite foldM_app.
    destruct (counting_entry (done_cats ++ c :: cs) function block st seen
                (length done_cats) c Hnodup)
      as (st1 & Hloop & Hcat1 & Hocc1 & Hscored1); try done.
    { by apply list_lookup_middle. }
    { rewrite Hocc, length_app. simpl. lia. }
    rewrite Hloop. simpl.
    destruct (IH (done_cats ++ [c]) (done_counts ++ [tally function seen block.*2])
                st1 (seen ++ block.*2)) as (st2 & Hrest & Hocc2); try done.
    { by rewrite <- app_assoc. }
    { rewrite !length_app. simpl. lia. }
    { rewrite length_app, Hcat1. simpl. f_equal. lia. }
    { rewrite Hocc1, Hocc, <- Hlen. simpl.
      replace (length done_counts) with (length done_counts + 0)%nat at 1 by lia.
      rewrite alter_app_r, <- app_assoc. done. }
    rewrite <- app_assoc in Hrest. simpl in Hrest.
    exists st2. split; [done|]. by rewrite Hocc2, <- app_assoc.
Qed.

Lemma first_seen_block (c : string) (block : list (key * string)) (l : list string) :
  Forall (λ item : key * string, item.1.1 = c) block → c ∉ l →
  first_seen (block.*1.*1 ++ l)
  = match block with [] => first_seen l | _ :: _ => c :: first_seen l end.
Proof.
  intros Hblock Hc.
  assert (filter (λ y, y ≠ c) (first_seen l) = first_seen l) as Hfilter.
  { apply filter_all, Forall_forall. intros y Hy ->.
    by apply (proj1 (elem_of_first_seen _ _)) in Hy. }
  induction Hblock as [|item items Hitem _ IH]; [done|].
  rewrite !fmap_cons. cbn [app first_seen]. rewrite Hitem, IH. f_equal.
  destruct items; [done|]. rewrite filter_cons_False; [done|]. intros H. by apply H.
Qed.

(** The categories of a grouped assignment are the categories of its
    blocks, in their order. *)
Lemma grouped_categories (categories : list string) (blocks : list (list (key * string))) :
  grouped categories blocks → dict_categories (concat blocks) = categories.
Proof.
  intros [Hnodup Hblocks]. rewrite dict_categories_keys.
  assert (first_seen (concat blocks).*1.*1 = categories
          ∧ ∀ c, c ∈ (concat blocks).*1.*1 → c ∈ categories) as [H _]; [|done].
  induction Hblocks as [|c block cs blocks [Hne Hblock] _ IH]; [done|].
  apply NoDup_cons in Hnodup as [Hc Hnodup].
  destruct (IH Hnodup) as [Horder Hin]. simpl concat. rewrite !fmap_app. split.
  - rewrite (first_seen_block c) by (try done; intros Hc'; by apply Hc, Hin).
    destruct block; [done|]. by rewrite Horder.
  - intros c' [Hc'|Hc']%elem_of_app.
    + apply list_elem_of_fmap in Hc' as (k & -> & (item & -> & Hitem)%list_elem_of_fmap).
      rewrite Forall_forall in Hblock. rewrite (Hblock item Hitem).
      apply list_elem_of_here.
    + by apply list_elem_of_further, Hin.
Qed.

Lemma count_occurrences_grouped (categories : list string)
    (blocks : list (list (key * string))) (function : list string) :
  grouped categories blocks →
  count_occurrences categories (concat blocks) function
  = Return (block_counts function [] blocks).
Proof.
  intros [Hnodup Hblocks]. unfold count_occurrences.
  destruct (counting_blocks function categories blocks Hblocks [] []
              {| cat_i := 0; duplicate_control := [];
                 token_occ := replicate (length categories) 0 |} [])
    as (st & Hloop & Hocc); try done.
  { intros m. simpl. rewrite elem_of_nil. tauto. }
  simpl in Hloop. rewrite Hloop. simpl. by rewrite Hocc.
Qed.

(** X16: on an assignment that comes category by category, the counting
    loop never leaves the list of counts: for every function it returns one
    count per category, the count of a category being the number of
    instances in the function of the mnemonics of its slots that no earlier
    slot holds. *)
Theorem X16_grouped_counts (categories : list string)
    (blocks : list (list (key * string))) (function : list string) :
  grouped categories blocks →
  dict_categories (concat blocks) = categories
  ∧ count_occurrences (dict_categories (concat blocks)) (concat blocks) function
    = Return (block_counts function [] blocks).
Proof.
  intros Hgrouped. pose proof (grouped_categories _ _ Hgrouped) as Hcats.
  split; [done|]. rewrite Hcats. by apply count_occurrences_grouped.
Qed.

Lemma X16_grouped_counts_witness :
  let blocks := [[(("Data transfer", 0), "mov")];
                 [(("Arithmetic", 0), "mov"); (("Arithmetic", 1), "add")]] in
  grouped ["Data transfer"; "Arithmetic"] blocks
  ∧ dict_categories (concat blocks) = ["Data transfer"; "Arithmetic"]
  ∧ count_occurrences (dict_categories (concat blocks)) (concat blocks)
      ["mov"; "mov"; "add"]
    = Return (block_counts ["mov"; "mov"; "add"] [] blocks).
Proof.
  intros blocks.
  assert (grouped ["Data transfer"; "Arithmetic"] blocks) as Hgrouped.
  { split.
    - repeat constructor; rewrite ?elem_of_cons, ?elem_of_nil; intuition discriminate.
    - repeat constructor; done. }
  split; [exact Hgrouped|].
  apply (X16_grouped_counts ["Data transfer"; "Arithmetic"] blocks
           ["mov"; "mov"; "add"] Hgrouped).
Defined.

(** ** The table of a grouped assignment *)

Lemma mapM_cases {A B : Type} (f : A → result B) (P : A → Prop)
    `{!∀ x, Decision (P x)} (g : A → B) (e : exception) (l : list A) :
  (∀ x, f x = if decide (P x) then Raise e else Return (g x)) →
  Py.mapM f l = if decide (Exists P l) then Raise e else Return (g <$> l).
Proof.
  intros Hf. induction l as [|x l IH].
  - rewrite decide_False; [done|]. by intros ?%Exists_nil.
  - cbn [Py.mapM]. rewrite Hf, IH.
    destruct (decide (P x)) as [Hx|Hx], (decide (Exists P l)) as [Hl|Hl],
             (decide (Exists P (x :: l))) as [Hxl|Hxl]; simpl; try done;
      exfalso; rewrite Exists_cons in Hxl; tauto.
Qed.

Lemma unscored_items (token_dictionary : token_dict) (function : list string) :
  unscored token_dictionary function
  ↔ ∀ item, item ∈ token_dictionary → item.2 ∉ function.
Proof.
  unfold unscored. rewrite Forall_forall. split.
  - intros Hun item Hitem Hin. apply (Hun _ Hin). by apply list_elem_of_fmap_2.
  - intros Hun token Hin (item & -> & Hitem)%list_elem_of_fmap. by apply (Hun item).
Qed.

Lemma feature_row_grouped (categories : list string)
    (blocks : list (list (key * string))) (function : list string) :
  grouped categories blocks →
  feature_row categories (concat blocks) function
  = if decide (blocks ≠ [] ∧ unscored (concat blocks) function)
    then Raise ZeroDivisionError
    else Return (grouped_row blocks function).
Proof.
  intros Hgrouped. unfold feature_row, grouped_row.
  pose proof (count_occurrences_grouped _ _ function Hgrouped) as Hocc.
  rewrite Hocc. simpl.
  pose proof (count_occurrences_length _ _ _ _ Hocc) as Hlen.
  destruct (count_occurrences_total _ _ _ _ Hocc) as [_ Hzero].
  rewrite <- unscored_items in Hzero.
  destruct (Z.eq_dec (sum (block_counts function [] blocks)) 0) as [Hsum|Hsum].
  - rewrite percentages_zero by done.
    destruct Hgrouped as [_ Hblocks].
    destruct Hblocks as [|c block cs blocks' _ _].
    + rewrite decide_True by done. rewrite decide_False by tauto. done.
    + rewrite decide_False by done. rewrite decide_True; [done|].
      split; [done|tauto].
  - rewrite percentages_spec by done. rewrite decide_False; [done|]. tauto.
Qed.

Lemma assembly_dataframer_grouped (categories : list string)
    (blocks : list (list (key * string))) (tokenized_functions : list (list string)) :
  grouped categories blocks →
  assembly_dataframer tokenized_functions (concat blocks)
  = if decide (blocks ≠ [] ∧ Exists (unscored (concat blocks)) tokenized_functions)
    then Raise ZeroDivisionError
    else Return {| columns := categories;
                   data := grouped_row blocks <$> tokenized_functions |}.
Proof.
  intros Hgrouped.
  rewrite assembly_dataframer_spec, (grouped_categories _ _ Hgrouped).
  rewrite (mapM_cases _ (λ function, blocks ≠ [] ∧ unscored (concat blocks) function)
             (grouped_row blocks) ZeroDivisionError)
    by (intros function; by apply feature_row_grouped).
  destruct (decide (Exists _ _)) as [Hex|Hex]; simpl.
  - rewrite decide_True; [done|]. apply Exists_exists in Hex as (f & Hf & Hne & Hun).
    split; [done|]. apply Exists_exists. by exists f.
  - rewrite decide_False; [done|]. intros [Hne (f & Hf & Hun)%Exists_exists].
    apply Hex, Exists_exists. by exists f.
Qed.

(** X17: on an assignment that comes category by category the aggregator
    never raises an [IndexError].  It raises [ZeroDivisionError] when there
    is a category and some function has no token held by a slot; otherwise
    it returns the table whose columns are the categories of the blocks, in
    their order, with one row per function, each cell the share of the
    tally of its block in the total of the tallies. *)
Theorem X17_grouped_table (categories : list string)
    (blocks : list (list (key * string))) (tokenized_functions : list (list string)) :
  grouped categories blocks →
  assembly_dataframer tokenized_functions (concat blocks)
  = if decide (blocks ≠ [] ∧ Exists (unscored (concat blocks)) tokenized_functions)
    then Raise ZeroDivisionError
    else Return {| columns := categories;
                   data := grouped_row blocks <$> tokenized_functions |}.
Proof. apply assembly_dataframer_grouped. Qed.

Lemma X17_grouped_table_witness :
  let blocks := [[(("Data transfer", 0), "mov")];
                 [(("Arithmetic", 0), "mov"); (("Arithmetic", 1), "add")]] in
  let tokenized_functions := [["mov"; "mov"; "add"]; ["add"; "nop"]] in
  grouped ["Data transfer"; "Arithmetic"] blocks
  ∧ assembly_dataframer tokenized_functions (concat blocks)
    = if decide (blocks ≠ [] ∧ Exists (unscored (concat blocks)) tokenized_functions)
      then Raise ZeroDivisionError
      else Return {| columns := ["Data transfer"; "Arithmetic"];
                     data := grouped_row blocks <$> tokenized_functions |}.
Proof.
  intros blocks tokenized_functions.
  assert (grouped ["Data transfer"; "Arithmetic"] blocks) as Hgrouped.
  { split.
    - repeat constructor; rewrite ?elem_of_cons, ?elem_of_nil; intuition discriminate.
    - repeat constructor; done. }
  split; [exact Hgrouped|].
  apply (X17_grouped_table ["Data transfer"; "Arithmetic"] blocks tokenized_functions
           Hgrouped).
Defined.

Example grouped_table_example :
  assembly_dataframer [["mov"; "mov"; "add"]; ["add"; "nop"]] shared_assignment
  = Return {| columns := ["Data transfer"; "Arithmetic"]; data := [[67; 33]; [0; 100]] |}.
Proof. vm_compute. reflexivity. Qed.

(** An assignment that does not come category by category: the third slot
    moves the tracked index past the two categories. *)
Example scattered_assignment_raises :
  assembly_dataframer [["mov"; "add"; "sub"]]
    [(("Data transfer", 0), "mov"); (("Arithmetic", 0), "add");
     (("Data transfer", 1), "sub")]
  = Raise IndexError.
Proof. vm_compute. reflexivity. Qed.

(** ** The pipeline in default mode *)

Lemma category_slots_grouped (token_list : list string) (categories : list string)
    (blocks : list (list (key * string))) :
  NoDup categories → length categories = length blocks →
  grouped categories (category_slots token_list categories blocks).
Proof.
  intros Hnodup Hlen. split; [done|]. clear Hnodup. unfold category_slots.
  revert blocks Hlen. induction categories as [|c cs IH]; intros [|block blocks] Hlen;
    [by constructor|done|done|].
  simpl. constructor; [|apply IH; simpl in Hlen; lia]. split.
  - destruct (matched token_list block); [done|]. unfold slots. by rewrite slots_from_cons.
  - apply Forall_forall. intros item Hitem. apply (slots_keys c (matched token_list block)).
    by apply list_elem_of_fmap_2.
Qed.

Lemma complete_preprocessing_default (self : Assembly_Preprocessor) (fs : file_system)
    (assembly_functions : list string) (instruction_glossary : py_value)
    (blocks : list (list (key * string))) :
  (∀ path, instruction_glossary ≠ PyStr path) →
  consistent_glossary (default_glossary self) blocks →
  complete_preprocessing self fs assembly_functions instruction_glossary
  = ([],
     let token_list := (tokenize_instructions assembly_functions).1 in
     let tokenized_functions := (tokenize_instructions assembly_functions).2 in
     let slot_blocks :=
       category_slots token_list (getCategories (default_glossary self)) blocks in
     if decide (Exists (unscored (concat slot_blocks)) tokenized_functions)
     then Raise ZeroDivisionError
     else Return {| columns := getCategories (default_glossary self);
                    data := grouped_row slot_blocks <$> tokenized_functions |}).
Proof.
  intros Hstr Hconsistent. unfold complete_preprocessing.
  destruct (tokenize_instructions assembly_functions) as [token_list tokenized_functions].
  destruct (default_mode_consistent token_list _ _ Hconsistent) as (st & Hmode & Hdict & _).
  rewrite default_assignment_slots in Hdict;
    [|apply Hconsistent|by intros c _ ?%elem_of_nil].
  assert (token_categorizer self fs token_list instruction_glossary
          = ([], Return (concat (category_slots token_list
                                   (getCategories (default_glossary self)) blocks))))
    as ->.
  { unfold token_categorizer, category_slots.
    destruct instruction_glossary as [|path|other];
      [|by destruct (Hstr path)|]; rewrite Hmode; simpl; by rewrite Hdict. }
  cbn [fst snd mbind result_bind]. f_equal.
  pose proof (Forall2_length _ _ _ (consistent_blocks _ _ Hconsistent)) as Hlen.
  rewrite (assembly_dataframer_grouped (getCategories (default_glossary self)))
    by (apply category_slots_grouped; [apply Hconsistent|done]).
  apply decide_ext. split; [tauto|]. intros Hex. split; [|done].
  pose proof (consistent_some _ _ Hconsistent) as Hsome.
  unfold category_slots.
  destruct (getCategories (default_glossary self)); [done|].
  destruct blocks; [done|]. done.
Qed.

(** X18: with a default glossary consistent with its category order, the
    pipeline in default mode prints nothing and never raises an
    [IndexError]: it raises [ZeroDivisionError] when some function has no
    token held by a slot of the assignment, and otherwise returns the table
    with the columns of [getCategories()], in that order, and one row per
    function. *)
Theorem X18_default_pipeline (self : Assembly_Preprocessor) (fs : file_system)
    (assembly_functions : list string) (instruction_glossary : py_value)
    (blocks : list (list (key * string))) :
  (∀ path, instruction_glossary ≠ PyStr path) →
  consistent_glossary (default_glossary self) blocks →
  complete_preprocessing self fs assembly_functions instruction_glossary
  = ([],
     let token_list := (tokenize_instructions assembly_functions).1 in
     let tokenized_functions := (tokenize_instructions assembly_functions).2 in
     let slot_blocks :=
       category_slots token_list (getCategories (default_glossary self)) blocks in
     if decide (Exists (unscored (concat slot_blocks)) tokenized_functions)
     then Raise ZeroDivisionError
     else Return {| columns := getCategories (default_glossary self);
                    data := grouped_row slot_blocks <$> tokenized_functions |}).
Proof. apply complete_preprocessing_default. Qed.

Lemma X18_default_pipeline_witness :
  let self := {| default_glossary := glossary4 |} in
  let blocks := [[(("Data transfer", 0), "mov")]; [(("Arithmetic", 0), "add")];
                 [(("Control flow", 0), "jmp")]; [(("Logic", 0), "xor")]] in
  (∀ path, PyNone ≠ PyStr path)
  ∧ consistent_glossary glossary4 blocks
  ∧ complete_preprocessing self no_files example_functions PyNone
    = ([],
       let token_list := (tokenize_instructions example_functions).1 in
       let tokenized_functions := (tokenize_instructions example_functions).2 in
       let slot_blocks := category_slots token_list (getCategories glossary4) blocks in
       if decide (Exists (unscored (concat slot_blocks)) tokenized_functions)
       then Raise ZeroDivisionError
       else Return {| columns := getCategories glossary4;
                      data := grouped_row slot_blocks <$> tokenized_functions |}).
Proof.
  intros self blocks.
  assert (consistent_glossary glossary4 blocks) as Hconsistent.
  { split; [done| |done|].
    - repeat constructor; done.
    - repeat constructor; rewrite ?elem_of_cons, ?elem_of_nil; intuition discriminate. }
  split; [intros path; discriminate|]. split; [exact Hconsistent|].
  apply (X18_default_pipeline self no_files example_functions PyNone blocks);
    [intros path; discriminate|exact Hconsistent].
Defined.

(** ** Glossary files in the documented layout *)

Section file_sections.

Context (special_char : ascii) (token_list : list string).

Lemma file_step_marker (st : categorizer_state) (line : string) :
  Py.contains special_char line = true →
  f_i st = Z.of_nat (length (cs_features st)) →
  file_step special_char token_list st line
  = Return {| cs_dict := dict_iadd (cs_dict st) (category_name special_char line, 0) "";
              cs_features := cs_features st ++ [category_name special_char line];
              f_i := f_i st + 1;
              e_i := 0 |}.
Proof.
  intros Hc Hfi. unfold file_step. rewrite Hc, Hfi.
  rewrite (getitem_nat _ _ (category_name special_char line))
    by (by apply list_lookup_middle).
  done.
Qed.

Lemma file_step_mnemonic (st : categorizer_state) (line : string)
    (before : list string) (name : string) :
  Py.contains special_char line = false →
  cs_features st = before ++ [name] →
  f_i st = Z.of_nat (length (cs_features st)) →
  file_step special_char token_list st line
  = Return (if decide (mnemonic_of line ∈ token_list)
            then {| cs_dict := dict_iadd (cs_dict st) (name, e_i st) (mnemonic_of line);
                    cs_features := cs_features st;
                    f_i := f_i st;
                    e_i := e_i st + 1 |}
            else st).
Proof.
  intros Hc Hfeat Hfi. unfold file_step, mnemonic_of. rewrite Hc.
  destruct (decide (_ ∈ token_list)); [|done].
  replace (f_i st - 1) with (Z.of_nat (length before))
    by (rewrite Hfi, Hfeat, length_app; simpl; lia).
  rewrite (getitem_nat _ _ name) by (rewrite Hfeat; by apply list_lookup_middle).
  done.
Qed.

Lemma file_mnemonic_lines (mnemonic_lines : list string) (before : list string)
    (name : string) :
  Forall (λ line, Py.contains special_char line = false) mnemonic_lines →
  ∀ st : categorizer_state,
  cs_features st = before ++ [name] →
  f_i st = Z.of_nat (length (cs_features st)) →
  ∃ st', Py.foldM (file_step special_char token_list) st mnemonic_lines = Return st'
         ∧ cs_dict st'
           = add_slots (cs_dict st) name (e_i st) (listed token_list mnemonic_lines)
         ∧ cs_features st' = cs_features st
         ∧ f_i st' = f_i st.
Proof.
  induction 1 as [|line mnemonic_lines Hline _ IH]; intros st Hfeat Hfi.
  - by exists st.
  - cbn [Py.foldM]. rewrite (file_step_mnemonic st line before name) by done.
    cbn [mbind result_bind]. unfold listed. rewrite fmap_cons, filter_cons.
    destruct (decide (mnemonic_of line ∈ token_list)); [|by apply IH].
    edestruct IH as (st' & Hloop & Hdict & Hfeat' & Hfi'); [| |exists st'; by rewrite Hloop];
      done.
Qed.

Lemma file_section (st : categorizer_state) (marker : string)
    (mnemonic_lines : list string) :
  Py.contains special_char marker = true →
  Forall (λ line, Py.contains special_char line = false) mnemonic_lines →
  f_i st = Z.of_nat (length (cs_features st)) →
  category_name special_char marker ∉ (cs_dict st).*1.*1 →
  ∃ st', Py.foldM (file_step special_char token_list) st (marker :: mnemonic_lines)
         = Return st'
         ∧ cs_dict st'
           = cs_dict st ++ slots (category_name special_char marker)
                             (listed token_list mnemonic_lines)
         ∧ cs_features st' = cs_features st ++ [category_name special_char marker]
         ∧ f_i st' = Z.of_nat (length (cs_features st')).
Proof.
  intros Hmarker Hlines Hfi Hnew.
  cbn [Py.foldM]. rewrite file_step_marker by done. cbn [mbind result_bind].
  edestruct (file_mnemonic_lines mnemonic_lines (cs_features st)
               (category_name special_char marker) Hlines)
    as (st' & Hloop & Hdict & Hfeat & Hfi'); [| |exists st'; split; [exact Hloop|]].
  - done.
  - simpl. rewrite length_app, Hfi. simpl. lia.
  - simpl in *. rewrite Hdict, Hfeat, Hfi', add_slots_new_category by done.
    split; [done|]. split; [done|]. rewrite length_app, Hfi. simpl. lia.
Qed.

Lemma file_sections (sections : list (string * list string)) :
  Forall (λ s : string * list string,
            Py.contains special_char s.1 = true
            ∧ Forall (λ line, Py.contains special_char line = false) s.2) sections →
  ∀ st : categorizer_state,
  NoDup (cs_features st ++ (category_name special_char <$> sections.*1)) →
  f_i st = Z.of_nat (length (cs_features st)) →
  (∀ c, c ∈ (cs_dict st).*1.*1 → c ∈ cs_features st) →
  ∃ st', Py.foldM (file_step special_char token_list) st (section_lines sections)
         = Return st'
         ∧ cs_dict st'
           = cs_dict st ++ concat (section_slots special_char token_list sections)
         ∧ cs_features st'
           = cs_features st ++ (category_name special_char <$> sections.*1).
Proof.
  induction 1 as [|[marker mnemonic_lines] sections [Hmarker Hlines] _ IH];
    intros st Hnodup Hfi Hkeys.
  - exists st. simpl. by rewrite !app_nil_r.
  - simpl in Hmarker, Hlines, Hnodup.
    unfold section_lines, section_slots. rewrite !fmap_cons. cbn [concat fst snd].
    change (?x :: ?l ++ ?r) with ((x :: l) ++ r). rewrite foldM_app.
    destruct (file_section st marker mnemonic_lines Hmarker Hlines Hfi)
      as (st1 & Hloop & Hdict & Hfeat & Hfi1).
    { intros Hin%Hkeys. apply NoDup_app in Hnodup as (_ & Hnew & _).
      apply (Hnew _ Hin), list_elem_of_here. }
    rewrite Hloop. cbn [mbind result_bind].
    destruct (IH st1) as (st2 & Hrest & Hdict2 & Hfeat2).
    + rewrite Hfeat, <- app_assoc. done.
    + done.
    + intros c. rewrite Hdict, Hfeat, !fmap_app, !elem_of_app, list_elem_of_singleton.
      intros [Hc|Hc]; [left; by apply Hkeys|right].
      apply list_elem_of_fmap in Hc as (k & -> & Hk). by apply slots_keys in Hk.
    + exists st2. split; [exact Hrest|].
      rewrite Hdict2, Hfeat2, Hdict, Hfeat, <- !app_assoc. done.
Qed.

End file_sections.

(** The file branch on a glossary in the documented layout. *)
Lemma file_mode_layout (token_list : list string) (special_char : ascii)
    (sections : list (string * list string)) :
  (line ← Py.getitem (section_lines sections) 0; Py.first_char line)
  = Return special_char →
  layout special_char sections →
  ∃ st, file_mode token_list (section_lines sections) = Return st
        ∧ cs_dict st = concat (section_slots special_char token_list sections)
        ∧ cs_features st = category_name special_char <$> sections.*1.
Proof.
  intros Hfirst [Hsections Hnodup]. unfold file_mode.
  destruct (Py.getitem (section_lines sections) 0) as [line|]; [|done].
  cbn [mbind result_bind] in *. rewrite Hfirst. cbn [mbind result_bind].
  destruct (file_sections special_char token_list sections Hsections
              {| cs_dict := []; cs_features := []; f_i := 0; e_i := 0 |})
    as (st & Hloop & Hdict & Hfeat); try done.
  by exists st.
Qed.

Lemma token_categorizer_layout (self : Assembly_Preprocessor) (fs : file_system)
    (token_list : list string) (path text : string) (special_char : ascii)
    (sections : list (string * list string)) :
  fs path = Some text →
  Py.readlines text = section_lines sections →
  (line ← Py.getitem (Py.readlines text) 0; Py.first_char line) = Return special_char →
  layout special_char sections →
  token_categorizer self fs token_list (PyStr path)
  = (if Z.of_nat (length (section_lines sections)) - Z.of_nat (length sections)
        <? Z.of_nat (length token_list)
     then [warning] else [],
     Return (concat (section_slots special_char token_list sections))).
Proof.
  intros Hfile Hlines Hfirst Hlayout. unfold token_categorizer.
  rewrite Hfile, Hlines. rewrite Hlines in Hfirst.
  destruct (file_mode_layout token_list special_char sections Hfirst Hlayout)
    as (st & -> & -> & ->).
  by rewrite length_fmap, length_fmap.
Qed.

(** X8: on a glossary file in the documented layout (every category
    starts with a line holding the first character of the file, no other
    line holds it, no category name comes twice) file mode returns the
    assignment that lists the categories in the order of the file and gives
    each the mnemonics of its lines that are in the vocabulary, in the order
    of the file, at positions 0, 1, 2, ...; a category none of whose
    mnemonics is in the vocabulary gets the single slot at position 0,
    holding the empty string.  The warning is printed when the file has
    fewer lines other than marker lines than the vocabulary has tokens. *)
Theorem X8_file_assignment (self : Assembly_Preprocessor) (fs : file_system)
    (token_list : list string) (path text : string) (special_char : ascii)
    (sections : list (string * list string)) :
  fs path = Some text →
  Py.readlines text = section_lines sections →
  (line ← Py.getitem (Py.readlines text) 0; Py.first_char line) = Return special_char →
  layout special_char sections →
  token_categorizer self fs token_list (PyStr path)
  = (if Z.of_nat (length (section_lines sections)) - Z.of_nat (length sections)
        <? Z.of_nat (length token_list)
     then [warning] else [],
     Return (concat (section_slots special_char token_list sections))).
Proof. apply token_categorizer_layout. Qed.

Lemma small_glossary_layout : layout "*" small_glossary_sections.
Proof.
  split.
  - repeat constructor.
  - apply (bool_decide_unpack _). vm_compute. exact I.
Qed.

Lemma X8_file_assignment_witness :
  let fs := one_file "glossary.txt" small_glossary_text in
  fs "glossary.txt" = Some small_glossary_text
  ∧ Py.readlines small_glossary_text = section_lines small_glossary_sections
  ∧ (line ← Py.getitem (Py.readlines small_glossary_text) 0; Py.first_char line)
    = Return "*"%char
  ∧ layout "*" small_glossary_sections
  ∧ token_categorizer {| default_glossary := glossary3 |} fs ["add"; "jmp"]
      (PyStr "glossary.txt")
    = (if Z.of_nat (length (section_lines small_glossary_sections))
          - Z.of_nat (length small_glossary_sections)
          <? Z.of_nat (length ["add"; "jmp"])
       then [warning] else [],
       Return (concat (section_slots "*" ["add"; "jmp"] small_glossary_sections))).
Proof.
  intros fs.
  split; [reflexivity|]. split; [vm_compute; reflexivity|].
  split; [vm_compute; reflexivity|]. split; [exact small_glossary_layout|].
  apply (X8_file_assignment {| default_glossary := glossary3 |} fs ["add"; "jmp"]
           "glossary.txt" small_glossary_text "*" small_glossary_sections);
    [reflexivity|vm_compute; reflexivity|vm_compute; reflexivity|
     exact small_glossary_layout].
Defined.

Example file_assignment_example :
  token_categorizer {| default_glossary := glossary3 |}
    (one_file "glossary.txt" small_glossary_text) ["add"; "jmp"] (PyStr "glossary.txt")
  = ([], Return [(("Data transfer instructions", 0), "");
                 (("Arithmetic instructions", 0), "add")]).
Proof. vm_compute. reflexivity. Qed.

(** A category name that comes twice scatters the slots of its category,
    and the aggregator leaves the list of counts. *)
Example repeated_category_raises :
  let text := String.concat nl ["*A*"; "mov"; "*B*"; "add"; "*A*"; "sub"; "xor"; ""] in
  let fs := one_file "glossary.txt" text in
  token_categorizer {| default_glossary := glossary3 |} fs ["mov"; "add"; "sub"; "xor"]
    (PyStr "glossary.txt")
  = ([], Return [(("A", 0), "movsub"); (("B", 0), "add"); (("A", 1), "xor")])
  ∧ complete_preprocessing {| default_glossary := glossary3 |} fs
      ["'mov eax, 1''add eax, 2''sub eax, 3''xor eax, eax'"] (PyStr "glossary.txt")
    = ([warning], Raise IndexError).
Proof. split; vm_compute; reflexivity. Qed.

(** ** The pipeline in file mode *)

Lemma section_slots_grouped (special_char : ascii) (token_list : list string)
    (sections : list (string * list string)) :
  NoDup (category_name special_char <$> sections.*1) →
  grouped (category_name special_char <$> sections.*1)
    (section_slots special_char token_list sections).
Proof.
  intros Hnodup. split; [done|]. clear Hnodup. unfold section_slots.
  induction sections as [|[marker mnemonic_lines] sections IH]; [by constructor|].
  rewrite !fmap_cons. constructor; [|done]. simpl. split.
  - destruct (listed token_list mnemonic_lines); [done|].
    unfold slots. by rewrite slots_from_cons.
  - apply Forall_forall. intros item Hitem.
    apply (slots_keys _ (listed token_list mnemonic_lines)). by apply list_elem_of_fmap_2.
Qed.

Lemma complete_preprocessing_layout (self : Assembly_Preprocessor) (fs : file_system)
    (assembly_functions : list string) (path text : string) (special_char : ascii)
    (sections : list (string * list string)) :
  fs path = Some text →
  Py.readlines text = section_lines sections →
  (line ← Py.getitem (Py.readlines text) 0; Py.first_char line) = Return special_char →
  layout special_char sections →
  complete_preprocessing self fs assembly_functions (PyStr path)
  = (let token_list := (tokenize_instructions assembly_functions).1 in
     if Z.of_nat (length (section_lines sections)) - Z.of_nat (length sections)
        <? Z.of_nat (length token_list)
     then [warning] else [],
     let token_list := (tokenize_instructions assembly_functions).1 in
     let tokenized_functions := (tokenize_instructions assembly_functions).2 in
     let slot_blocks := section_slots special_char token_list sections in
     if decide (Exists (unscored (concat slot_blocks)) tokenized_functions)
     then Raise ZeroDivisionError
     else Return {| columns := category_name special_char <$> sections.*1;
                    data := grouped_row slot_blocks <$> tokenized_functions |}).
Proof.
  intros Hfile Hlines Hfirst Hlayout. unfold complete_preprocessing.
  destruct (tokenize_instructions assembly_functions) as [token_list tokenized_functions].
  rewrite (token_categorizer_layout self fs token_list path text special_char sections)
    by done.
  cbn [fst snd mbind result_bind]. f_equal.
  rewrite (assembly_dataframer_grouped (category_name special_char <$> sections.*1))
    by (apply section_slots_grouped, Hlayout).
  apply decide_ext. split; [tauto|]. intros Hex. split; [|done].
  destruct sections; [|done].
  rewrite Hlines in Hfirst. discriminate Hfirst.
Qed.

(** X5: with a glossary file in the documented layout the pipeline never
    raises an [IndexError]: it raises [ZeroDivisionError] when some function
    has no token held by a slot of the assignment, and otherwise returns the
    table whose columns are the category names of the file, in the order of
    the file, with one row per function.  The warning is printed, once, when
    the file has fewer lines other than marker lines than the vocabulary has
    tokens. *)
Theorem X5_file_pipeline (self : Assembly_Preprocessor) (fs : file_system)
    (assembly_functions : list string) (path text : string) (special_char : ascii)
    (sections : list (string * list string)) :
  fs path = Some text →
  Py.readlines text = section_lines sections →
  (line ← Py.getitem (Py.readlines text) 0; Py.first_char line) = Return special_char →
  layout special_char sections →
  complete_preprocessing self fs assembly_functions (PyStr path)
  = (let token_list := (tokenize_instructions assembly_functions).1 in
     if Z.of_nat (length (section_lines sections)) - Z.of_nat (length sections)
        <? Z.of_nat (length token_list)
     then [warning] else [],
     let token_list := (tokenize_instructions assembly_functions).1 in
     let tokenized_functions := (tokenize_instructions assembly_functions).2 in
     let slot_blocks := section_slots special_char token_list sections in
     if decide (Exists (unscored (concat slot_blocks)) tokenized_functions)
     then Raise ZeroDivisionError
     else Return {| columns := category_name special_char <$> sections.*1;
                    data := grouped_row slot_blocks <$> tokenized_functions |}).
Proof. apply complete_preprocessing_layout. Qed.

Lemma X5_file_pipeline_witness :
  let self := {| default_glossary := glossary3 |} in
  let fs := one_file "glossary.txt" small_glossary_text in
  fs "glossary.txt" = Some small_glossary_text
  ∧ Py.readlines small_glossary_text = section_lines small_glossary_sections
  ∧ (line ← Py.getitem (Py.readlines small_glossary_text) 0; Py.first_char line)
    = Return "*"%char
  ∧ layout "*" small_glossary_sections
  ∧ complete_preprocessing self fs example_functions (PyStr "glossary.txt")
    = (let token_list := (tokenize_instructions example_functions).1 in
       if Z.of_nat (length (section_lines small_glossary_sections))
          - Z.of_nat (length small_glossary_sections)
          <? Z.of_nat (length token_list)
       then [warning] else [],
       let token_list := (tokenize_instructions example_functions).1 in
       let tokenized_functions := (tokenize_instructions example_functions).2 in
       let slot_blocks := section_slots "*" token_list small_glossary_sections in
       if decide (Exists (unscored (concat slot_blocks)) tokenized_functions)
       then Raise ZeroDivisionError
       else Return {| columns := category_name "*" <$> small_glossary_sections.*1;
                      data := grouped_row slot_blocks <$> tokenized_functions |}).
Proof.
  intros self fs.
  split; [reflexivity|]. split; [vm_compute; reflexivity|].
  split; [vm_compute; reflexivity|]. split; [exact small_glossary_layout|].
  apply (X5_file_pipeline self fs example_functions "glossary.txt" small_glossary_text
           "*" small_glossary_sections);
    [reflexivity|vm_compute; reflexivity|vm_compute; reflexivity|
     exact small_glossary_layout].
Defined.

Example file_pipeline_example :
  complete_preprocessing {| default_glossary := glossary3 |}
    (one_file "glossary.txt" small_glossary_text) example_functions (PyStr "glossary.txt")
  = ([warning], Raise ZeroDivisionError).
Proof. vm_compute. reflexivity. Qed.
